(** * Sentiment-analysis API: dispatch, parsing, fallback and aggregation

    A shallow embedding of [models.py], [sentiment_analyzer.py] and the two
    analysis endpoints of [main.py].

    Conventions of the embedding
    - Python exceptions are values of [exn]; a fallible computation has type
      [res A] and is written in monadic style ([x ← e; k]).  A [try/except
      Exception] block is [try_except].
    - A Python [str] is a [string] that holds its UTF-8 encoding, one
      element per byte: the rupee sign is the three bytes of its literal.
      [len] counts the characters (the bytes that start one), a slice cuts
      at characters, and [strip] removes the white space of Unicode.
      [lower] maps the letters of ASCII and leaves the others.
    - A Python [float] is a [pyfloat]: the rational value of a binary64
      number, or one of the three special values.  Every operation rounds
      its exact result to the nearest double, ties to even ([to_double]),
      and goes to an infinity, or raises [OverflowError] where Python does,
      beyond the largest one.  The two zeros are one value.
    - The completion client, the standard JSON decoder, the conversion of
      strings to numbers, the rendering of exceptions and the field
      validators of the schema library are outside the repository.  They
      are the fields of [PyRuntime]; [Reference.runtime] is an executable
      instance used for the closed examples.
    - [print] calls are dropped. *)

From Stdlib Require Import ZArith QArith Qround Qpower Qabs Lia Lqa List String Ascii.
From stdpp Require Import base option list strings.

Local Open Scope string_scope.
Local Open Scope Z_scope.

(** ** Exceptions and the error monad *)

(** Every exception raised in the modelled code is a subclass of Python's
    [Exception]; [HTTPException] is the web framework's, the others are
    built in or raised by the libraries. *)
Inductive exn : Type :=
| KeyError (key : string)
| TypeError
| ValueError
| AttributeError
| OverflowError (info : string)
| ZeroDivisionError
| JSONDecodeError
| IndexError
| ValidationError
| ClientError (info : string)
| HTTPException (status_code : Z) (detail : string).

Inductive res (A : Type) : Type :=
| Ok (a : A)
| Raise (e : exn).
Arguments Ok {A} a.
Arguments Raise {A} e.

#[global] Instance res_ret : MRet res := fun A a => Ok a.
#[global] Instance res_bind : MBind res := fun A B k m =>
  match m with
  | Ok a => k a
  | Raise e => Raise e
  end.

(** [try: body except Exception as e: handler e] *)
Definition try_except {A} (body : res A) (handler : exn -> res A) : res A :=
  match body with
  | Ok a => Ok a
  | Raise e => handler e
  end.

(** ** Strings *)

(** The white space of [str.isspace] that is one byte long: U+0009 to
    U+000D and U+001C to U+0020. *)
Definition is_space (c : ascii) : bool :=
  let n := nat_of_ascii c in
  ((9 <=? n)%nat && (n <=? 13)%nat) || ((28 <=? n)%nat && (n <=? 32)%nat).

Definition byte_in (lo hi : nat) (c : ascii) : bool :=
  (lo <=? nat_of_ascii c)%nat && (nat_of_ascii c <=? hi)%nat.

(** A character of ASCII: the only byte of its encoding. *)
Definition is_ascii (c : ascii) : bool := byte_in 0 127 c.

(** A byte of the encoding of a character that is not its first. *)
Definition is_continuation (c : ascii) : bool := byte_in 128 191 c.

(** The white space that is two bytes long: U+0085 and U+00A0. *)
Definition is_space2 (c d : ascii) : bool :=
  byte_in 194 194 c && (byte_in 133 133 d || byte_in 160 160 d).

(** The white space that is three bytes long: U+1680, U+2000 to U+200A,
    U+2028, U+2029, U+202F, U+205F and U+3000. *)
Definition is_space3 (c d e : ascii) : bool :=
  (byte_in 225 225 c && byte_in 154 154 d && byte_in 128 128 e)
  || (byte_in 226 226 c && byte_in 128 128 d
      && (byte_in 128 138 e || byte_in 168 169 e || byte_in 175 175 e))
  || (byte_in 226 226 c && byte_in 129 129 d && byte_in 159 159 e)
  || (byte_in 227 227 c && byte_in 128 128 d && byte_in 128 128 e).

Fixpoint lstrip (s : string) : string :=
  match s with
  | String c r =>
      if is_space c then lstrip r
      else match r with
           | String d r1 =>
               if is_space2 c d then lstrip r1
               else match r1 with
                    | String e r2 => if is_space3 c d e then lstrip r2 else s
                    | EmptyString => s
                    end
           | EmptyString => s
           end
  | EmptyString => EmptyString
  end.

(** [o] is a character of ASCII that is not white space: no byte of the
    white space that [lstrip] removes is [o]. *)
Definition plain (o : ascii) : Prop := is_space o = false /\ is_ascii o = true.

(** Every character of [s] is white space. *)
Definition all_space (s : string) : bool :=
  match lstrip s with
  | EmptyString => true
  | String _ _ => false
  end.

(** The text is cut where what follows is white space only; a byte inside a
    character never starts white space, so the cut is at a character. *)
Fixpoint rstrip (s : string) : string :=
  match s with
  | String c r => if all_space s then EmptyString else String c (rstrip r)
  | EmptyString => EmptyString
  end.

(** [s.strip()] *)
Definition strip (s : string) : string := rstrip (lstrip s).

(** [len(s)]: the number of characters. *)
Fixpoint len (s : string) : nat :=
  match s with
  | String c r => if is_continuation c then len r else S (len r)
  | EmptyString => O
  end.

(** [not s] *)
Definition is_empty (s : string) : bool :=
  match s with
  | EmptyString => true
  | String _ _ => false
  end.

Definition lower_char (c : ascii) : ascii :=
  let n := nat_of_ascii c in
  if ((65 <=? n)%nat && (n <=? 90)%nat) then ascii_of_nat (n + 32) else c.

(** [s.lower()] on the letters of ASCII.  Of the other characters only the
    Kelvin sign lower-cases into ASCII (to the letter k). *)
Fixpoint lower (s : string) : string :=
  match s with
  | String c r => String (lower_char c) (lower r)
  | EmptyString => EmptyString
  end.

Fixpoint starts_with (p s : string) : bool :=
  match p, s with
  | EmptyString, _ => true
  | String a p', String b s' => if Ascii.eqb a b then starts_with p' s' else false
  | String _ _, EmptyString => false
  end.

(** What follows the first [n] bytes. *)
Fixpoint drop (n : nat) (s : string) : string :=
  match n, s with
  | O, _ => s
  | S n', String _ r => drop n' r
  | S _, EmptyString => EmptyString
  end.

(** [old in s] *)
Fixpoint contains (old s : string) : bool :=
  starts_with old s ||
  match s with
  | String _ r => contains old r
  | EmptyString => false
  end.

(** [s.replace(old, new)] for a non-empty [old]: occurrences are replaced
    from the left and do not overlap.  [fuel] bounds the number of steps
    and is the length of [s] plus one in [replace]. *)
Fixpoint replace_fuel (fuel : nat) (old new s : string) : string :=
  match fuel with
  | O => s
  | S fuel' =>
      match s with
      | EmptyString => EmptyString
      | String c r =>
          if starts_with old s
          then new ++ replace_fuel fuel' old new (drop (String.length old) s)
          else String c (replace_fuel fuel' old new r)
      end
  end.

Definition replace (old new s : string) : string :=
  replace_fuel (S (String.length s)) old new s.

(** [s[:n]]: the first [n] characters, each with all its bytes. *)
Fixpoint take (n : nat) (s : string) : string :=
  match s with
  | String c r =>
      if is_continuation c then String c (take n r)
      else match n with
           | O => EmptyString
           | S n' => String c (take n' r)
           end
  | EmptyString => EmptyString
  end.

(** [s[n:]]: what follows the first [n] characters. *)
Fixpoint skip (n : nat) (s : string) : string :=
  match s with
  | String c r =>
      if is_continuation c then skip n r
      else match n with
           | O => s
           | S n' => skip n' r
           end
  | EmptyString => EmptyString
  end.

(** The suffix of [s] that starts at the first [c]. *)
Fixpoint from_first (c : ascii) (s : string) : option string :=
  match s with
  | EmptyString => None
  | String a r => if Ascii.eqb a c then Some s else from_first c r
  end.

(** The prefix of [s] that ends at the last [c]. *)
Fixpoint through_last (c : ascii) (s : string) : option string :=
  match s with
  | EmptyString => None
  | String a r =>
      match through_last c r with
      | Some p => Some (String a p)
      | None => if Ascii.eqb a c then Some (String a EmptyString) else None
      end
  end.

(** [re.search(open .* close, text, re.DOTALL)] for two literal characters:
    the leftmost match starts at the first [open] that has a [close] after
    it, and the greedy [.*] extends it to the last [close] of the text. *)
Definition re_search_span (open close : ascii) (text : string) : option string :=
  match from_first open text with
  | Some (String _ r) =>
      match through_last close r with
      | Some p => Some (String open p)
      | None => None
      end
  | _ => None
  end.

(** ** Numbers *)

Inductive pyfloat : Type :=
| Fin (q : Q)
| PInf
| NInf
| NaN.

Definition finite (x : pyfloat) : bool :=
  match x with
  | Fin _ => true
  | _ => false
  end.

(** Rounding to the nearest integer, ties to the even one. *)
Definition round_half_even (q : Q) : Z :=
  let f := Qfloor q in
  match Qcompare (q - inject_Z f)%Q (1 # 2)%Q with
  | Lt => f
  | Gt => f + 1
  | Eq => if Z.even f then f else f + 1
  end.

Definition pow2 (k : Z) : Q := (2 ^ k)%Q.

(** The integer part of the binary logarithm of a positive rational: the
    difference of the logarithms of numerator and denominator, or one
    less. *)
Definition ilog2 (a : Q) : Z :=
  let k := Z.log2 (Qnum a) - Z.log2 (Z.pos (Qden a)) in
  if Qle_bool (pow2 k) a then k else k - 1.

(** The exponent of the last of the 53 bits of the double next to a
    positive rational; no double has a bit below [2^-1074]. *)
Definition exponent (a : Q) : Z := Z.max (ilog2 a - 52) (-1074).

(** The multiple of [2^exponent] nearest to a positive rational. *)
Definition nearest (a : Q) : Q :=
  (inject_Z (round_half_even (a / pow2 (exponent a))) * pow2 (exponent a))%Q.

(** The double nearest to a rational, ties to even; what rounds to [2^1024]
    or beyond is an infinity. *)
Definition to_double (q : Q) : pyfloat :=
  let r := Qred q in
  match Qcompare r 0 with
  | Eq => Fin 0
  | Gt => let v := nearest r in
          if Qle_bool (pow2 1024) v then PInf else Fin (Qred v)
  | Lt => let v := nearest (- r) in
          if Qle_bool (pow2 1024) v then NInf else Fin (Qred (- v))
  end.

(** [x + y] on two floats. *)
Definition pf_add (x y : pyfloat) : pyfloat :=
  match x, y with
  | NaN, _ | _, NaN => NaN
  | PInf, NInf | NInf, PInf => NaN
  | PInf, _ | _, PInf => PInf
  | NInf, _ | _, NInf => NInf
  | Fin a, Fin b => to_double (a + b)
  end.

Definition pf_opp (x : pyfloat) : pyfloat :=
  match x with
  | Fin a => Fin (Qred (- a))
  | PInf => NInf
  | NInf => PInf
  | NaN => NaN
  end.

(** [x * y] on two floats. *)
Definition pf_mul (x y : pyfloat) : pyfloat :=
  match x, y with
  | NaN, _ | _, NaN => NaN
  | Fin a, Fin b => to_double (a * b)
  | Fin a, inf | inf, Fin a =>
      match Qcompare a 0 with
      | Eq => NaN
      | Gt => inf
      | Lt => pf_opp inf
      end
  | PInf, PInf | NInf, NInf => PInf
  | PInf, NInf | NInf, PInf => NaN
  end.

(** [float(n)] on an int. *)
Definition float_of_int (n : Z) : res pyfloat :=
  match to_double (inject_Z n) with
  | Fin q => Ok (Fin q)
  | _ => Raise (OverflowError "int too large to convert to float")
  end.

(** [round(x, ndigits)] for [ndigits] from 0 on: the decimal nearest to the
    value of the double, ties to even, then the double nearest to it. *)
Definition py_round (x : pyfloat) (ndigits : nat) : pyfloat :=
  match x with
  | Fin q =>
      let p := (10 ^ Z.of_nat ndigits)%Z in
      to_double (inject_Z (round_half_even (q * inject_Z p)%Q) / inject_Z p)
  | _ => x
  end.

(** [a / b] on two ints: the double nearest to the quotient. *)
Definition int_truediv (a b : Z) : res pyfloat :=
  if (b =? 0)%Z then Raise ZeroDivisionError
  else match to_double (inject_Z a / inject_Z b) with
       | Fin q => Ok (Fin q)
       | _ => Raise (OverflowError "integer division result too large for a float")
       end.

(** [x / y] on two floats, [y] not zero. *)
Definition pf_div (x y : pyfloat) : pyfloat :=
  match x, y with
  | NaN, _ | _, NaN => NaN
  | Fin a, Fin b => to_double (a / b)
  | Fin _, _ => Fin 0
  | inf, Fin b => if Qle_bool 0 b then inf else pf_opp inf
  | _, _ => NaN
  end.

(** [x / n] for a float and the length [n] of a list.  A length is below
    [2^63], so that [float(n)] is its double and never overflows; only the
    division by zero raises. *)
Definition float_div_int (x : pyfloat) (n : Z) : res pyfloat :=
  if (n =? 0)%Z then Raise ZeroDivisionError
  else Ok (pf_div x (to_double (inject_Z n))).

Definition digit_char (d : Z) : ascii := ascii_of_nat (48 + Z.to_nat d).

Fixpoint digits_fuel (fuel : nat) (n : Z) (acc : string) : string :=
  match fuel with
  | O => acc
  | S fuel' =>
      let acc' := String (digit_char (n mod 10)) acc in
      if (n <? 10)%Z then acc' else digits_fuel fuel' (n / 10) acc'
  end.

(** Decimal digits of a natural number. *)
Definition digits (n : Z) : string :=
  digits_fuel (S (Z.to_nat (Z.log2 n))) n EmptyString.

(** [f"{x:.2f}"] *)
Definition format_2f (x : pyfloat) : string :=
  match x with
  | Fin q =>
      let h := Z.abs (round_half_even (q * 100)%Q) in
      (if Qlt_le_dec q 0%Q then "-" else "") ++
      digits (h / 100) ++ "." ++
      String (digit_char ((h / 10) mod 10)) (String (digit_char (h mod 10)) EmptyString)
  | PInf => "inf"
  | NInf => "-inf"
  | NaN => "nan"
  end.

(** ** Decoded JSON values

    What [json.loads] returns: [None], [bool], [int], [float], [str], [list]
    and [dict] (keys in insertion order, no key twice). *)
#[warnings="-register-all"] Inductive json : Type :=
| JNull
| JBool (b : bool)
| JInt (n : Z)
| JFloat (f : pyfloat)
| JStr (s : string)
| JArr (l : list json)
| JObj (d : list (string * json)).

Fixpoint assoc {A} (k : string) (d : list (string * A)) : option A :=
  match d with
  | [] => None
  | (k', v) :: d' => if String.eqb k k' then Some v else assoc k d'
  end.

(** [v[key]] for a string key. *)
Definition getitem (v : json) (key : string) : res json :=
  match v with
  | JObj d => match assoc key d with
              | Some x => Ok x
              | None => Raise (KeyError key)
              end
  | _ => Raise TypeError
  end.

(** [len(v)] *)
Definition py_len (v : json) : res nat :=
  match v with
  | JArr l => Ok (length l)
  | JObj d => Ok (length d)
  | JStr s => Ok (len s)
  | _ => Raise TypeError
  end.

(** [v[i]] for an index [i]; the keys of a decoded dictionary are strings,
    so an integer is never one of them ([key] is its rendering). *)
Definition getitem_int (v : json) (i : nat) (key : string) : res json :=
  match v with
  | JArr l => match l !! i with
              | Some x => Ok x
              | None => Raise IndexError
              end
  | JObj _ => Raise (KeyError key)
  | JStr s => if (i <? len s)%nat then Ok (JStr (take 1 (skip i s)))
              else Raise IndexError
  | _ => Raise TypeError
  end.

(** [v.lower()] *)
Definition py_lower (v : json) : res string :=
  match v with
  | JStr s => Ok (lower s)
  | _ => Raise AttributeError
  end.

(** ** The response schema ([models.py]) *)

Inductive SentimentType : Type := POSITIVE | NEGATIVE | NEUTRAL.

Definition value (s : SentimentType) : string :=
  match s with
  | POSITIVE => "positive"
  | NEGATIVE => "negative"
  | NEUTRAL => "neutral"
  end.

(** [SentimentType(s)]: lookup of a member by its value. *)
Definition SentimentType_of (s : string) : res SentimentType :=
  if String.eqb s "positive" then Ok POSITIVE
  else if String.eqb s "negative" then Ok NEGATIVE
  else if String.eqb s "neutral" then Ok NEUTRAL
  else Raise ValueError.

Record MessageRequest : Type := {
  req_message : string;
  req_customer_id : option string;
  req_agent_id : option string;
  req_timestamp : option string
}.

(** A request that carries only a message. *)
Definition request (msg : string) : MessageRequest :=
  {| req_message := msg; req_customer_id := None; req_agent_id := None;
     req_timestamp := None |}.

Record CostPrediction : Type := {
  optimal_conversation_type : string;
  predicted_cost : string;
  cost_saved : string;
  cost_reasoning : string
}.

Record ResponsePrediction : Type := {
  success_probability : Z;
  best_response_time : string;
  escalation_probability : Z;
  resolution_likelihood : string
}.

Record TemplateRecommendation : Type := {
  primary_category : string;
  confidence : Z;
  cost_impact : string;
  avoid_categories : list string;
  template_reasoning : string
}.

Record SentimentResponse : Type := {
  message : string;
  sentiment : SentimentType;
  confidence_score : pyfloat;
  reasoning : string;
  customer_id : option string;
  agent_id : option string;
  timestamp : option string;
  alert_level : string;
  churn_probability : Z;
  revenue_risk : string;
  purchase_intent : Z;
  customer_value_tier : string;
  retention_action : string;
  cost_prediction : CostPrediction;
  response_prediction : ResponsePrediction;
  template_recommendation : TemplateRecommendation
}.

(** The dictionary [{"results": ..., "summary": ...}] of the bulk analysis;
    the summary is kept as the dictionary it is. *)
Record BulkResult : Type := {
  results : list SentimentResponse;
  summary : json
}.

(** ** What the code takes from outside the repository *)

Class PyRuntime : Type := {
  (** [llm.invoke([HumanMessage(content=prompt)]).content]: the reply to the
      [n]-th request made to the completion service, or what it raises. *)
  llm_invoke : nat -> string -> res string;
  (** [prompt_template.format(message=m)] is [single_prefix ++ m ++
      single_suffix]: the two halves of the template text. *)
  single_prefix : string;
  single_suffix : string;
  bulk_prefix : string;
  bulk_suffix : string;
  (** [json.loads] *)
  json_loads : string -> res json;
  (** [int(s)] and [float(s)] on a string *)
  int_of_str : string -> res Z;
  float_of_str : string -> res pyfloat;
  (** [str(e)] *)
  exn_str : exn -> string;
  (** [str(i)] for the message number of the bulk prompt *)
  nat_str : nat -> string;
  (** validation of a decoded value against a field of type [str], [int]
      and [List[str]] by the schema library *)
  validate_str : json -> res string;
  validate_int : json -> res Z;
  validate_str_list : json -> res (list string)
}.

Section Analyzer.
Context {RT : PyRuntime}.

(** [int(v)] *)
Definition py_int (v : json) : res Z :=
  match v with
  | JInt n => Ok n
  | JBool b => Ok (if b then 1 else 0)
  | JFloat (Fin q) => Ok (Z.quot (Qnum q) (Z.pos (Qden q)))
  | JFloat NaN => Raise ValueError
  | JFloat _ => Raise (OverflowError "cannot convert float infinity to integer")
  | JStr s => int_of_str s
  | _ => Raise TypeError
  end.

(** [float(v)] *)
Definition py_float (v : json) : res pyfloat :=
  match v with
  | JInt n => float_of_int n
  | JBool b => Ok (Fin (if b then 1 else 0)%Q)
  | JFloat f => Ok f
  | JStr s => float_of_str s
  | _ => Raise TypeError
  end.

(** A required field of a model built from keyword arguments. *)
Definition field {A} (d : list (string * json)) (name : string)
    (validate : json -> res A) : res A :=
  match assoc name d with
  | Some v => validate v
  | None => Raise ValidationError
  end.

(** Unpacking [v] as keyword arguments: the value must be a mapping. *)
Definition kwargs (v : json) : res (list (string * json)) :=
  match v with
  | JObj d => Ok d
  | _ => Raise TypeError
  end.

(** [CostPrediction] built from the keyword arguments [v]. *)
Definition CostPrediction_of (v : json) : res CostPrediction :=
  d ← kwargs v;
  a ← field d "optimal_conversation_type" validate_str;
  b ← field d "predicted_cost" validate_str;
  c ← field d "cost_saved" validate_str;
  r ← field d "reasoning" validate_str;
  Ok {| optimal_conversation_type := a; predicted_cost := b;
        cost_saved := c; cost_reasoning := r |}.

(** [ResponsePrediction] built from the keyword arguments [v]. *)
Definition ResponsePrediction_of (v : json) : res ResponsePrediction :=
  d ← kwargs v;
  a ← field d "success_probability" validate_int;
  b ← field d "best_response_time" validate_str;
  c ← field d "escalation_probability" validate_int;
  r ← field d "resolution_likelihood" validate_str;
  Ok {| success_probability := a; best_response_time := b;
        escalation_probability := c; resolution_likelihood := r |}.

(** [TemplateRecommendation] built from the keyword arguments [v]. *)
Definition TemplateRecommendation_of (v : json) : res TemplateRecommendation :=
  d ← kwargs v;
  a ← field d "primary_category" validate_str;
  b ← field d "confidence" validate_int;
  c ← field d "cost_impact" validate_str;
  l ← field d "avoid_categories" validate_str_list;
  r ← field d "reasoning" validate_str;
  Ok {| primary_category := a; confidence := b; cost_impact := c;
        avoid_categories := l; template_reasoning := r |}.

(** [SentimentType(v.lower())] *)
Definition sentiment_of (v : json) : res SentimentType :=
  l ← py_lower v; SentimentType_of l.

(** The construction [SentimentResponse(message=..., sentiment=..., ...)]
    shared by [analyze_message] and [_analyze_bulk_optimized]: the keyword
    arguments are evaluated in order, then the four values passed as they
    were decoded are validated as strings. *)
Definition build_response (parsed : json) (msg : string)
    (cid aid ts : option string) : res SentimentResponse :=
  s ← (v ← getitem parsed "sentiment"; sentiment_of v);
  conf ← (v ← getitem parsed "confidence_score"; py_float v);
  reas ← getitem parsed "reasoning";
  alert ← (v ← getitem parsed "alert_level"; py_lower v);
  churn ← (v ← getitem parsed "churn_probability"; py_int v);
  rrisk ← getitem parsed "revenue_risk";
  pint ← (v ← getitem parsed "purchase_intent"; py_int v);
  tier ← getitem parsed "customer_value_tier";
  ract ← getitem parsed "retention_action";
  cp ← (v ← getitem parsed "cost_prediction"; CostPrediction_of v);
  rp ← (v ← getitem parsed "response_prediction"; ResponsePrediction_of v);
  tr ← (v ← getitem parsed "template_recommendation"; TemplateRecommendation_of v);
  reas' ← validate_str reas;
  rrisk' ← validate_str rrisk;
  tier' ← validate_str tier;
  ract' ← validate_str ract;
  Ok {| message := msg; sentiment := s; confidence_score := conf;
        reasoning := reas'; customer_id := cid; agent_id := aid;
        timestamp := ts; alert_level := alert; churn_probability := churn;
        revenue_risk := rrisk'; purchase_intent := pint;
        customer_value_tier := tier'; retention_action := ract';
        cost_prediction := cp; response_prediction := rp;
        template_recommendation := tr |}.

(** [_create_fallback_response] *)
Definition _create_fallback_response (msg : string)
    (cid aid ts : option string) (error : string) : SentimentResponse :=
  {| message := msg;
     sentiment := NEUTRAL;
     confidence_score := Fin 0;
     reasoning := "Analysis error: " ++ error;
     customer_id := cid; agent_id := aid; timestamp := ts;
     alert_level := "medium";
     churn_probability := 50;
     revenue_risk := "at_risk";
     purchase_intent := 25;
     customer_value_tier := "medium_value";
     retention_action := "follow_up";
     cost_prediction :=
       {| optimal_conversation_type := "service";
          predicted_cost := "₹0.00";
          cost_saved := "₹0.00";
          cost_reasoning := "Fallback to safe service category due to analysis error" |};
     response_prediction :=
       {| success_probability := 50;
          best_response_time := "within_1_hour";
          escalation_probability := 30;
          resolution_likelihood := "medium" |};
     template_recommendation :=
       {| primary_category := "service";
          confidence := 60;
          cost_impact := "₹0.00";
          avoid_categories := ["marketing"];
          template_reasoning := "Safe fallback recommendation - use service category" |} |}.

(** The text handed to [json.loads]: the stripped reply, cut down to the
    span found by the regular expression when there is one. *)
Definition extract (open close : ascii) (content : string) : string :=
  let response_text := strip content in
  match re_search_span open close response_text with
  | Some m => m
  | None => response_text
  end.

(** The body of the [try] of [analyze_message]. *)
Definition analyze_message_body (call : nat) (msg : string)
    (cid aid ts : option string) : res SentimentResponse :=
  let formatted_prompt := single_prefix ++ msg ++ single_suffix in
  content ← llm_invoke call formatted_prompt;
  parsed_response ← json_loads (extract "{" "}" content);
  build_response parsed_response msg cid aid ts.

(** [analyze_message]; [call] numbers the request it makes to the
    completion service. *)
Definition analyze_message (call : nat) (msg : string)
    (cid aid ts : option string) : res SentimentResponse :=
  try_except (analyze_message_body call msg cid aid ts)
    (fun e => Ok (_create_fallback_response msg cid aid ts
                    ("Analysis error: " ++ exn_str e))).

(** *** The aggregator: [_calculate_summary] *)

(** [d[key] += 1] on a dictionary of counters. *)
Fixpoint incr (key : string) (d : list (string * Z)) : res (list (string * Z)) :=
  match d with
  | [] => Raise (KeyError key)
  | (k, n) :: d' =>
      if String.eqb key k then Ok ((k, n + 1) :: d')
      else d'' ← incr key d'; Ok ((k, n) :: d'')
  end.

(** [d[key]] on a dictionary of counters. *)
Definition count_of (key : string) (d : list (string * Z)) : res Z :=
  match assoc key d with
  | Some n => Ok n
  | None => Raise (KeyError key)
  end.

(** The local variables of the loop over the results. *)
Record counters : Type := {
  sentiment_counts : list (string * Z);
  alert_counts : list (string * Z);
  total_churn_risk : Z;
  total_purchase_intent : Z;
  high_value_customers : Z;
  cost_optimization_savings : pyfloat
}.

Definition initial_counters : counters :=
  {| sentiment_counts := [("positive", 0); ("negative", 0); ("neutral", 0)];
     alert_counts := [("low", 0); ("medium", 0); ("high", 0)];
     total_churn_risk := 0;
     total_purchase_intent := 0;
     high_value_customers := 0;
     cost_optimization_savings := Fin 0 |}.

(** One iteration of the loop. *)
Definition count_result (acc : counters) (result : SentimentResponse) : res counters :=
  sc ← incr (value (sentiment result)) (sentiment_counts acc);
  ac ← incr (alert_level result) (alert_counts acc);
  let cost_saved_text := replace "₹" "" (cost_saved (cost_prediction result)) in
  Ok {| sentiment_counts := sc;
        alert_counts := ac;
        total_churn_risk := total_churn_risk acc + churn_probability result;
        total_purchase_intent := total_purchase_intent acc + purchase_intent result;
        high_value_customers :=
          (if String.eqb (customer_value_tier result) "high_value"
              || String.eqb (customer_value_tier result) "vip"
           then high_value_customers acc + 1 else high_value_customers acc);
        cost_optimization_savings :=
          match float_of_str cost_saved_text with
          | Ok cost_saved_value => pf_add (cost_optimization_savings acc) cost_saved_value
          | Raise _ => cost_optimization_savings acc
          end |}.

Fixpoint count_results (acc : counters) (l : list SentimentResponse) : res counters :=
  match l with
  | [] => Ok acc
  | result :: l' => acc' ← count_result acc result; count_results acc' l'
  end.

(** [round((count / total) * 100, ndigits)] *)
Definition percentage (count total : Z) (ndigits : nat) : res json :=
  q ← int_truediv count total;
  Ok (JFloat (py_round (pf_mul q (Fin 100)) ndigits)).

(** [round(total_value / total, ndigits)] *)
Definition average (total_value total : Z) (ndigits : nat) : res json :=
  q ← int_truediv total_value total;
  Ok (JFloat (py_round q ndigits)).

(** [len([r for r in results if p r])] *)
Definition count_if (p : SentimentResponse -> bool) (l : list SentimentResponse) : json :=
  JInt (Z.of_nat (length (filter (fun r => p r = true) l))).

(** [sum([r.confidence_score for r in results])]: the floats are added from
    the left, each sum rounded, as the builtin does it up to Python 3.11
    (from 3.12 on it carries a compensation term along). *)
Definition sum_confidence (l : list SentimentResponse) : pyfloat :=
  fold_left pf_add (map confidence_score l) (Fin 0).

Definition _calculate_summary (l : list SentimentResponse) : res BulkResult :=
  acc ← count_results initial_counters l;
  let total_messages := Z.of_nat (length l) in
  positive ← count_of "positive" (sentiment_counts acc);
  positive_percentage ← percentage positive total_messages 2;
  negative ← count_of "negative" (sentiment_counts acc);
  negative_percentage ← percentage negative total_messages 2;
  neutral ← count_of "neutral" (sentiment_counts acc);
  neutral_percentage ← percentage neutral total_messages 2;
  high ← count_of "high" (alert_counts acc);
  mean_confidence ← float_div_int (sum_confidence l) total_messages;
  average_churn_risk ← average (total_churn_risk acc) total_messages 1;
  average_purchase_intent ← average (total_purchase_intent acc) total_messages 1;
  high_value_percentage ← percentage (high_value_customers acc) total_messages 1;
  let summary := JObj [
    ("total_messages", JInt total_messages);
    ("processing_time", JStr "Optimized for performance");
    ("sentiment_distribution", JObj [
       ("positive_percentage", positive_percentage);
       ("negative_percentage", negative_percentage);
       ("neutral_percentage", neutral_percentage)]);
    ("alert_distribution", JObj (map (fun kv => (kv.1, JInt kv.2)) (alert_counts acc)));
    ("high_priority_count", JInt high);
    ("average_confidence", JFloat (py_round mean_confidence 2));
    ("business_intelligence", JObj [
       ("average_churn_risk", average_churn_risk);
       ("average_purchase_intent", average_purchase_intent);
       ("high_value_customers", JInt (high_value_customers acc));
       ("high_value_percentage", high_value_percentage);
       ("total_cost_savings", JStr ("₹" ++ format_2f (cost_optimization_savings acc)));
       ("customers_needing_retention",
          count_if (fun r => negb (String.eqb (retention_action r) "none")) l);
       ("immediate_response_required",
          count_if (fun r => contains "immediate" (best_response_time (response_prediction r))) l);
       ("marketing_opportunities",
          count_if (fun r => String.eqb (primary_category (template_recommendation r)) "marketing") l);
       ("service_required",
          count_if (fun r => String.eqb (primary_category (template_recommendation r)) "service") l)])
  ] in
  Ok {| results := l; summary := summary |}.

(** *** The dispatch: [analyze_bulk_messages] *)

Definition newline : string := String (ascii_of_nat 10) EmptyString.

(** The text [messages_batch] of the combined prompt; [i] is the number of
    the first message. *)
Fixpoint messages_batch (i : nat) (messages : list MessageRequest) : string :=
  match messages with
  | [] => ""
  | msg_request :: rest =>
      "Message " ++ nat_str i ++ ": " ++ req_message msg_request ++ newline
      ++ messages_batch (S i) rest
  end.

Definition fallback_for (msg_request : MessageRequest) (error : string) : SentimentResponse :=
  _create_fallback_response (req_message msg_request) (req_customer_id msg_request)
    (req_agent_id msg_request) (req_timestamp msg_request) error.

(** The loop of [_analyze_bulk_optimized] over [enumerate(messages)],
    from index [i] on. *)
Fixpoint batch_results (parsed_responses : json) (i : nat)
    (messages : list MessageRequest) : res (list SentimentResponse) :=
  match messages with
  | [] => Ok []
  | msg_request :: rest =>
      n ← py_len parsed_responses;
      r ← (if (i <? n)%nat
           then parsed_data ← getitem_int parsed_responses i (nat_str i);
                build_response parsed_data (req_message msg_request)
                  (req_customer_id msg_request) (req_agent_id msg_request)
                  (req_timestamp msg_request)
           else Ok (fallback_for msg_request "Batch processing incomplete"));
      rs ← batch_results parsed_responses (S i) rest;
      Ok (r :: rs)
  end.

(** The loop of [_analyze_bulk_individual]; the first request to the
    completion service has number [call]. *)
Fixpoint individual_results (call : nat) (messages : list MessageRequest)
    : res (list SentimentResponse) :=
  match messages with
  | [] => Ok []
  | msg_request :: rest =>
      r ← try_except
            (analyze_message call (req_message msg_request)
               (req_customer_id msg_request) (req_agent_id msg_request)
               (req_timestamp msg_request))
            (fun e => Ok (fallback_for msg_request ("Processing error: " ++ exn_str e)));
      rs ← individual_results (S call) rest;
      Ok (r :: rs)
  end.

Definition _analyze_bulk_individual (call : nat) (messages : list MessageRequest)
    : res BulkResult :=
  rs ← individual_results call messages;
  _calculate_summary rs.

(** The body of the [try] of [_analyze_bulk_optimized]. *)
Definition analyze_bulk_optimized_body (call : nat) (messages : list MessageRequest)
    : res BulkResult :=
  let formatted_prompt := bulk_prefix ++ messages_batch 1 messages ++ bulk_suffix in
  content ← llm_invoke call formatted_prompt;
  parsed_responses ← json_loads (extract "[" "]" content);
  rs ← batch_results parsed_responses 0 messages;
  _calculate_summary rs.

(** [_analyze_bulk_optimized]: one request, numbered [call]; when anything
    in the body raises, the individual loop runs with the requests that
    follow. *)
Definition _analyze_bulk_optimized (call : nat) (messages : list MessageRequest)
    : res BulkResult :=
  try_except (analyze_bulk_optimized_body call messages)
    (fun _ => _analyze_bulk_individual (S call) messages).

Definition analyze_bulk_messages (call : nat) (messages : list MessageRequest)
    : res BulkResult :=
  let messages := if (15 <? length messages)%nat then firstn 15 messages else messages in
  if (length messages <=? 8)%nat
  then _analyze_bulk_optimized call messages
  else _analyze_bulk_individual call messages.

(** *** The two analysis endpoints of [main.py]

    [now] is [datetime.now().isoformat()].  An endpoint returns its body or
    raises; see [status] for what the framework answers. *)

Definition analyze_sentiment (call : nat) (now : string) (request : MessageRequest)
    : res SentimentResponse :=
  try_except
    (_ ← (if is_empty (req_message request)
             || (len (strip (req_message request)) =? 0)%nat
          then Raise (HTTPException 400 "Message cannot be empty")
          else Ok tt);
     _ ← (if (2000 <? len (req_message request))%nat
          then Raise (HTTPException 400 "Message too long (max 2000 characters)")
          else Ok tt);
     let ts := match req_timestamp request with
               | Some (String c r) => Some (String c r)
               | _ => Some now
               end in
     analyze_message call (req_message request) (req_customer_id request)
       (req_agent_id request) ts)
    (fun e => Raise (HTTPException 500 ("Sentiment analysis failed: " ++ exn_str e))).

(** The loop of [analyze_bulk_sentiment] that fills in timestamps and cuts
    long messages. *)
Definition prepare (now : string) (msg : MessageRequest) : MessageRequest :=
  {| req_message :=
       (if (2000 <? len (req_message msg))%nat
        then take 2000 (req_message msg) ++ "..."
        else req_message msg);
     req_customer_id := req_customer_id msg;
     req_agent_id := req_agent_id msg;
     req_timestamp := match req_timestamp msg with
                      | Some (String c r) => Some (String c r)
                      | _ => Some now
                      end |}.

Definition analyze_bulk_sentiment (call : nat) (now : string)
    (messages : list MessageRequest) : res BulkResult :=
  try_except
    (_ ← (if (length messages =? 0)%nat
          then Raise (HTTPException 400 "Messages list cannot be empty")
          else Ok tt);
     _ ← (if (15 <? length messages)%nat
          then Raise (HTTPException 400
                 "Maximum 15 messages allowed per bulk request for optimal performance. For larger datasets, use multiple smaller requests.")
          else Ok tt);
     analyze_bulk_messages call (map (prepare now) messages))
    (fun e => Raise (HTTPException 500 ("Bulk sentiment analysis failed: " ++ exn_str e))).

(** No float of the value is NaN or an infinity. *)
Fixpoint json_finite (v : json) : bool :=
  match v with
  | JFloat f => finite f
  | JArr l => forallb json_finite l
  | JObj d => forallb (fun kv => json_finite kv.2) d
  | _ => true
  end.

(** The bodies that the endpoints return.  The framework writes the body
    with [json.dumps(..., allow_nan=False)], which raises on a float that
    is NaN or an infinity: [renders] tells whether it writes it. *)
Class Body (A : Type) : Type := renders : A -> bool.

#[global] Instance SentimentResponse_body : Body SentimentResponse :=
  fun r => finite (confidence_score r).

#[global] Instance BulkResult_body : Body BulkResult :=
  fun b => forallb (fun r => finite (confidence_score r)) (results b)
           && json_finite (summary b).

#[global] Instance json_body : Body json := json_finite.

(** The status code of the HTTP response: 200 with a body that the
    framework writes, 500 when writing it fails, the status of the
    [HTTPException] that the endpoint raises, and 500 for another
    exception. *)
Definition status {A} `{Body A} (r : res A) : Z :=
  match r with
  | Ok body => if renders body then 200 else 500
  | Raise (HTTPException code _) => code
  | Raise _ => 500
  end.

(** *** The other endpoints of [main.py] that reach the analyzer *)

Definition opt_json (o : option string) : json :=
  match o with
  | Some s => JStr s
  | None => JNull
  end.

(** [f"{o}"] for an optional string *)
Definition opt_str (o : option string) : string :=
  match o with
  | Some s => s
  | None => "None"
  end.

(** [health_check]: the canned message goes through [analyze_message]; the
    handler of the [try] reports the service as unhealthy. *)
Definition health_check (call : nat) (now : string) : res json :=
  try_except
    (test_result ← analyze_message call
                     "Hello, this is a test message for health check" None None None;
     Ok (JObj [("status", JStr "healthy");
               ("groq_connection", JStr "working");
               ("analyzer_status", JStr "functional");
               ("performance_optimizations", JStr "enabled");
               ("bulk_processing_limit", JInt 15);
               ("single_message_limit", JStr "2000 characters");
               ("timestamp", JStr now);
               ("test_sentiment", JStr (value (sentiment test_result)));
               ("api_version", JStr "1.1.0")]))
    (fun e => Ok (JObj [("status", JStr "unhealthy");
                        ("error", JStr (exn_str e));
                        ("timestamp", JStr now)])).

(** [request.message.strip().replace('\n', ' ').replace('\r', ' ')], cut to
    2000 characters and three dots when it is longer. *)
Definition cleaned_message (msg : string) : string :=
  let cleaned :=
    replace (String (ascii_of_nat 13) EmptyString) " "
      (replace newline " " (strip msg)) in
  if (2000 <? len cleaned)%nat then take 2000 cleaned ++ "..." else cleaned.

(** [aisensy_chat_analysis]; [stamp] is the text of
    [datetime.now().timestamp()]. *)
Definition aisensy_chat_analysis (call : nat) (now stamp : string)
    (request : MessageRequest) : res json :=
  try_except
    (let cleaned := cleaned_message (req_message request) in
     _ ← (if is_empty cleaned
          then Raise (HTTPException 400 "Message cannot be empty")
          else Ok tt);
     result ← analyze_message call cleaned (req_customer_id request)
                (req_agent_id request) (req_timestamp request);
     Ok (JObj [
       ("message_id", JStr ("msg_" ++ opt_str (req_customer_id request) ++ "_" ++ stamp));
       ("sentiment", JStr (value (sentiment result)));
       ("confidence", JFloat (confidence_score result));
       ("alert_required",
          JBool (String.eqb (alert_level result) "medium"
                 || String.eqb (alert_level result) "high"));
       ("alert_level", JStr (alert_level result));
       ("summary", JStr (reasoning result));
       ("business_intelligence", JObj [
          ("churn_risk", JInt (churn_probability result));
          ("revenue_risk", JStr (revenue_risk result));
          ("purchase_intent", JInt (purchase_intent result));
          ("customer_tier", JStr (customer_value_tier result));
          ("retention_action", JStr (retention_action result))]);
       ("whatsapp_optimization", JObj [
          ("recommended_category", JStr (primary_category (template_recommendation result)));
          ("predicted_cost", JStr (predicted_cost (cost_prediction result)));
          ("cost_saved", JStr (cost_saved (cost_prediction result)));
          ("avoid_categories",
             JArr (map JStr (avoid_categories (template_recommendation result))))]);
       ("response_guidance", JObj [
          ("success_probability", JInt (success_probability (response_prediction result)));
          ("best_response_time", JStr (best_response_time (response_prediction result)));
          ("escalation_risk", JInt (escalation_probability (response_prediction result)))]);
       ("customer_id", opt_json (req_customer_id request));
       ("agent_id", opt_json (req_agent_id request));
       ("processed_at", JStr now)]))
    (fun e => Raise (HTTPException 500 ("AiSensy chat analysis failed: " ++ exn_str e))).

End Analyzer.

(** ** An executable runtime

    A decoder for JSON texts without [\u] escapes, the conversions of plain
    decimal literals (to the nearest double), and validators that accept a
    value of the field's type (and, for [int], what converts to it without
    loss).  It instantiates [PyRuntime] in the closed examples below. *)
Module Reference.

Definition dquote : ascii := ascii_of_nat 34.
Definition backslash : ascii := ascii_of_nat 92.

(** Writes a JSON text with ['] where the text has a double quote. *)
Fixpoint dq (s : string) : string :=
  match s with
  | String c r => String (if Ascii.eqb c "'" then dquote else c) (dq r)
  | EmptyString => EmptyString
  end.

Definition is_json_ws (c : ascii) : bool :=
  let n := nat_of_ascii c in
  (n =? 32)%nat || (n =? 9)%nat || (n =? 10)%nat || (n =? 13)%nat.

Fixpoint skip_ws (s : string) : string :=
  match s with
  | String c r => if is_json_ws c then skip_ws r else s
  | EmptyString => EmptyString
  end.

Definition digit_of (c : ascii) : option Z :=
  let n := nat_of_ascii c in
  if ((48 <=? n)%nat && (n <=? 57)%nat) then Some (Z.of_nat n - 48) else None.

(** The longest run of digits at the head of [s]: its value on top of [acc],
    its length on top of [count], and the rest. *)
Fixpoint read_digits (acc : Z) (count : nat) (s : string) : Z * nat * string :=
  match s with
  | String c r =>
      match digit_of c with
      | Some d => read_digits (acc * 10 + d) (S count) r
      | None => (acc, count, s)
      end
  | EmptyString => (acc, count, s)
  end.

Definition pow10 (e : Z) : Q :=
  if (0 <=? e)%Z then inject_Z (10 ^ e) else Qmake 1 (Z.to_pos (10 ^ (- e))).

(** An optional fraction [.digits] and an optional exponent [e(+|-)digits]:
    the factor-free fraction, the exponent, whether either was there, and
    the rest. *)
Definition read_frac_exp (s : string) : Q * Z * bool * string :=
  let '(frac, has_frac, s1) :=
    match s with
    | String "." r =>
        let '(v, k, r') := read_digits 0 0 r in
        if (k =? 0)%nat then (0%Q, false, s)
        else ((inject_Z v * pow10 (- Z.of_nat k))%Q, true, r')
    | _ => (0%Q, false, s)
    end in
  let '(ex, has_exp, s2) :=
    match s1 with
    | String c r =>
        if Ascii.eqb c "e" || Ascii.eqb c "E" then
          let '(neg, r1) :=
            match r with
            | String "-" r' => (true, r')
            | String "+" r' => (false, r')
            | _ => (false, r)
            end in
          let '(v, k, r2) := read_digits 0 0 r1 in
          if (k =? 0)%nat then (0, false, s1)
          else ((if neg then - v else v), true, r2)
        else (0, false, s1)
    | _ => (0, false, s1)
    end in
  (frac, ex, has_frac || has_exp, s2).

Definition read_number (s : string) : option (json * string) :=
  let '(neg, s1) :=
    match s with
    | String "-" r => (true, r)
    | _ => (false, s)
    end in
  let '(ip, n, s2) :=
    match s1 with
    | String "0" r => (0, 1%nat, r)
    | _ => read_digits 0 0 s1
    end in
  if (n =? 0)%nat then None
  else
    let '(frac, ex, is_float, s3) := read_frac_exp s2 in
    if is_float then
      let q := ((inject_Z ip + frac) * pow10 ex)%Q in
      Some (JFloat (to_double (if neg then - q else q)%Q), s3)
    else Some (JInt (if neg then - ip else ip), s3).

Definition unescape (c : ascii) : option ascii :=
  if Ascii.eqb c dquote then Some dquote
  else if Ascii.eqb c backslash then Some backslash
  else if Ascii.eqb c "/" then Some "/"%char
  else if Ascii.eqb c "b" then Some (ascii_of_nat 8)
  else if Ascii.eqb c "f" then Some (ascii_of_nat 12)
  else if Ascii.eqb c "n" then Some (ascii_of_nat 10)
  else if Ascii.eqb c "r" then Some (ascii_of_nat 13)
  else if Ascii.eqb c "t" then Some (ascii_of_nat 9)
  else None.

(** The string that ends at the first unescaped double quote of [s], and
    what follows the quote. *)
Fixpoint read_string (s : string) : option (string * string) :=
  match s with
  | EmptyString => None
  | String c r =>
      if Ascii.eqb c dquote then Some (EmptyString, r)
      else if Ascii.eqb c backslash then
        match r with
        | String e r' =>
            match unescape e, read_string r' with
            | Some ch, Some (p, rest) => Some (String ch p, rest)
            | _, _ => None
            end
        | EmptyString => None
        end
      else if (nat_of_ascii c <? 32)%nat then None
      else match read_string r with
           | Some (p, rest) => Some (String c p, rest)
           | None => None
           end
  end.

(** [d[k] = v] on a dictionary under construction. *)
Fixpoint dict_set (k : string) (v : json) (d : list (string * json))
    : list (string * json) :=
  match d with
  | [] => [(k, v)]
  | (k', v') :: d' =>
      if String.eqb k k' then (k', v) :: d' else (k', v') :: dict_set k v d'
  end.

Definition literals : list (string * json) :=
  [("true", JBool true); ("false", JBool false); ("null", JNull);
   ("NaN", JFloat NaN); ("Infinity", JFloat PInf); ("-Infinity", JFloat NInf)].

Fixpoint read_literal (l : list (string * json)) (s : string) : option (json * string) :=
  match l with
  | [] => None
  | (name, v) :: l' =>
      if starts_with name s then Some (v, drop (String.length name) s)
      else read_literal l' s
  end.

Fixpoint read_value (fuel : nat) (s : string) : option (json * string) :=
  match fuel with
  | O => None
  | S fuel' =>
      match skip_ws s with
      | String c r =>
          if Ascii.eqb c dquote then
            match read_string r with
            | Some (str, rest) => Some (JStr str, rest)
            | None => None
            end
          else if Ascii.eqb c "[" then
            match skip_ws r with
            | String "]" rest => Some (JArr [], rest)
            | _ => match read_elements fuel' r with
                   | Some (l, rest) => Some (JArr l, rest)
                   | None => None
                   end
            end
          else if Ascii.eqb c "{" then
            match skip_ws r with
            | String "}" rest => Some (JObj [], rest)
            | _ => match read_members fuel' r [] with
                   | Some (d, rest) => Some (JObj d, rest)
                   | None => None
                   end
            end
          else match read_literal literals (String c r) with
               | Some p => Some p
               | None => read_number (String c r)
               end
      | EmptyString => None
      end
  end
with read_elements (fuel : nat) (s : string) : option (list json * string) :=
  match fuel with
  | O => None
  | S fuel' =>
      match read_value fuel' s with
      | Some (v, r) =>
          match skip_ws r with
          | String "," r' =>
              match read_elements fuel' r' with
              | Some (l, rest) => Some (v :: l, rest)
              | None => None
              end
          | String "]" rest => Some ([v], rest)
          | _ => None
          end
      | None => None
      end
  end
with read_members (fuel : nat) (s : string) (d : list (string * json))
    : option (list (string * json) * string) :=
  match fuel with
  | O => None
  | S fuel' =>
      match skip_ws s with
      | String c r =>
          if Ascii.eqb c dquote then
            match read_string r with
            | Some (k, r1) =>
                match skip_ws r1 with
                | String ":" r2 =>
                    match read_value fuel' r2 with
                    | Some (v, r3) =>
                        match skip_ws r3 with
                        | String "," r4 => read_members fuel' r4 (dict_set k v d)
                        | String "}" rest => Some (dict_set k v d, rest)
                        | _ => None
                        end
                    | None => None
                    end
                | _ => None
                end
            | None => None
            end
          else None
      | EmptyString => None
      end
  end.

Definition json_loads (s : string) : res json :=
  match read_value (S (3 * String.length s)) s with
  | Some (v, rest) =>
      match skip_ws rest with
      | EmptyString => Ok v
      | _ => Raise JSONDecodeError
      end
  | None => Raise JSONDecodeError
  end.

Definition read_sign (s : string) : bool * string :=
  match s with
  | String "-" r => (true, r)
  | String "+" r => (false, r)
  | _ => (false, s)
  end.

(** [int(s)] for an optional sign and decimal digits between white space. *)
Definition int_of_str (s : string) : res Z :=
  let '(neg, t) := read_sign (strip s) in
  match read_digits 0 0 t with
  | (v, S _, EmptyString) => Ok (if neg then - v else v)
  | _ => Raise ValueError
  end.

(** [float(s)] for a decimal literal or one of the special values. *)
Definition float_of_str (s : string) : res pyfloat :=
  let '(neg, t) := read_sign (strip s) in
  let name := lower t in
  if String.eqb name "inf" || String.eqb name "infinity"
  then Ok (if neg then NInf else PInf)
  else if String.eqb name "nan" then Ok NaN
  else
    let '(ip, n, t1) := read_digits 0 0 t in
    let '(fp, k, t2) :=
      match t1 with
      | String "." r => read_digits 0 0 r
      | _ => (0, 0%nat, t1)
      end in
    if (n + k =? 0)%nat then Raise ValueError
    else
      let mantissa := (inject_Z ip + inject_Z fp * pow10 (- Z.of_nat k))%Q in
      let finish (ex : Z) :=
        let q := (mantissa * pow10 ex)%Q in
        Ok (to_double (if neg then - q else q)%Q) in
      match t2 with
      | EmptyString => finish 0
      | String c r =>
          if Ascii.eqb c "e" || Ascii.eqb c "E" then
            let '(eneg, r1) := read_sign r in
            match read_digits 0 0 r1 with
            | (v, S _, EmptyString) => finish (if eneg then - v else v)
            | _ => Raise ValueError
            end
          else Raise ValueError
      end.

Definition nat_str (n : nat) : string := digits (Z.of_nat n).

Definition exn_str (e : exn) : string :=
  match e with
  | KeyError key => "'" ++ key ++ "'"
  | TypeError => "unsupported operand"
  | ValueError => "invalid value"
  | AttributeError => "object has no attribute 'lower'"
  | OverflowError info => info
  | ZeroDivisionError => "division by zero"
  | JSONDecodeError => "Expecting value"
  | IndexError => "index out of range"
  | ValidationError => "validation error"
  | ClientError info => info
  | HTTPException status_code detail => digits status_code ++ ": " ++ detail
  end.

Definition validate_str (v : json) : res string :=
  match v with
  | JStr s => Ok s
  | _ => Raise ValidationError
  end.

Definition validate_int (v : json) : res Z :=
  match v with
  | JInt n => Ok n
  | JBool b => Ok (if b then 1 else 0)
  | JFloat (Fin q) =>
      if (Z.pos (Qden (Qred q)) =? 1)%Z then Ok (Qnum (Qred q))
      else Raise ValidationError
  | JStr s => match int_of_str s with
              | Ok n => Ok n
              | Raise _ => Raise ValidationError
              end
  | _ => Raise ValidationError
  end.

Fixpoint validate_str_list_items (l : list json) : res (list string) :=
  match l with
  | [] => Ok []
  | v :: l' => s ← validate_str v; r ← validate_str_list_items l'; Ok (s :: r)
  end.

Definition validate_str_list (v : json) : res (list string) :=
  match v with
  | JArr l => validate_str_list_items l
  | _ => Raise ValidationError
  end.

(** The runtime around a completion service [llm]. *)
Definition runtime (llm : nat -> string -> res string) : PyRuntime :=
  Build_PyRuntime llm
    "Message: " " Only respond with valid JSON, no additional text."
    "Messages to analyze: " " Only return valid JSON array, no additional text."
    json_loads int_of_str float_of_str exn_str nat_str
    validate_str validate_int validate_str_list.

(** The text of a well-formed analysis of one message, with ['] for the
    double quote; the alert level, the churn probability and the echoed
    index are left open. *)
Definition analysis (index alert churn : string) : string :=
  "{'message_index': " ++ index ++ ", 'sentiment': 'Positive', 'confidence_score': 0.9, "
  ++ "'reasoning': 'happy customer', 'alert_level': '" ++ alert ++ "', "
  ++ "'churn_probability': " ++ churn ++ ", 'revenue_risk': 'safe', "
  ++ "'purchase_intent': 80, 'customer_value_tier': 'vip', "
  ++ "'retention_action': 'none', "
  ++ "'cost_prediction': {'optimal_conversation_type': 'marketing', "
  ++ "'predicted_cost': '₹0.88', 'cost_saved': '₹0.125', 'reasoning': 'r'}, "
  ++ "'response_prediction': {'success_probability': 90, "
  ++ "'best_response_time': 'immediate', 'escalation_probability': 5, "
  ++ "'resolution_likelihood': 'high'}, "
  ++ "'template_recommendation': {'primary_category': 'marketing', "
  ++ "'confidence': 85, 'cost_impact': '₹0.88', "
  ++ "'avoid_categories': ['service'], 'reasoning': 'r'}}".

(** A reply to the single-message prompt, with prose around the analysis. *)
Definition reply_with (alert churn : string) : string :=
  dq ("Here is the analysis: " ++ analysis "1" alert churn ++ " Done.").

(** A reply to the combined prompt that analyses one message only and
    echoes the index 7. *)
Definition short_array_reply : string :=
  dq ("Here is the array: [" ++ analysis "7" "low" "10" ++ "]").

Definition good_reply : string := reply_with "low" "10".

End Reference.


(** ** Reading a summary *)

(** [v[k1][k2]...] *)
Fixpoint getpath (v : json) (path : list string) : res json :=
  match path with
  | [] => Ok v
  | k :: path' => x ← getitem v k; getpath x path'
  end.

(** ** Conversions of the values of a decoded reply *)

Section Conversions.
Context {A : Type}.

(** The value under [key] is there and [conv] turns it into [x]. *)
Definition converts (parsed : json) (key : string) (conv : json -> res A) (x : A) : Prop :=
  exists v, getitem parsed key = Ok v /\ conv v = Ok x.

(** The value under [key] is there and [conv] raises on it. *)
Definition fails (parsed : json) (key : string) (conv : json -> res A) : Prop :=
  exists v e, getitem parsed key = Ok v /\ conv v = Raise e.

End Conversions.

(** ** The ranges of the data model *)

Definition percent (n : Z) : bool := (0 <=? n) && (n <=? 100).

Definition unit_interval (x : pyfloat) : bool :=
  match x with
  | Fin q => Qle_bool 0 q && Qle_bool q 1
  | _ => false
  end.

(** The four probabilities lie in [0,100] and the confidence in [0,1]. *)
Definition probabilities_in_range (r : SentimentResponse) : bool :=
  percent (churn_probability r) && percent (purchase_intent r)
  && percent (success_probability (response_prediction r))
  && percent (escalation_probability (response_prediction r))
  && unit_interval (confidence_score r).

(** One of the five numeric values of a decoded reply is there and does not
    convert: the three that [float] and [int] convert, and the two of the
    response prediction that the schema validates. *)
Definition numeric_conversion_fails {RT : PyRuntime} (parsed : json) : Prop :=
  fails parsed "confidence_score" py_float \/
  fails parsed "churn_probability" py_int \/
  fails parsed "purchase_intent" py_int \/
  exists d, getitem parsed "response_prediction" = Ok (JObj d) /\
    (fails (JObj d) "success_probability" validate_int \/
     fails (JObj d) "escalation_probability" validate_int).

(** ** Failures of the single-message parse *)

Definition required_keys : list string :=
  ["sentiment"; "confidence_score"; "reasoning"; "alert_level";
   "churn_probability"; "revenue_risk"; "purchase_intent";
   "customer_value_tier"; "retention_action"; "cost_prediction";
   "response_prediction"; "template_recommendation"].

(** A value of the decoded reply is there and its conversion raises. *)
Definition conversion_fails {RT : PyRuntime} (parsed : json) : Prop :=
  fails parsed "sentiment" py_lower \/
  fails parsed "confidence_score" py_float \/
  fails parsed "reasoning" validate_str \/
  fails parsed "alert_level" py_lower \/
  fails parsed "churn_probability" py_int \/
  fails parsed "revenue_risk" validate_str \/
  fails parsed "purchase_intent" py_int \/
  fails parsed "customer_value_tier" validate_str \/
  fails parsed "retention_action" validate_str \/
  fails parsed "cost_prediction" CostPrediction_of \/
  fails parsed "response_prediction" ResponsePrediction_of \/
  fails parsed "template_recommendation" TemplateRecommendation_of.

(** The ways in which the parse of a completion text fails: the decoder
    raises (no JSON in the text, or malformed JSON); the decoded value lacks
    a required key (or is no dictionary at all); a value does not convert
    to the type of its field; the sentiment is no member of the enumeration. *)
Inductive parse_failure {RT : PyRuntime} (content : string) : Prop :=
| decode_error (e : exn) :
    json_loads (extract "{" "}" content) = Raise e ->
    parse_failure content
| missing_key (parsed : json) (key : string) (e : exn) :
    json_loads (extract "{" "}" content) = Ok parsed ->
    key ∈ required_keys ->
    getitem parsed key = Raise e ->
    parse_failure content
| coercion_error (parsed : json) :
    json_loads (extract "{" "}" content) = Ok parsed ->
    conversion_fails parsed ->
    parse_failure content
| unknown_sentiment (parsed v : json) (l : string) (e : exn) :
    json_loads (extract "{" "}" content) = Ok parsed ->
    getitem parsed "sentiment" = Ok v ->
    py_lower v = Ok l ->
    SentimentType_of l = Raise e ->
    parse_failure content.

(** What the reference decoder makes of a reply. *)
Definition decoded (open close : ascii) (reply : string) : json :=
  match Reference.json_loads (extract open close reply) with
  | Ok v => v
  | Raise _ => JNull
  end.

(** ** Counting over a list of results *)

Definition valid_alert (r : SentimentResponse) : bool :=
  String.eqb (alert_level r) "low" || String.eqb (alert_level r) "medium"
  || String.eqb (alert_level r) "high".

Definition has_alert (a : string) (r : SentimentResponse) : bool :=
  String.eqb (alert_level r) a.

Definition has_sentiment (s : SentimentType) (r : SentimentResponse) : bool :=
  String.eqb (value (sentiment r)) (value s).

Fixpoint count_where (p : SentimentResponse -> bool) (l : list SentimentResponse) : Z :=
  match l with
  | [] => 0
  | r :: l' => (if p r then 1 else 0) + count_where p l'
  end.

(** [round(count / total * 100, ndigits)] in floats, the quotient being in
    their range. *)
Definition share (count total : Z) (ndigits : nat) : pyfloat :=
  py_round (pf_mul (to_double (inject_Z count / inject_Z total)) (Fin 100)) ndigits.

(** [round(total_value / total, ndigits)] in floats, the quotient being in
    their range. *)
Definition mean (total_value total : Z) (ndigits : nat) : pyfloat :=
  py_round (to_double (inject_Z total_value / inject_Z total)) ndigits.

(** The quotient is in the range of the floats: it is nearer to the largest
    double, [2^1024 - 2^971], than to [2^1024]. *)
Definition in_float_range (a b : Z) : Prop :=
  (Qabs (inject_Z a / inject_Z b) < pow2 1024 - pow2 970)%Q.

(** [x] is a leaf or an inner value of [v]. *)
Fixpoint occurs (same : json -> bool) (v : json) : bool :=
  same v ||
  match v with
  | JArr l => existsb (occurs same) l
  | JObj d => existsb (fun kv => occurs same kv.2) d
  | _ => false
  end.

Definition is_float (x : pyfloat) (v : json) : bool :=
  match x, v with
  | Fin q, JFloat (Fin q') => Qeq_bool q q'
  | _, _ => false
  end.

(** The two dictionaries of counters keep their three keys. *)
Definition counts (acc : counters) (a b c x y z : Z) : Prop :=
  sentiment_counts acc = [("positive", a); ("negative", b); ("neutral", c)] /\
  alert_counts acc = [("low", x); ("medium", y); ("high", z)].

Definition is_int (n : Z) (v : json) : bool :=
  match v with
  | JInt n' => (n =? n')%Z
  | _ => false
  end.

(** The summary [s] holds, at some place, the count [count] and the
    percentage that [count] is of [total]. *)
Definition holds_count_and_share (s : json) (count total : Z) : bool :=
  occurs (is_int count) s && occurs (is_float (share count total 2)) s.

(** A result with another alert level. *)
Definition with_alert (a : string) (r : SentimentResponse) : SentimentResponse :=
  {| message := message r; sentiment := sentiment r;
     confidence_score := confidence_score r; reasoning := reasoning r;
     customer_id := customer_id r; agent_id := agent_id r;
     timestamp := timestamp r; alert_level := a;
     churn_probability := churn_probability r; revenue_risk := revenue_risk r;
     purchase_intent := purchase_intent r;
     customer_value_tier := customer_value_tier r;
     retention_action := retention_action r;
     cost_prediction := cost_prediction r;
     response_prediction := response_prediction r;
     template_recommendation := template_recommendation r |}.

Definition two_low_one_medium : list SentimentResponse :=
  let f := _create_fallback_response "hello" None None None "no reply" in
  [with_alert "low" f; with_alert "low" f; f].

(** A result with another sentiment, alert level, churn probability and
    text of the cost saved. *)
Definition adjusted (t : SentimentType) (a : string) (churn : Z) (saved : string)
    (r : SentimentResponse) : SentimentResponse :=
  {| message := message r; sentiment := t;
     confidence_score := confidence_score r; reasoning := reasoning r;
     customer_id := customer_id r; agent_id := agent_id r;
     timestamp := timestamp r; alert_level := a;
     churn_probability := churn; revenue_risk := revenue_risk r;
     purchase_intent := purchase_intent r;
     customer_value_tier := customer_value_tier r;
     retention_action := retention_action r;
     cost_prediction :=
       {| optimal_conversation_type := optimal_conversation_type (cost_prediction r);
          predicted_cost := predicted_cost (cost_prediction r);
          cost_saved := saved;
          cost_reasoning := cost_reasoning (cost_prediction r) |};
     response_prediction := response_prediction r;
     template_recommendation := template_recommendation r |}.

(** Three results of three sentiments and alert levels, with the cost
    savings of the prompt's own examples. *)
Definition mixed_results : list SentimentResponse :=
  let f := _create_fallback_response "hello" None None None "no reply" in
  [adjusted POSITIVE "low" 10 "₹0.88" f; adjusted NEGATIVE "high" 90 "₹0.88" f;
   adjusted NEUTRAL "medium" 45 "₹0.125" f].

(** One result of alert level low whose churn probability has 401 digits,
    and one of an alert level outside the table. *)
Definition huge_churn : list SentimentResponse :=
  [adjusted NEUTRAL "low" (10 ^ 400) "₹0.00"
     (_create_fallback_response "hello" None None None "no reply")].

Definition critical_alert : list SentimentResponse :=
  [with_alert "critical" (_create_fallback_response "hello" None None None "no reply")].

(** ** Inputs of the closed examples *)

(** The string of [n] characters [c]. *)
Fixpoint replicate_char (n : nat) (c : ascii) : string :=
  match n with
  | O => EmptyString
  | S n' => String c (replicate_char n' c)
  end.

(** A completion service that is down, and one that gives the same reply to
    every request. *)
Definition offline : PyRuntime :=
  Reference.runtime (fun _ _ => Raise (ClientError "service unavailable")).

Definition always (reply : string) : PyRuntime :=
  Reference.runtime (fun _ _ => Ok reply).

(** A completion service that answers its [n]-th request with the [n]-th
    text of a script. *)
Definition scripted (replies : list string) : PyRuntime :=
  Reference.runtime (fun n _ =>
    match replies !! n with
    | Some reply => Ok reply
    | None => Raise (ClientError "service unavailable")
    end).

(** What the individual loop appends for a message: the result of
    [analyze_message], or the fallback record of the handler of the loop. *)
Definition result_of {RT : PyRuntime} (call : nat) (m : MessageRequest) : SentimentResponse :=
  match analyze_message call (req_message m) (req_customer_id m) (req_agent_id m)
          (req_timestamp m) with
  | Ok r => r
  | Raise e => fallback_for m ("Processing error: " ++ exn_str e)
  end.

(** The runtime [RT] around another completion service. *)
Definition with_llm (RT : PyRuntime) (llm : nat -> string -> res string) : PyRuntime :=
  Build_PyRuntime llm single_prefix single_suffix bulk_prefix bulk_suffix
    json_loads int_of_str float_of_str exn_str nat_str
    validate_str validate_int validate_str_list.

(** Nine messages, and the replies to them of which the third has an alert
    level outside the table. *)
Definition nine_messages : list MessageRequest :=
  map request ["m1"; "m2"; "m3"; "m4"; "m5"; "m6"; "m7"; "m8"; "m9"].

Definition nine_replies : list string :=
  [Reference.good_reply; Reference.good_reply; Reference.reply_with "critical" "10";
   Reference.good_reply; Reference.good_reply; Reference.good_reply;
   Reference.good_reply; Reference.good_reply; Reference.good_reply].

(** Five messages, an unparsable reply to the combined prompt, and five
    replies to the individual prompts of which the third has an alert level
    outside the table. *)
Definition five_messages : list MessageRequest :=
  map request ["m1"; "m2"; "m3"; "m4"; "m5"].

Definition five_replies_after_failure : list string :=
  ["I cannot produce the array."; Reference.good_reply; Reference.good_reply;
   Reference.reply_with "critical" "10"; Reference.good_reply; Reference.good_reply].

(** Two messages, and the array of the reply that analyses the first. *)
Definition two_messages : list MessageRequest := map request ["m1"; "m2"].

Definition short_array : list json :=
  match decoded "[" "]" Reference.short_array_reply with
  | JArr l => l
  | _ => []
  end.

(** [n] times the text [t] *)
Fixpoint repeat_text (n : nat) (t : string) : string :=
  match n with
  | O => EmptyString
  | S n' => t ++ repeat_text n' t
  end.

(** A message of 700 rupee signs: 700 characters in 2100 bytes. *)
Definition rupee_message : string := repeat_text 700 "₹".

(** A message that holds two no-break spaces and nothing else. *)
Definition no_break_spaces : string :=
  String (ascii_of_nat 194) (String (ascii_of_nat 160)
    (String (ascii_of_nat 194) (String (ascii_of_nat 160) EmptyString))).

(** [c in s] for a character *)
Fixpoint has_char (c : ascii) (s : string) : bool :=
  match s with
  | EmptyString => false
  | String a r => Ascii.eqb c a || has_char c r
  end.

(** ** Sums over a list of results *)

Fixpoint sum_of (f : SentimentResponse -> Z) (l : list SentimentResponse) : Z :=
  match l with
  | [] => 0
  | r :: l' => f r + sum_of f l'
  end.

(** [result.customer_value_tier in ["high_value", "vip"]] *)
Definition is_high_value (r : SentimentResponse) : bool :=
  String.eqb (customer_value_tier r) "high_value"
  || String.eqb (customer_value_tier r) "vip".

(** The cost-savings text of a result converts to a number. *)
Definition cost_converts {RT : PyRuntime} (r : SentimentResponse) : bool :=
  match float_of_str (replace "₹" "" (cost_saved (cost_prediction r))) with
  | Ok _ => true
  | Raise _ => false
  end.

(** The record is a fallback record. *)
Definition is_fallback (r : SentimentResponse) : Prop :=
  exists error,
    r = _create_fallback_response (message r) (customer_id r) (agent_id r)
          (timestamp r) error.

(** The savings that the loop over the results accumulates on top of
    [start]. *)
Fixpoint savings {RT : PyRuntime} (start : pyfloat) (l : list SentimentResponse) : pyfloat :=
  match l with
  | [] => start
  | r :: l' =>
      savings
        match float_of_str (replace "₹" "" (cost_saved (cost_prediction r))) with
        | Ok cost_saved_value => pf_add start cost_saved_value
        | Raise _ => start
        end l'
  end.

(** What the summary of a list of results is, in terms of counts and sums
    over the list. *)
Definition summary_of {RT : PyRuntime} (l : list SentimentResponse) : json :=
  let n := Z.of_nat (length l) in
  JObj [
    ("total_messages", JInt n);
    ("processing_time", JStr "Optimized for performance");
    ("sentiment_distribution", JObj [
       ("positive_percentage", JFloat (share (count_where (has_sentiment POSITIVE) l) n 2));
       ("negative_percentage", JFloat (share (count_where (has_sentiment NEGATIVE) l) n 2));
       ("neutral_percentage", JFloat (share (count_where (has_sentiment NEUTRAL) l) n 2))]);
    ("alert_distribution", JObj [
       ("low", JInt (count_where (has_alert "low") l));
       ("medium", JInt (count_where (has_alert "medium") l));
       ("high", JInt (count_where (has_alert "high") l))]);
    ("high_priority_count", JInt (count_where (has_alert "high") l));
    ("average_confidence",
       JFloat (py_round (pf_div (sum_confidence l) (to_double (inject_Z n))) 2));
    ("business_intelligence", JObj [
       ("average_churn_risk", JFloat (mean (sum_of churn_probability l) n 1));
       ("average_purchase_intent", JFloat (mean (sum_of purchase_intent l) n 1));
       ("high_value_customers", JInt (count_where is_high_value l));
       ("high_value_percentage", JFloat (share (count_where is_high_value l) n 1));
       ("total_cost_savings", JStr ("₹" ++ format_2f (savings (Fin 0) l)));
       ("customers_needing_retention",
          count_if (fun r => negb (String.eqb (retention_action r) "none")) l);
       ("immediate_response_required",
          count_if (fun r => contains "immediate" (best_response_time (response_prediction r))) l);
       ("marketing_opportunities",
          count_if (fun r => String.eqb (primary_category (template_recommendation r)) "marketing") l);
       ("service_required",
          count_if (fun r => String.eqb (primary_category (template_recommendation r)) "service") l)])
  ].

(** The result [r] carries the message and the correlation fields of the
    request [m]. *)
Definition carries (m : MessageRequest) (r : SentimentResponse) : Prop :=
  message r = req_message m /\ customer_id r = req_customer_id m /\
  agent_id r = req_agent_id m /\ timestamp r = req_timestamp m.

(** A reply to the combined prompt whose only element lacks every key, and
    one whose only element has an alert level outside the table. *)
Definition empty_element_reply : string := Reference.dq "[{}]".

(** A reply whose confidence is NaN, which the standard decoder reads. *)
Definition nan_reply : string :=
  replace "0.9" "NaN" (Reference.reply_with "low" "10").

(** A reply whose confidence is an integer of 401 digits. *)
Definition huge_confidence_reply : string :=
  replace "0.9" (digits (10 ^ 400)) (Reference.reply_with "low" "10").

(** A reply whose revenue risk is none of the listed values. *)
Definition unlisted_risk_reply : string :=
  replace "safe" "moon" (Reference.reply_with "low" "10").

(** A reply whose churn probability has 401 digits. *)
Definition huge_churn_reply : string :=
  Reference.reply_with "low" (digits (10 ^ 400)).

Definition critical_array_reply : string :=
  Reference.dq ("[" ++ Reference.analysis "1" "critical" "10" ++ "]").

(** * Properties *)

(** ** The error monad *)

Lemma bind_ok {A B} (m : res A) (k : A -> res B) (b : B) :
  m ≫= k = Ok b -> exists a, m = Ok a /\ k a = Ok b.
Proof. destruct m as [a|e]; simpl; intros H; [eauto | discriminate]. Qed.

(** ** The fallback record *)

(** C7: the fallback constructor returns, for every message, identifiers and
    error text, a record with sentiment neutral, confidence 0.0, alert level
    medium, churn probability 50, revenue risk at_risk, purchase intent 25,
    value tier medium_value, retention action follow_up, the service
    conversation type at a cost of zero rupees, a success probability of 50
    within one hour, and the service template category with marketing among
    the categories to avoid. *)
Theorem fallback_record_values (msg : string) (cid aid ts : option string) (error : string) :
  let r := _create_fallback_response msg cid aid ts error in
  message r = msg /\ customer_id r = cid /\ agent_id r = aid /\ timestamp r = ts /\
  sentiment r = NEUTRAL /\ value (sentiment r) = "neutral" /\
  confidence_score r = Fin 0 /\
  alert_level r = "medium" /\
  churn_probability r = 50 /\
  revenue_risk r = "at_risk" /\
  purchase_intent r = 25 /\
  customer_value_tier r = "medium_value" /\
  retention_action r = "follow_up" /\
  optimal_conversation_type (cost_prediction r) = "service" /\
  predicted_cost (cost_prediction r) = "₹0.00" /\
  cost_saved (cost_prediction r) = "₹0.00" /\
  success_probability (response_prediction r) = 50 /\
  best_response_time (response_prediction r) = "within_1_hour" /\
  primary_category (template_recommendation r) = "service" /\
  "marketing" ∈ avoid_categories (template_recommendation r).
Proof.
  cbn. repeat split. apply list_elem_of_here.
Qed.

(** ** The aggregator on fallback records *)

Lemma rupee_stripped : replace "₹" "" "₹0.00" = "0.00".
Proof. reflexivity. Qed.

(** C8: the summary of three fallback records has 0 percent positive, 0
    percent negative, 100 percent neutral, an average churn risk of 50.0, an
    average purchase intent of 25.0, total cost savings of zero rupees and a
    high-value percentage of 0; the computation returns.  The conversion
    [float("0.00")] is assumed to give zero. *)
Theorem summary_of_three_fallbacks {RT : PyRuntime}
    (m1 m2 m3 : string) (c1 c2 c3 a1 a2 a3 t1 t2 t3 : option string)
    (e1 e2 e3 : string) :
  float_of_str "0.00" = Ok (Fin 0) ->
  let l := [_create_fallback_response m1 c1 a1 t1 e1;
            _create_fallback_response m2 c2 a2 t2 e2;
            _create_fallback_response m3 c3 a3 t3 e3] in
  exists s, _calculate_summary l = Ok {| results := l; summary := s |} /\
    getpath s ["sentiment_distribution"; "positive_percentage"] = Ok (JFloat (Fin 0)) /\
    getpath s ["sentiment_distribution"; "negative_percentage"] = Ok (JFloat (Fin 0)) /\
    getpath s ["sentiment_distribution"; "neutral_percentage"] = Ok (JFloat (Fin 100)) /\
    getpath s ["business_intelligence"; "average_churn_risk"] = Ok (JFloat (Fin 50)) /\
    getpath s ["business_intelligence"; "average_purchase_intent"] = Ok (JFloat (Fin 25)) /\
    getpath s ["business_intelligence"; "total_cost_savings"] = Ok (JStr "₹0.00") /\
    getpath s ["business_intelligence"; "high_value_percentage"] = Ok (JFloat (Fin 0)).
Proof.
  intros Hfloat l. subst l.
  unfold _calculate_summary, count_results, count_result.
  cbn [_create_fallback_response cost_prediction cost_saved sentiment alert_level
       churn_probability purchase_intent customer_value_tier value].
  rewrite rupee_stripped, Hfloat.
  eexists. split; [vm_compute; reflexivity |].
  vm_compute. repeat split.
Qed.

Lemma summary_of_three_fallbacks_witness :
  Reference.float_of_str "0.00" = Ok (Fin 0) /\
  exists s,
    @_calculate_summary offline
      [_create_fallback_response "m1" None None None "e1";
       _create_fallback_response "m2" None None None "e2";
       _create_fallback_response "m3" None None None "e3"]
    = Ok {| results :=
              [_create_fallback_response "m1" None None None "e1";
               _create_fallback_response "m2" None None None "e2";
               _create_fallback_response "m3" None None None "e3"];
            summary := s |} /\
    getpath s ["sentiment_distribution"; "neutral_percentage"] = Ok (JFloat (Fin 100)) /\
    getpath s ["business_intelligence"; "total_cost_savings"] = Ok (JStr "₹0.00").
Proof.
  split; [reflexivity |].
  destruct (summary_of_three_fallbacks (RT := offline)
              "m1" "m2" "m3" None None None None None None None None None
              "e1" "e2" "e3" eq_refl)
    as (s & Hs & _ & _ & Hn & _ & _ & Hc & _).
  exists s. split; [exact Hs |]. split; [exact Hn | exact Hc].
Defined.

(** ** Building a record from a decoded reply *)

(** Inverts every hypothesis of the form [x ← m; k = Ok b]. *)
Ltac binds :=
  repeat match goal with
    | H : mbind _ _ = Ok _ |- _ =>
        let a := fresh "v" in
        let Ha := fresh "Hv" in
        apply bind_ok in H; destruct H as (a & Ha & H)
    end.

Section Building.
Context {RT : PyRuntime}.

Lemma converts_bind {A} parsed key (conv : json -> res A) x :
  converts parsed key conv x <-> (v ← getitem parsed key; conv v) = Ok x.
Proof.
  split.
  - intros (v & Hv & Hc). rewrite Hv. exact Hc.
  - intros H. apply bind_ok in H. exact H.
Qed.

Lemma fails_not_converts {A} parsed key (conv : json -> res A) x :
  fails parsed key conv -> ~ converts parsed key conv x.
Proof. intros (v & e & Hv & Hc) (v' & Hv' & Hc'). congruence. Qed.

Lemma missing_not_converts {A} parsed key (conv : json -> res A) x e :
  getitem parsed key = Raise e -> ~ converts parsed key conv x.
Proof. intros Hv (v' & Hv' & _). congruence. Qed.

(** The record is built exactly when every value is there and converts, and
    its fields are then the converted values, unchanged. *)
Lemma build_response_ok parsed msg cid aid ts r :
  build_response parsed msg cid aid ts = Ok r <->
  message r = msg /\ customer_id r = cid /\ agent_id r = aid /\ timestamp r = ts /\
  converts parsed "sentiment" sentiment_of (sentiment r) /\
  converts parsed "confidence_score" py_float (confidence_score r) /\
  converts parsed "reasoning" validate_str (reasoning r) /\
  converts parsed "alert_level" py_lower (alert_level r) /\
  converts parsed "churn_probability" py_int (churn_probability r) /\
  converts parsed "revenue_risk" validate_str (revenue_risk r) /\
  converts parsed "purchase_intent" py_int (purchase_intent r) /\
  converts parsed "customer_value_tier" validate_str (customer_value_tier r) /\
  converts parsed "retention_action" validate_str (retention_action r) /\
  converts parsed "cost_prediction" CostPrediction_of (cost_prediction r) /\
  converts parsed "response_prediction" ResponsePrediction_of (response_prediction r) /\
  converts parsed "template_recommendation" TemplateRecommendation_of
    (template_recommendation r).
Proof.
  split.
  - intros H. unfold build_response in H. binds.
    injection H as <-. cbn. unfold converts. repeat split; eauto.
  - intros (Hm & Hc & Ha & Ht & H1 & H2 & H3 & H4 & H5 & H6 & H7 & H8 & H9 & H10 & H11 & H12).
    apply converts_bind in H1, H2, H4, H5, H7, H10, H11, H12.
    destruct H3 as (v3 & Hv3 & Hc3), H6 as (v6 & Hv6 & Hc6),
      H8 as (v8 & Hv8 & Hc8), H9 as (v9 & Hv9 & Hc9).
    unfold build_response.
    rewrite H1; cbn. rewrite H2; cbn. rewrite Hv3; cbn. rewrite H4; cbn.
    rewrite H5; cbn. rewrite Hv6; cbn. rewrite H7; cbn. rewrite Hv8; cbn.
    rewrite Hv9; cbn. rewrite H10; cbn. rewrite H11; cbn. rewrite H12; cbn.
    rewrite Hc3; cbn. rewrite Hc6; cbn. rewrite Hc8; cbn. rewrite Hc9; cbn.
    destruct r; cbn in *; subst; reflexivity.
Qed.

Lemma field_converts {A} d name (validate : json -> res A) x :
  field d name validate = Ok x <-> converts (JObj d) name validate x.
Proof.
  unfold field, converts, getitem. destruct (assoc name d) as [v|].
  - split; [intros H; eauto | intros (v' & [= <-] & H); exact H].
  - split; [discriminate | intros (v' & [=] & _)].
Qed.

Lemma ResponsePrediction_of_ok v rp :
  ResponsePrediction_of v = Ok rp ->
  exists d, v = JObj d /\
    converts (JObj d) "success_probability" validate_int (success_probability rp) /\
    converts (JObj d) "escalation_probability" validate_int (escalation_probability rp).
Proof.
  intros H. unfold ResponsePrediction_of in H. binds.
  destruct v; try discriminate. injection Hv as <-. injection H as <-.
  exists d. cbn. rewrite <- !field_converts. auto.
Qed.

(** *** The single-message path *)

Lemma analyze_message_total call msg cid aid ts :
  exists r, analyze_message call msg cid aid ts = Ok r.
Proof.
  unfold analyze_message.
  destruct (analyze_message_body call msg cid aid ts); cbn; eauto.
Qed.

Lemma analyze_message_built call msg cid aid ts content parsed r :
  llm_invoke call (single_prefix ++ msg ++ single_suffix) = Ok content ->
  json_loads (extract "{" "}" content) = Ok parsed ->
  build_response parsed msg cid aid ts = Ok r ->
  analyze_message call msg cid aid ts = Ok r.
Proof.
  intros Hllm Hjson Hbuild. unfold analyze_message, analyze_message_body.
  rewrite Hllm; cbn. rewrite Hjson; cbn. rewrite Hbuild. reflexivity.
Qed.

Lemma analyze_message_decoded call msg cid aid ts content parsed :
  llm_invoke call (single_prefix ++ msg ++ single_suffix) = Ok content ->
  json_loads (extract "{" "}" content) = Ok parsed ->
  analyze_message call msg cid aid ts =
    try_except (build_response parsed msg cid aid ts)
      (fun e => Ok (_create_fallback_response msg cid aid ts
                      ("Analysis error: " ++ exn_str e))).
Proof.
  intros Hllm Hjson. unfold analyze_message, analyze_message_body.
  rewrite Hllm; cbn. rewrite Hjson; cbn. reflexivity.
Qed.

Lemma numeric_failure_raises parsed msg cid aid ts :
  numeric_conversion_fails parsed ->
  exists e, build_response parsed msg cid aid ts = Raise e.
Proof.
  intros Hfail.
  destruct (build_response parsed msg cid aid ts) as [r|e] eqn:Hb; [exfalso | eauto].
  apply build_response_ok in Hb.
  destruct Hb as (_ & _ & _ & _ & _ & Hconf & _ & _ & Hchurn & _ & Hpint & _ & _ & _ & Hrp & _).
  destruct Hfail as [F | [F | [F | (d & Hd & F)]]];
    try (eapply fails_not_converts; eassumption).
  destruct Hrp as (v & Hv & Hrp). rewrite Hd in Hv. injection Hv as <-.
  apply ResponsePrediction_of_ok in Hrp as (d' & [= <-] & Hs & He).
  destruct F as [F | F]; eapply fails_not_converts; eassumption.
Qed.

End Building.

(** ** Numeric values of a reply *)




(** ** Failures of the single-message parse *)

Section ParseFailure.
Context {RT : PyRuntime}.

Lemma parse_failure_raises content msg cid aid ts :
  parse_failure content ->
  exists e, (parsed ← json_loads (extract "{" "}" content);
             build_response parsed msg cid aid ts) = Raise e.
Proof.
  intros [e He | parsed key e Hj Hk Hg | parsed Hj Hc | parsed v l e Hj Hg Hl Hs].
  - rewrite He. cbn. eauto.
  - rewrite Hj. cbn.
    destruct (build_response parsed msg cid aid ts) as [r|e'] eqn:Hb; [exfalso | eauto].
    apply build_response_ok in Hb.
    destruct Hb as (_ & _ & _ & _ & H1 & H2 & H3 & H4 & H5 & H6 & H7 & H8 & H9 & H10 & H11 & H12).
    unfold required_keys in Hk.
    repeat (apply elem_of_cons in Hk as [-> | Hk];
            [eapply missing_not_converts; eassumption |]).
    apply elem_of_nil in Hk. exact Hk.
  - rewrite Hj. cbn.
    destruct (build_response parsed msg cid aid ts) as [r|e'] eqn:Hb; [exfalso | eauto].
    apply build_response_ok in Hb.
    destruct Hb as (_ & _ & _ & _ & H1 & H2 & H3 & H4 & H5 & H6 & H7 & H8 & H9 & H10 & H11 & H12).
    destruct Hc as [F|[F|[F|[F|[F|[F|[F|[F|[F|[F|[F|F]]]]]]]]]]];
      try (eapply fails_not_converts; eassumption).
    destruct F as (v & e & Hv & Hl), H1 as (v' & Hv' & Hs).
    rewrite Hv in Hv'. injection Hv' as <-.
    unfold sentiment_of in Hs. rewrite Hl in Hs. discriminate Hs.
  - rewrite Hj. cbn.
    destruct (build_response parsed msg cid aid ts) as [r|e'] eqn:Hb; [exfalso | eauto].
    apply build_response_ok in Hb.
    destruct Hb as (_ & _ & _ & _ & (v' & Hv' & Hs') & _).
    rewrite Hg in Hv'. injection Hv' as <-.
    unfold sentiment_of in Hs'. rewrite Hl in Hs'. cbn in Hs'. congruence.
Qed.

End ParseFailure.




(** ** Rounding to doubles *)

Lemma round_half_even_near q :
  (inject_Z (round_half_even q) - q <= 1 # 2 /\ q - inject_Z (round_half_even q) <= 1 # 2)%Q.
Proof.
  unfold round_half_even.
  pose proof (Qfloor_le q) as Hlo.
  pose proof (Qlt_floor q) as Hhi.
  rewrite inject_Z_plus in Hhi. change (inject_Z 1) with 1%Q in Hhi.
  destruct (Qcompare (q - inject_Z (Qfloor q)) (1 # 2)) eqn:Hc.
  - apply Qeq_alt in Hc.
    destruct (Z.even (Qfloor q)); rewrite ?inject_Z_plus; change (inject_Z 1) with 1%Q; lra.
  - apply Qlt_alt in Hc. lra.
  - apply Qgt_alt in Hc. rewrite inject_Z_plus. change (inject_Z 1) with 1%Q. lra.
Qed.

Lemma round_half_even_le q k : (q <= inject_Z k)%Q -> round_half_even q <= k.
Proof.
  intros Hq. unfold round_half_even.
  assert (Hf : Qfloor q <= k).
  { rewrite <- (Qfloor_Z k). apply Qfloor_resp_le. exact Hq. }
  assert (Hstep : (inject_Z (Qfloor q) < q)%Q -> Qfloor q + 1 <= k).
  { intros Hlt. assert (H : (inject_Z (Qfloor q) < inject_Z k)%Q) by lra.
    rewrite <- Zlt_Qlt in H. lia. }
  destruct (Qcompare (q - inject_Z (Qfloor q)) (1 # 2)) eqn:Hc.
  - apply Qeq_alt in Hc. destruct (Z.even (Qfloor q)); [exact Hf |].
    apply Hstep. lra.
  - exact Hf.
  - apply Qgt_alt in Hc. apply Hstep. lra.
Qed.

Lemma round_half_even_ge q k : (inject_Z k <= q)%Q -> k <= round_half_even q.
Proof.
  intros Hq. unfold round_half_even.
  assert (Hf : k <= Qfloor q).
  { rewrite <- (Qfloor_Z k). apply Qfloor_resp_le. exact Hq. }
  destruct (Qcompare _ _); [destruct (Z.even _) | |]; lia.
Qed.

Section Doubles.
Local Open Scope Q_scope.

Lemma pow2_pos k : 0 < pow2 k.
Proof. apply Qpower_0_lt. reflexivity. Qed.

Lemma pow2_add a b : pow2 (a + b) == pow2 a * pow2 b.
Proof. apply Qpower_plus. discriminate. Qed.

Lemma pow2_le a b : (a <= b)%Z -> pow2 a <= pow2 b.
Proof. intros H. apply Qpower_le_compat_l; [exact H | discriminate]. Qed.

Lemma pow2_lt a b : (a < b)%Z -> pow2 a < pow2 b.
Proof. intros H. apply Qpower_lt_compat_l; [exact H | reflexivity]. Qed.

Lemma pow2_le_inv a b : pow2 a <= pow2 b -> (a <= b)%Z.
Proof. intros H. apply (Qpower_le_compat_l_inv 2); [exact H | reflexivity]. Qed.

Lemma pow2_lt_inv a b : pow2 a < pow2 b -> (a < b)%Z.
Proof. intros H. apply (Qpower_lt_compat_l_inv 2); [exact H | reflexivity]. Qed.

Lemma pow2_Z k : (0 <= k)%Z -> pow2 k == inject_Z (2 ^ k).
Proof. intros H. unfold pow2. rewrite Zpower_Qpower by exact H. reflexivity. Qed.

(** [pow2 hi] is a whole multiple of [pow2 lo] when [lo <= hi]. *)
Lemma pow2_multiple lo hi :
  (lo <= hi)%Z -> pow2 hi == inject_Z (2 ^ (hi - lo)) * pow2 lo.
Proof.
  intros H. rewrite <- pow2_Z by lia. rewrite <- pow2_add.
  replace (hi - lo + lo)%Z with hi by lia. reflexivity.
Qed.

Lemma ilog2_spec a : 0 < a -> pow2 (ilog2 a) <= a /\ a < pow2 (ilog2 a + 1).
Proof.
  intros Ha. destruct a as [n d].
  assert (Hn : (0 < n)%Z) by (unfold Qlt in Ha; cbn in Ha; lia).
  unfold ilog2. cbn [Qnum Qden].
  destruct (Z.log2_spec n Hn) as [N1 N2].
  destruct (Z.log2_spec (Z.pos d) eq_refl) as [D1 D2].
  pose proof (Z.log2_nonneg n) as Ln. pose proof (Z.log2_nonneg (Z.pos d)) as Ld.
  set (ln := Z.log2 n) in *. set (ld := Z.log2 (Z.pos d)) in *.
  assert (QN1 : pow2 ln <= inject_Z n) by (rewrite pow2_Z by lia; rewrite <- Zle_Qle; exact N1).
  assert (QN2 : inject_Z n < pow2 (ln + 1))
    by (rewrite pow2_Z by lia; rewrite <- Zlt_Qlt; exact N2).
  assert (QD1 : pow2 ld <= inject_Z (Z.pos d))
    by (rewrite pow2_Z by lia; rewrite <- Zle_Qle; exact D1).
  assert (QD2 : inject_Z (Z.pos d) < pow2 (ld + 1))
    by (rewrite pow2_Z by lia; rewrite <- Zlt_Qlt; exact D2).
  assert (E : (n # d) * inject_Z (Z.pos d) == inject_Z n).
  { rewrite Qmake_Qdiv. field. discriminate. }
  assert (P1 : pow2 (ln + 1) == pow2 (ln - ld + 1) * pow2 ld).
  { rewrite <- pow2_add. replace (ln - ld + 1 + ld)%Z with (ln + 1)%Z by lia. reflexivity. }
  assert (P2 : pow2 ln == pow2 (ln - ld - 1) * pow2 (ld + 1)).
  { rewrite <- pow2_add. replace (ln - ld - 1 + (ld + 1))%Z with ln by lia. reflexivity. }
  pose proof (pow2_pos (ln - ld + 1)) as G1. pose proof (pow2_pos (ln - ld - 1)) as G2.
  pose proof (pow2_pos ld) as G3.
  destruct (Qle_bool (pow2 (ln - ld)) (n # d)) eqn:Hb.
  - apply Qle_bool_iff in Hb. split; [exact Hb |].
    set (a := n # d) in *. set (N := inject_Z n) in *. set (D := inject_Z (Z.pos d)) in *.
    set (x := pow2 (ln - ld + 1)) in *. set (y := pow2 ld) in *. set (z := pow2 (ln + 1)) in *.
    clearbody a N D x y z. nra.
  - assert (Hlt : n # d < pow2 (ln - ld)).
    { apply Qnot_le_lt. intros H. apply Qle_bool_iff in H. congruence. }
    replace (ln - ld - 1 + 1)%Z with (ln - ld)%Z by lia. split; [| exact Hlt].
    set (a := n # d) in *. set (N := inject_Z n) in *. set (D := inject_Z (Z.pos d)) in *.
    set (x := pow2 (ln - ld - 1)) in *. set (y := pow2 (ld + 1)) in *. set (z := pow2 ln) in *.
    clearbody a N D x y z. nra.
Qed.

Lemma exponent_le a K :
  0 < a -> a <= pow2 K -> (exponent a <= Z.max (K - 52) (-1074))%Z.
Proof.
  intros Ha HK. destruct (ilog2_spec a Ha) as [H1 _].
  assert (ilog2 a <= K)%Z by (apply pow2_le_inv; lra).
  unfold exponent. lia.
Qed.

Lemma nearest_error a :
  nearest a - a <= pow2 (exponent a) * (1 # 2) /\
  a - nearest a <= pow2 (exponent a) * (1 # 2).
Proof.
  unfold nearest. pose proof (pow2_pos (exponent a)) as Hp.
  destruct (round_half_even_near (a / pow2 (exponent a))) as [H1 H2].
  assert (E : a == a / pow2 (exponent a) * pow2 (exponent a)) by (field; lra).
  set (m := inject_Z (round_half_even (a / pow2 (exponent a)))) in *.
  set (x := a / pow2 (exponent a)) in *. set (p := pow2 (exponent a)) in *.
  clearbody m x p. split; nra.
Qed.

(** Rounding is monotone with respect to a bound that is itself a multiple
    of the unit in the last place. *)
Lemma nearest_le a B k :
  a <= B -> B == inject_Z k * pow2 (exponent a) -> nearest a <= B.
Proof.
  intros HB Hk. unfold nearest. pose proof (pow2_pos (exponent a)) as Hp.
  assert (H : (round_half_even (a / pow2 (exponent a)) <= k)%Z).
  { apply round_half_even_le. apply Qle_shift_div_r; [exact Hp | lra]. }
  rewrite Zle_Qle in H. rewrite Hk.
  apply Qmult_le_compat_r; [exact H | lra].
Qed.

Lemma nearest_ge a B k :
  B <= a -> B == inject_Z k * pow2 (exponent a) -> B <= nearest a.
Proof.
  intros HB Hk. unfold nearest. pose proof (pow2_pos (exponent a)) as Hp.
  assert (H : (k <= round_half_even (a / pow2 (exponent a)))%Z).
  { apply round_half_even_ge. apply Qle_shift_div_l; [exact Hp | lra]. }
  rewrite Zle_Qle in H. rewrite Hk.
  apply Qmult_le_compat_r; [exact H | lra].
Qed.

Lemma nearest_le_pow2 a K :
  0 < a -> a <= pow2 K -> (-1074 <= K)%Z -> nearest a <= pow2 K.
Proof.
  intros Ha HK Hmin. pose proof (exponent_le a K Ha HK) as He.
  apply (nearest_le a _ (2 ^ (K - exponent a))); [exact HK |].
  apply pow2_multiple. lia.
Qed.


Lemma nearest_nonneg a : 0 <= a -> 0 <= nearest a.
Proof.
  intros Ha. apply (nearest_ge a 0 0); [exact Ha |]. rewrite Qmult_0_l. reflexivity.
Qed.

Lemma round_half_even_below q k :
  q < inject_Z k - (1 # 2) -> (round_half_even q <= k - 1)%Z.
Proof.
  intros H. destruct (round_half_even_near q) as [H1 _].
  assert (L : inject_Z (round_half_even q) < inject_Z k) by lra.
  rewrite <- Zlt_Qlt in L. lia.
Qed.

(** A positive value below the midpoint between the largest double and
    [2^1024] rounds to a double. *)
Lemma nearest_finite a :
  0 < a -> a < pow2 1024 - pow2 970 -> nearest a < pow2 1024.
Proof.
  intros Ha Hb. pose proof (pow2_lt 1023 1024 eq_refl) as Htop.
  destruct (Qlt_le_dec (pow2 1023) a) as [Hbig | Hsmall].
  - destruct (ilog2_spec a Ha) as [L1 L2].
    pose proof (pow2_pos 970) as P970.
    assert (F1 : (1023 < ilog2 a + 1)%Z) by (apply pow2_lt_inv; lra).
    assert (F2 : (ilog2 a < 1024)%Z) by (apply pow2_lt_inv; lra).
    assert (E : exponent a = 971%Z) by (unfold exponent; lia).
    unfold nearest. rewrite E.
    pose proof (pow2_pos 971) as P971.
    assert (M1 : pow2 1024 == inject_Z (2 ^ 53) * pow2 971) by (apply (pow2_multiple 971 1024); lia).
    assert (M2 : pow2 971 == 2 * pow2 970).
    { replace 971%Z with (1 + 970)%Z by lia. rewrite pow2_add. reflexivity. }
    assert (H : (round_half_even (a / pow2 971) <= 2 ^ 53 - 1)%Z).
    { apply round_half_even_below. apply Qlt_shift_div_r; [exact P971 |].
      set (k := inject_Z (2 ^ 53)) in *. set (x := pow2 971) in *. set (y := pow2 970) in *.
      set (z := pow2 1024) in *. clearbody k x y z. lra. }
    rewrite Zle_Qle in H. unfold Z.sub in H. rewrite inject_Z_plus, inject_Z_opp in H.
    change (inject_Z 1) with 1 in H.
    set (m := inject_Z (round_half_even (a / pow2 971))) in *.
    set (k := inject_Z (2 ^ 53)) in *. set (x := pow2 971) in *.
    set (z := pow2 1024) in *. clearbody m k x z.
    assert (G : m * x <= (k + -1) * x) by (apply Qmult_le_compat_r; lra). lra.
  - pose proof (nearest_le_pow2 a 1023 Ha Hsmall ltac:(lia)). lra.
Qed.

Lemma Qle_bool_false x y : y < x -> Qle_bool x y = false.
Proof.
  intros H. destruct (Qle_bool x y) eqn:E; [| reflexivity].
  apply Qle_bool_iff in E. lra.
Qed.

Lemma to_double_not_nan q : to_double q <> NaN.
Proof.
  unfold to_double. cbv zeta.
  destruct (Qred q ?= 0); [discriminate | |];
    match goal with |- context [Qle_bool ?x ?y] => destruct (Qle_bool x y) end;
    discriminate.
Qed.

Lemma to_double_Qeq q q' : q == q' -> to_double q = to_double q'.
Proof. intros H. unfold to_double. rewrite (Qred_complete _ _ H). reflexivity. Qed.

Lemma to_double_zero q : q == 0 -> to_double q = Fin 0.
Proof. intros H. rewrite (to_double_Qeq q 0 H). reflexivity. Qed.

Lemma to_double_pos q :
  0 < q -> nearest (Qred q) < pow2 1024 -> to_double q = Fin (Qred (nearest (Qred q))).
Proof.
  intros Hq Hfin. unfold to_double. cbv zeta.
  assert (C : (Qred q ?= 0) = Gt) by (apply Qgt_alt; rewrite Qred_correct; exact Hq).
  rewrite C, Qle_bool_false by exact Hfin. reflexivity.
Qed.

Lemma to_double_neg q :
  q < 0 -> nearest (- Qred q) < pow2 1024 ->
  to_double q = Fin (Qred (- nearest (- Qred q))).
Proof.
  intros Hq Hfin. unfold to_double. cbv zeta.
  assert (C : (Qred q ?= 0) = Lt) by (apply Qlt_alt; rewrite Qred_correct; exact Hq).
  rewrite C, Qle_bool_false by exact Hfin. reflexivity.
Qed.

(** Every rational whose absolute value is below [2^1024 - 2^970] rounds to
    a finite double. *)
Theorem to_double_finite q :
  Qabs q < pow2 1024 - pow2 970 -> exists v, to_double q = Fin v.
Proof.
  intros H. pose proof (Qred_correct q) as R.
  destruct (Q_dec q 0) as [[Hneg | Hpos] | Hz].
  - eexists. apply to_double_neg; [exact Hneg |].
    apply nearest_finite; [lra |].
    rewrite R. rewrite Qabs_neg in H by lra. exact H.
  - eexists. apply to_double_pos; [exact Hpos |].
    apply nearest_finite; [lra |].
    rewrite R. rewrite Qabs_pos in H by lra. exact H.
  - exists 0. apply to_double_zero. exact Hz.
Qed.

(** Rounding a value of [[0, 2^K]] stays in the interval and moves the value
    by at most [2^(K-53)]. *)
Theorem to_double_near q K :
  0 <= q -> q <= pow2 K -> (-1022 <= K <= 1023)%Z ->
  exists v, to_double q = Fin v /\ 0 <= v /\ v <= pow2 K /\
    v - q <= pow2 (K - 53) /\ q - v <= pow2 (K - 53).
Proof.
  intros H0 HK HKr. pose proof (Qred_correct q) as R.
  pose proof (pow2_pos K) as PK. pose proof (pow2_pos (K - 53)) as PK'.
  destruct (Qle_lt_or_eq _ _ H0) as [Hpos | Hz].
  - assert (Hr : 0 < Qred q) by lra. assert (HrK : Qred q <= pow2 K) by lra.
    pose proof (nearest_le_pow2 _ K Hr HrK ltac:(lia)) as Hle.
    pose proof (pow2_le K 1023 ltac:(lia)) as T1. pose proof (pow2_lt 1023 1024 eq_refl) as T2.
    exists (Qred (nearest (Qred q))). split; [apply to_double_pos; [exact Hpos | lra] |].
    rewrite Qred_correct.
    pose proof (nearest_nonneg (Qred q) ltac:(lra)) as Hnn.
    destruct (nearest_error (Qred q)) as [E1 E2].
    pose proof (exponent_le _ K Hr HrK) as He.
    assert (P : pow2 (exponent (Qred q)) <= 2 * pow2 (K - 53)).
    { assert (M : pow2 (K - 52) == 2 * pow2 (K - 53)).
      { replace (K - 52)%Z with (1 + (K - 53))%Z by lia. rewrite pow2_add. reflexivity. }
      rewrite <- M. apply pow2_le. lia. }
    repeat split; lra.
  - exists 0. split; [apply to_double_zero; symmetry; exact Hz |]. repeat split; lra.
Qed.

(** Rounding a value that lies between two natural numbers below [2^53]
    stays between them. *)
Theorem to_double_between q lo hi :
  (0 <= lo)%Z -> (hi < 2 ^ 53)%Z -> inject_Z lo <= q -> q <= inject_Z hi ->
  exists v, to_double q = Fin v /\ inject_Z lo <= v /\ v <= inject_Z hi.
Proof.
  intros Hlo Hhi H1 H2. pose proof (Qred_correct q) as R.
  assert (L0 : 0 <= inject_Z lo) by (rewrite <- (Zle_Qle 0); exact Hlo).
  destruct (Qle_lt_or_eq 0 q ltac:(lra)) as [Hpos | Hz].
  - assert (Hr : 0 < Qred q) by lra.
    destruct (ilog2_spec _ Hr) as [I1 _].
    assert (T : inject_Z hi < pow2 53).
    { rewrite pow2_Z by lia. rewrite <- Zlt_Qlt. exact Hhi. }
    assert (F : (ilog2 (Qred q) < 53)%Z) by (apply pow2_lt_inv; lra).
    assert (E : (exponent (Qred q) <= 0)%Z) by (unfold exponent; lia).
    assert (U : 1 == inject_Z (2 ^ (0 - exponent (Qred q))) * pow2 (exponent (Qred q))).
    { apply (pow2_multiple _ 0). exact E. }
    assert (Hle : nearest (Qred q) <= inject_Z hi).
    { apply (nearest_le _ _ (hi * 2 ^ (0 - exponent (Qred q)))); [lra |].
      rewrite inject_Z_mult, <- Qmult_assoc, <- U, Qmult_1_r. reflexivity. }
    assert (Hge : inject_Z lo <= nearest (Qred q)).
    { apply (nearest_ge _ _ (lo * 2 ^ (0 - exponent (Qred q)))); [lra |].
      rewrite inject_Z_mult, <- Qmult_assoc, <- U, Qmult_1_r. reflexivity. }
    pose proof (pow2_lt 53 1024 eq_refl) as Top.
    exists (Qred (nearest (Qred q))). split; [apply to_double_pos; [exact Hpos | lra] |].
    rewrite Qred_correct. split; assumption.
  - exists 0. split; [apply to_double_zero; symmetry; exact Hz |]. split; lra.
Qed.


Lemma Qdiv_between (a n lo hi : Z) :
  (0 < n)%Z -> (lo * n <= a)%Z -> (a <= hi * n)%Z ->
  inject_Z lo <= inject_Z a / inject_Z n /\ inject_Z a / inject_Z n <= inject_Z hi.
Proof.
  intros Hn Hlo Hhi.
  assert (Hn' : 0 < inject_Z n) by (rewrite <- (Zlt_Qlt 0); exact Hn).
  split.
  - apply Qle_shift_div_l; [exact Hn' |]. rewrite <- inject_Z_mult, <- Zle_Qle. exact Hlo.
  - apply Qle_shift_div_r; [exact Hn' |]. rewrite <- inject_Z_mult, <- Zle_Qle. exact Hhi.
Qed.

Lemma int_truediv_finite a b v :
  b <> 0%Z -> to_double (inject_Z a / inject_Z b) = Fin v ->
  int_truediv a b = Ok (to_double (inject_Z a / inject_Z b)).
Proof.
  intros Hb Hv. unfold int_truediv.
  destruct (Z.eqb_spec b 0) as [E |]; [contradiction |]. rewrite Hv. reflexivity.
Qed.

Lemma int_truediv_in_range a b :
  b <> 0%Z -> in_float_range a b ->
  int_truediv a b = Ok (to_double (inject_Z a / inject_Z b)).
Proof.
  intros Hb Hr. destruct (to_double_finite _ Hr) as (v & Hv).
  exact (int_truediv_finite a b v Hb Hv).
Qed.

(** Rounding to [ndigits] decimals keeps a value between two natural
    numbers that bound it. *)
Lemma py_round_between x ndigits lo hi :
  (0 <= lo)%Z -> (hi < 2 ^ 53)%Z -> inject_Z lo <= x -> x <= inject_Z hi ->
  exists v, py_round (Fin x) ndigits = Fin v /\ inject_Z lo <= v /\ v <= inject_Z hi.
Proof.
  intros Hlo Hhi H1 H2. unfold py_round. cbv zeta.
  set (p := (10 ^ Z.of_nat ndigits)%Z).
  assert (Hp : (0 < p)%Z) by (apply Z.pow_pos_nonneg; lia).
  assert (Hp' : 0 < inject_Z p) by (rewrite <- (Zlt_Qlt 0); exact Hp).
  assert (K1 : (lo * p <= round_half_even (x * inject_Z p))%Z).
  { apply round_half_even_ge. rewrite inject_Z_mult.
    apply Qmult_le_compat_r; [exact H1 | lra]. }
  assert (K2 : (round_half_even (x * inject_Z p) <= hi * p)%Z).
  { apply round_half_even_le. rewrite inject_Z_mult.
    apply Qmult_le_compat_r; [exact H2 | lra]. }
  destruct (Qdiv_between _ p lo hi Hp K1 K2) as [B1 B2].
  apply to_double_between; assumption.
Qed.

(** The percentage that [c] is of [n] lies between 0 and 100. *)
Lemma share_between c n ndigits :
  (0 < n)%Z -> (0 <= c <= n)%Z ->
  int_truediv c n = Ok (to_double (inject_Z c / inject_Z n)) /\
  exists v, share c n ndigits = Fin v /\ 0 <= v /\ v <= 100.
Proof.
  intros Hn Hc.
  destruct (Qdiv_between c n 0 1 Hn ltac:(lia) ltac:(lia)) as [B1 B2].
  destruct (to_double_between _ 0 1 ltac:(lia) ltac:(lia) B1 B2) as (x & Hx & X1 & X2).
  split; [apply (int_truediv_finite c n x); [lia | exact Hx] |].
  unfold share. rewrite Hx. cbn [pf_mul].
  change (inject_Z 0) with 0 in X1. change (inject_Z 1) with 1 in X2.
  destruct (to_double_between (x * 100) 0 100 ltac:(lia) ltac:(lia))
    as (y & Hy & Y1 & Y2).
  { change (inject_Z 0) with 0. lra. }
  { change (inject_Z 100) with 100. lra. }
  rewrite Hy.
  exact (py_round_between y ndigits 0 100 ltac:(lia) ltac:(lia) Y1 Y2).
Qed.

(** The rounded mean of [a] over [n] lies between two natural numbers that
    bound the mean. *)
Lemma mean_between a n ndigits lo hi :
  (0 < n)%Z -> (0 <= lo)%Z -> (hi < 2 ^ 53)%Z -> (lo * n <= a)%Z -> (a <= hi * n)%Z ->
  int_truediv a n = Ok (to_double (inject_Z a / inject_Z n)) /\
  exists v, mean a n ndigits = Fin v /\ inject_Z lo <= v /\ v <= inject_Z hi.
Proof.
  intros Hn Hlo Hhi H1 H2.
  destruct (Qdiv_between a n lo hi Hn H1 H2) as [B1 B2].
  destruct (to_double_between _ lo hi Hlo Hhi B1 B2) as (x & Hx & X1 & X2).
  split; [apply (int_truediv_finite a n x); [lia | exact Hx] |].
  unfold mean. rewrite Hx.
  exact (py_round_between x ndigits lo hi Hlo Hhi X1 X2).
Qed.

Lemma pow2_small : pow2 (-46) <= 1 # 1000000.
Proof. vm_compute. discriminate. Qed.

Lemma pow2_0 : pow2 0 == 1.
Proof. reflexivity. Qed.

Lemma pow2_7 : pow2 7 == 128.
Proof. reflexivity. Qed.

(** The percentage to two decimals is within 0.006 of the exact one. *)
Lemma share_near c n :
  (0 < n)%Z -> (0 <= c <= n)%Z ->
  exists v, share c n 2 = Fin v /\
    v - inject_Z c / inject_Z n * 100 <= 6 # 1000 /\
    inject_Z c / inject_Z n * 100 - v <= 6 # 1000.
Proof.
  intros Hn Hc.
  destruct (Qdiv_between c n 0 1 Hn ltac:(lia) ltac:(lia)) as [B1 B2].
  change (inject_Z 0) with 0 in B1. change (inject_Z 1) with 1 in B2.
  pose proof pow2_small as S46. pose proof pow2_0 as P0. pose proof pow2_7 as P7.
  assert (S53 : pow2 (0 - 53) <= pow2 (-46)) by (apply pow2_le; lia).
  destruct (to_double_near (inject_Z c / inject_Z n) 0 B1 ltac:(lra) ltac:(lia))
    as (x & Hx & X1 & X2 & X3 & X4).
  unfold share. rewrite Hx. cbn [pf_mul].
  destruct (to_double_near (x * 100) 7 ltac:(lra) ltac:(lra) ltac:(lia))
    as (y & Hy & Y1 & Y2 & Y3 & Y4).
  rewrite Hy. unfold py_round. cbv zeta.
  change (inject_Z (10 ^ Z.of_nat 2)) with 100.
  destruct (round_half_even_near (y * 100)) as [R1 R2].
  assert (K1 : (0 <= round_half_even (y * 100))%Z).
  { apply round_half_even_ge. change (inject_Z 0) with 0. lra. }
  assert (K2 : (round_half_even (y * 100) <= 12800)%Z).
  { apply round_half_even_le. change (inject_Z 12800) with 12800. lra. }
  rewrite Zle_Qle in K1, K2.
  change (inject_Z 0) with 0 in K1. change (inject_Z 12800) with 12800 in K2.
  set (k := inject_Z (round_half_even (y * 100))) in *.
  destruct (to_double_near (k / 100) 7) as (v & Hv & V1 & V2 & V3 & V4).
  { apply Qle_shift_div_l; lra. }
  { apply Qle_shift_div_r; lra. }
  { lia. }
  exists v. split; [exact Hv |].
  change (7 - 53)%Z with (-46)%Z in *.
  assert (D : k / 100 == k * (1 # 100)) by (field).
  set (q := inject_Z c / inject_Z n) in *. clearbody q k.
  set (e := pow2 (-46)) in *. set (e' := pow2 (0 - 53)) in *.
  set (kq := k / 100) in *. clearbody e e' kq.
  split; lra.
Qed.

(** Three percentages of counts that add up to the total add up to 100
    within 0.1. *)
Lemma shares_sum (a b c n : Z) :
  (a + b + c)%Z = n -> (0 <= a)%Z -> (0 <= b)%Z -> (0 <= c)%Z -> (0 < n)%Z ->
  exists p q r, share a n 2 = Fin p /\ share b n 2 = Fin q /\ share c n 2 = Fin r /\
    100 - (1 # 10) <= p + q + r /\ p + q + r <= 100 + (1 # 10).
Proof.
  intros Hsum Ha Hb Hc Hn.
  destruct (share_near a n Hn ltac:(lia)) as (p & Hp & P1 & P2).
  destruct (share_near b n Hn ltac:(lia)) as (q & Hq & Q1 & Q2).
  destruct (share_near c n Hn ltac:(lia)) as (r & Hr & R1 & R2).
  exists p, q, r. repeat (split; [assumption |]).
  assert (Hn' : ~ inject_Z n == 0).
  { intros H. unfold Qeq in H. cbn in H. lia. }
  assert (E : inject_Z a / inject_Z n * 100 + inject_Z b / inject_Z n * 100
              + inject_Z c / inject_Z n * 100 == 100).
  { subst n. rewrite !inject_Z_plus in *. field. exact Hn'. }
  set (qa := inject_Z a / inject_Z n) in *. set (qb := inject_Z b / inject_Z n) in *.
  set (qc := inject_Z c / inject_Z n) in *. clearbody qa qb qc.
  split; lra.
Qed.

End Doubles.

(** ** The aggregator *)

Section Aggregator.
Context {RT : PyRuntime}.

Lemma valid_alert_cases r :
  valid_alert r = true ->
  alert_level r = "low" \/ alert_level r = "medium" \/ alert_level r = "high".
Proof.
  unfold valid_alert. intros H.
  destruct (String.eqb_spec (alert_level r) "low"); auto.
  destruct (String.eqb_spec (alert_level r) "medium"); auto.
  destruct (String.eqb_spec (alert_level r) "high"); auto.
  discriminate H.
Qed.

Lemma count_result_valid acc r a b c x y z :
  counts acc a b c x y z -> valid_alert r = true ->
  exists acc', count_result acc r = Ok acc' /\
    counts acc'
      (a + if has_sentiment POSITIVE r then 1 else 0)
      (b + if has_sentiment NEGATIVE r then 1 else 0)
      (c + if has_sentiment NEUTRAL r then 1 else 0)
      (x + if has_alert "low" r then 1 else 0)
      (y + if has_alert "medium" r then 1 else 0)
      (z + if has_alert "high" r then 1 else 0) /\
    total_churn_risk acc' = total_churn_risk acc + churn_probability r /\
    total_purchase_intent acc' = total_purchase_intent acc + purchase_intent r.
Proof.
  intros [Hs Ha] Hv. unfold count_result, has_sentiment, has_alert, counts.
  rewrite Hs, Ha.
  destruct (valid_alert_cases r Hv) as [E | [E | E]]; rewrite E;
    destruct (sentiment r); cbn; eexists; (split; [reflexivity |]); cbn;
    rewrite ?Z.add_0_r; auto.
Qed.

Lemma count_result_invalid acc r a b c x y z :
  counts acc a b c x y z -> valid_alert r = false ->
  count_result acc r = Raise (KeyError (alert_level r)).
Proof.
  intros [Hs Ha] Hv. unfold count_result. rewrite Hs, Ha.
  unfold valid_alert in Hv.
  apply orb_false_elim in Hv as [Hv Hh]. apply orb_false_elim in Hv as [Hl Hm].
  destruct (sentiment r); cbn; rewrite Hl, Hm, Hh; reflexivity.
Qed.

Lemma count_results_valid l : forall acc a b c x y z,
  counts acc a b c x y z -> forallb valid_alert l = true ->
  exists acc', count_results acc l = Ok acc' /\
    counts acc'
      (a + count_where (has_sentiment POSITIVE) l)
      (b + count_where (has_sentiment NEGATIVE) l)
      (c + count_where (has_sentiment NEUTRAL) l)
      (x + count_where (has_alert "low") l)
      (y + count_where (has_alert "medium") l)
      (z + count_where (has_alert "high") l).
Proof.
  induction l as [| r l IH]; intros acc a b c x y z Hc Hv.
  - exists acc. split; [reflexivity |]. cbn. rewrite !Z.add_0_r. exact Hc.
  - cbn in Hv. apply andb_prop in Hv as [Hr Hl].
    destruct (count_result_valid acc r a b c x y z Hc Hr) as (acc1 & H1 & Hc1 & _).
    destruct (IH acc1 _ _ _ _ _ _ Hc1 Hl) as (acc2 & H2 & Hc2).
    exists acc2. split.
    + cbn. rewrite H1. exact H2.
    + cbn [count_where]. rewrite !Z.add_assoc. exact Hc2.
Qed.

(** The first result whose alert level is no key of the table stops the
    loop with a lookup error. *)
Lemma count_results_invalid l : forall acc a b c x y z,
  counts acc a b c x y z -> forallb valid_alert l = false ->
  exists r, r ∈ l /\ valid_alert r = false /\
    count_results acc l = Raise (KeyError (alert_level r)).
Proof.
  induction l as [| r l IH]; intros acc a b c x y z Hc Hv; [discriminate Hv |].
  cbn in Hv. destruct (valid_alert r) eqn:Hr.
  - destruct (count_result_valid acc r a b c x y z Hc Hr) as (acc1 & H1 & Hc1 & _).
    destruct (IH acc1 _ _ _ _ _ _ Hc1 Hv) as (r' & Hin & Hr' & H2).
    exists r'. split; [apply list_elem_of_further; exact Hin |].
    split; [exact Hr' |]. cbn. rewrite H1. exact H2.
  - exists r. split; [apply list_elem_of_here |]. split; [exact Hr |].
    cbn. rewrite (count_result_invalid acc r a b c x y z Hc Hr). reflexivity.
Qed.

Lemma initial_counts : counts initial_counters 0 0 0 0 0 0.
Proof. split; reflexivity. Qed.

Lemma count_sentiment_total l :
  count_where (has_sentiment POSITIVE) l + count_where (has_sentiment NEGATIVE) l
  + count_where (has_sentiment NEUTRAL) l = Z.of_nat (length l).
Proof.
  induction l as [| r l IH]; [reflexivity |].
  cbn [count_where length]. unfold has_sentiment at 1 3 5.
  destruct (sentiment r); cbn; lia.
Qed.

Lemma count_alert_total l :
  forallb valid_alert l = true ->
  count_where (has_alert "low") l + count_where (has_alert "medium") l
  + count_where (has_alert "high") l = Z.of_nat (length l).
Proof.
  induction l as [| r l IH]; [reflexivity |].
  cbn [forallb]. intros Hv. apply andb_prop in Hv as [Hr Hl]. specialize (IH Hl).
  cbn [count_where length]. unfold has_alert at 1 3 5.
  destruct (valid_alert_cases r Hr) as [E | [E | E]]; rewrite E; cbn; lia.
Qed.

Lemma count_where_bounds p l : 0 <= count_where p l <= Z.of_nat (length l).
Proof.
  induction l as [| r l IH]; cbn [count_where length]; [lia |].
  destruct (p r); lia.
Qed.

Lemma length_pos (l : list SentimentResponse) : l <> [] -> 0 < Z.of_nat (length l).
Proof. destruct l; [congruence | cbn; lia]. Qed.

(** The loop over the results leaves in its accumulators the sums over the
    list. *)
Lemma count_results_totals l : forall acc acc',
  count_results acc l = Ok acc' ->
  total_churn_risk acc' = total_churn_risk acc + sum_of churn_probability l /\
  total_purchase_intent acc' = total_purchase_intent acc + sum_of purchase_intent l /\
  high_value_customers acc'
    = high_value_customers acc + count_where is_high_value l.
Proof.
  induction l as [| r l IH]; intros acc acc' H.
  - injection H as <-. cbn. lia.
  - cbn [count_results] in H. apply bind_ok in H as (acc1 & H1 & H).
    destruct (IH _ _ H) as (Hc & Hp & Hh). rewrite Hc, Hp, Hh.
    unfold count_result in H1. binds. injection H1 as <-. cbn.
    unfold is_high_value. destruct (_ || _); lia.
Qed.

Lemma count_results_savings l : forall acc acc',
  count_results acc l = Ok acc' ->
  cost_optimization_savings acc' = savings (cost_optimization_savings acc) l.
Proof.
  induction l as [| r l IH]; intros acc acc' H.
  - injection H as <-. reflexivity.
  - cbn [count_results] in H. apply bind_ok in H as (acc1 & H1 & H).
    rewrite (IH _ _ H). unfold count_result in H1. binds. injection H1 as <-.
    reflexivity.
Qed.

Lemma percentage_share c n ndigits :
  0 < n -> 0 <= c <= n -> percentage c n ndigits = Ok (JFloat (share c n ndigits)).
Proof.
  intros Hn Hc. unfold percentage.
  destruct (share_between c n ndigits Hn Hc) as (-> & _). reflexivity.
Qed.

Lemma average_mean a n ndigits :
  n <> 0 -> in_float_range a n -> average a n ndigits = Ok (JFloat (mean a n ndigits)).
Proof.
  intros Hn Hr. unfold average. rewrite (int_truediv_in_range a n Hn Hr). reflexivity.
Qed.

(** On a non-empty list whose alert levels are keys of the table and whose
    two means are in the range of the floats, the summary is computed: it
    is [summary_of]. *)
Lemma calculate_summary_valid l :
  l <> [] -> forallb valid_alert l = true ->
  in_float_range (sum_of churn_probability l) (Z.of_nat (length l)) ->
  in_float_range (sum_of purchase_intent l) (Z.of_nat (length l)) ->
  _calculate_summary l = Ok {| results := l; summary := summary_of l |}.
Proof.
  intros Hne Hv Hchurn Hintent.
  destruct (count_results_valid l initial_counters 0 0 0 0 0 0 initial_counts Hv)
    as (acc & Hacc & Hs & Ha).
  rewrite !Z.add_0_l in Hs, Ha.
  destruct (count_results_totals l _ _ Hacc) as (Ec & Ep & Eh).
  cbn in Ec, Ep, Eh. rewrite Z.add_0_l in Ec, Ep, Eh.
  pose proof (count_results_savings l _ _ Hacc) as Esav.
  cbn [initial_counters cost_optimization_savings] in Esav.
  pose proof (length_pos l Hne) as Hn.
  assert (HN : (Z.of_nat (length l) =? 0) = false) by (apply Z.eqb_neq; lia).
  unfold _calculate_summary. rewrite Hacc. cbn [mbind res_bind].
  unfold count_of. rewrite Hs, Ha, Ec, Ep, Eh, Esav.
  cbn [assoc String.eqb Ascii.eqb Bool.eqb mbind res_bind].
  rewrite !(percentage_share _ _ _ Hn (count_where_bounds _ _)).
  assert (Hn0 : Z.of_nat (length l) <> 0) by lia.
  rewrite (average_mean _ _ 1 Hn0 Hchurn), (average_mean _ _ 1 Hn0 Hintent).
  unfold float_div_int. rewrite HN. cbn [mbind res_bind].
  reflexivity.
Qed.

(** With a result whose alert level is no key of the table, the summary
    raises the lookup error, whatever else the list holds. *)
Lemma calculate_summary_invalid l :
  forallb valid_alert l = false ->
  exists r, r ∈ l /\ valid_alert r = false /\
    _calculate_summary l = Raise (KeyError (alert_level r)).
Proof.
  intros Hv.
  destruct (count_results_invalid l initial_counters 0 0 0 0 0 0 initial_counts Hv)
    as (r & Hin & Hr & Hc).
  exists r. split; [exact Hin |]. split; [exact Hr |].
  unfold _calculate_summary. rewrite Hc. reflexivity.
Qed.

End Aggregator.

(** C6, as it is stated, fails: for two results of alert level low and one
    of level medium the summary holds the count 2 of the level low, but
    nowhere the percentage 66.67 that 2 is of 3; the alert distribution is
    the three counts.  For other non-empty lists there is no summary at
    all: an alert level outside the table raises a lookup error, and a
    churn probability of 401 digits makes the mean overflow. *)
Lemma summary_lacks_alert_percentage :
  (exists s,
    @_calculate_summary offline two_low_one_medium
      = Ok {| results := two_low_one_medium; summary := s |} /\
    count_where (has_alert "low") two_low_one_medium = 2 /\
    share 2 3 2 = to_double (6667 # 100) /\
    getpath s ["alert_distribution"]
      = Ok (JObj [("low", JInt 2); ("medium", JInt 1); ("high", JInt 0)]) /\
    holds_count_and_share s (count_where (has_alert "low") two_low_one_medium) 3 = false) /\
  @_calculate_summary offline critical_alert = Raise (KeyError "critical") /\
  @_calculate_summary offline huge_churn
  = Raise (OverflowError "integer division result too large for a float").
Proof.
  split; [| split; vm_compute; reflexivity].
  eexists. split; [vm_compute; reflexivity |].
  repeat split; vm_compute; reflexivity.
Qed.

(** C6, amended: for every non-empty list of results whose alert levels are
    low, medium or high and whose mean churn probability and mean purchase
    intent are in the range of the floats, the summary holds the total, for
    each of the three sentiment values the percentage of the total rounded
    to two decimals, and for each of the three alert levels the count; the
    three percentages add up to 100 within 0.1, and the three counts add up
    to the total. *)
Theorem summary_distributions {RT : PyRuntime} (l : list SentimentResponse) :
  l <> [] -> forallb valid_alert l = true ->
  in_float_range (sum_of churn_probability l) (Z.of_nat (length l)) ->
  in_float_range (sum_of purchase_intent l) (Z.of_nat (length l)) ->
  let n := Z.of_nat (length l) in
  let lo := count_where (has_alert "low") l in
  let me := count_where (has_alert "medium") l in
  let hi := count_where (has_alert "high") l in
  exists s p g u, _calculate_summary l = Ok {| results := l; summary := s |} /\
    getpath s ["total_messages"] = Ok (JInt n) /\
    share (count_where (has_sentiment POSITIVE) l) n 2 = Fin p /\
    share (count_where (has_sentiment NEGATIVE) l) n 2 = Fin g /\
    share (count_where (has_sentiment NEUTRAL) l) n 2 = Fin u /\
    getpath s ["sentiment_distribution"] =
      Ok (JObj [("positive_percentage", JFloat (Fin p));
                ("negative_percentage", JFloat (Fin g));
                ("neutral_percentage", JFloat (Fin u))]) /\
    (100 - (1 # 10) <= p + g + u /\ p + g + u <= 100 + (1 # 10))%Q /\
    getpath s ["alert_distribution"] =
      Ok (JObj [("low", JInt lo); ("medium", JInt me); ("high", JInt hi)]) /\
    lo + me + hi = n.
Proof.
  intros Hne Hv Hchurn Hintent n lo me hi. subst n lo me hi.
  pose proof (calculate_summary_valid l Hne Hv Hchurn Hintent) as Hs.
  pose proof (length_pos l Hne) as Hn.
  destruct (shares_sum _ _ _ _ (count_sentiment_total l)
              (proj1 (count_where_bounds _ l)) (proj1 (count_where_bounds _ l))
              (proj1 (count_where_bounds _ l)) Hn) as (p & g & u & Hp & Hg & Hu & Hsum).
  exists (summary_of l), p, g, u. split; [exact Hs |]. split; [reflexivity |].
  split; [exact Hp |]. split; [exact Hg |]. split; [exact Hu |].
  split; [cbn [summary_of getpath getitem assoc String.eqb Ascii.eqb Bool.eqb mbind res_bind];
          rewrite Hp, Hg, Hu; reflexivity |].
  split; [exact Hsum |]. split; [reflexivity |].
  apply count_alert_total. exact Hv.
Qed.

Lemma summary_distributions_witness :
  mixed_results <> [] /\ forallb valid_alert mixed_results = true /\
  in_float_range (sum_of churn_probability mixed_results) 3 /\
  in_float_range (sum_of purchase_intent mixed_results) 3 /\
  exists s p g u, @_calculate_summary offline mixed_results
            = Ok {| results := mixed_results; summary := s |} /\
    to_double (3333 # 100) = Fin p /\ to_double (3333 # 100) = Fin g /\
    to_double (3333 # 100) = Fin u /\
    getpath s ["sentiment_distribution"] =
      Ok (JObj [("positive_percentage", JFloat (Fin p));
                ("negative_percentage", JFloat (Fin g));
                ("neutral_percentage", JFloat (Fin u))]) /\
    (100 - (1 # 10) <= p + g + u /\ p + g + u <= 100 + (1 # 10))%Q /\
    getpath s ["alert_distribution"] =
      Ok (JObj [("low", JInt 1); ("medium", JInt 1); ("high", JInt 1)]).
Proof.
  assert (Hne : mixed_results <> []) by discriminate.
  assert (Hv : forallb valid_alert mixed_results = true) by reflexivity.
  assert (Hc : in_float_range (sum_of churn_probability mixed_results) 3)
    by (vm_compute; reflexivity).
  assert (Hi : in_float_range (sum_of purchase_intent mixed_results) 3)
    by (vm_compute; reflexivity).
  split; [exact Hne |]. split; [exact Hv |]. split; [exact Hc |]. split; [exact Hi |].
  destruct (summary_distributions (RT := offline) mixed_results Hne Hv Hc Hi)
    as (s & p & g & u & Hs & _ & Hp & Hg & Hu & Hd & Hsum & Ha & _).
  exists s, p, g, u. split; [exact Hs |].
  split; [rewrite <- Hp; vm_compute; reflexivity |].
  split; [rewrite <- Hg; vm_compute; reflexivity |].
  split; [rewrite <- Hu; vm_compute; reflexivity |].
  split; [exact Hd |]. split; [exact Hsum | exact Ha].
Defined.

(** ** The dispatch *)

Section Dispatch.
Context {RT : PyRuntime}.

Lemma calculate_summary_results l b :
  _calculate_summary l = Ok b -> results b = l.
Proof.
  intros H. unfold _calculate_summary in H. binds. injection H as <-. reflexivity.
Qed.

Lemma result_of_message call m : message (result_of call m) = req_message m.
Proof.
  unfold result_of, analyze_message.
  destruct (analyze_message_body call _ _ _ _) as [r|e] eqn:Hb; cbn; [| reflexivity].
  unfold analyze_message_body in Hb. binds.
  apply build_response_ok in Hb. apply Hb.
Qed.

(** The individual loop returns, and its [i]-th result is what the [i]-th
    request of the loop gives for the [i]-th message. *)
Lemma individual_results_spec messages : forall call,
  individual_results call messages
  = Ok (imap (fun i m => result_of (call + i) m) messages).
Proof.
  induction messages as [| m rest IH]; intros call; [reflexivity |].
  cbn [individual_results imap]. unfold result_of at 1. rewrite Nat.add_0_r.
  destruct (analyze_message_total call (req_message m) (req_customer_id m)
              (req_agent_id m) (req_timestamp m)) as (r & Hr).
  rewrite Hr. cbn. rewrite IH. cbn. f_equal. f_equal.
  apply imap_ext. intros i x _. cbn. f_equal. lia.
Qed.

Lemma individual_results_lookup call messages i m :
  messages !! i = Some m ->
  exists rs, individual_results call messages = Ok rs /\
    length rs = length messages /\
    rs !! i = Some (result_of (call + i) m) /\
    message (result_of (call + i) m) = req_message m.
Proof.
  intros Hm. eexists. split; [apply individual_results_spec |].
  split; [apply length_imap |].
  split; [rewrite list_lookup_imap, Hm; reflexivity | apply result_of_message].
Qed.

(** A request that raises gives the fallback record of its message. *)
Lemma result_of_failed_request call m e :
  llm_invoke call (single_prefix ++ req_message m ++ single_suffix) = Raise e ->
  result_of call m = fallback_for m ("Analysis error: " ++ exn_str e).
Proof.
  intros H. unfold result_of, analyze_message, analyze_message_body.
  rewrite H. reflexivity.
Qed.

(** When anything in the combined attempt raises, the whole batch goes
    through the individual loop. *)
Lemma combined_failure_retries call messages e :
  analyze_bulk_optimized_body call messages = Raise e ->
  _analyze_bulk_optimized call messages = _analyze_bulk_individual (S call) messages.
Proof. intros H. unfold _analyze_bulk_optimized. rewrite H. reflexivity. Qed.

Lemma undecodable_array_retries call messages content e :
  llm_invoke call (bulk_prefix ++ messages_batch 1 messages ++ bulk_suffix) = Ok content ->
  json_loads (extract "[" "]" content) = Raise e ->
  _analyze_bulk_optimized call messages = _analyze_bulk_individual (S call) messages.
Proof.
  intros Hllm Hjson. apply (combined_failure_retries _ _ e).
  unfold analyze_bulk_optimized_body. rewrite Hllm. cbn. rewrite Hjson. reflexivity.
Qed.

(** The individual dispatch returns one result per message, in order, when
    the alert levels of the results are keys of the table and their two
    means are in the range of the floats. *)
Lemma analyze_bulk_individual_valid call messages :
  messages <> [] ->
  let rs := imap (fun i m => result_of (call + i) m) messages in
  forallb valid_alert rs = true ->
  in_float_range (sum_of churn_probability rs) (Z.of_nat (length rs)) ->
  in_float_range (sum_of purchase_intent rs) (Z.of_nat (length rs)) ->
  exists s, _analyze_bulk_individual call messages = Ok {| results := rs; summary := s |}.
Proof.
  intros Hne rs Hv Hchurn Hintent. unfold _analyze_bulk_individual.
  rewrite individual_results_spec. cbn [mbind res_bind].
  assert (Hne' : rs <> []).
  { intros H. apply (f_equal length) in H. subst rs. rewrite length_imap in H.
    destruct messages; [congruence | discriminate H]. }
  exists (summary_of rs). exact (calculate_summary_valid rs Hne' Hv Hchurn Hintent).
Qed.

End Dispatch.

(** The result for a message depends on the reply to its own request only:
    two completion services that agree on request [call] give the same
    result for it. *)
Lemma result_of_own_request (RT : PyRuntime) (llm1 llm2 : nat -> string -> res string)
    (call : nat) (m : MessageRequest) :
  (forall prompt, llm1 call prompt = llm2 call prompt) ->
  @result_of (with_llm RT llm1) call m = @result_of (with_llm RT llm2) call m.
Proof.
  intros H. unfold result_of, analyze_message, analyze_message_body. cbn.
  rewrite H. reflexivity.
Qed.

(** ** The alert level and the table of counters *)

(** C10, as it is stated, fails: the one result of [huge_churn] has the
    alert level low, and the summary raises, the mean of a churn
    probability of 401 digits being beyond the floats; such a result is
    what a reply with that number gives.  On the empty list the summary
    raises a division by zero. *)
Lemma summary_overflows_on_valid_alerts :
  huge_churn <> [] /\ forallb valid_alert huge_churn = true /\
  @_calculate_summary offline huge_churn
  = Raise (OverflowError "integer division result too large for a float") /\
  (exists r, @analyze_message (always huge_churn_reply) 0 "hello" None None None = Ok r /\
     alert_level r = "low" /\ churn_probability r = 10 ^ 400 /\
     @_calculate_summary (always huge_churn_reply) [r]
     = Raise (OverflowError "integer division result too large for a float")) /\
  @_calculate_summary offline [] = Raise ZeroDivisionError.
Proof.
  split; [discriminate |]. split; [reflexivity |].
  split; [vm_compute; reflexivity |]. split; [| reflexivity].
  eexists. split; [vm_compute; reflexivity |].
  repeat split; vm_compute; reflexivity.
Qed.

(** C10, amended: for every non-empty list of results whose alert levels are
    low, medium or high and whose mean churn probability and mean purchase
    intent are in the range of the floats, the summary is computed; with a
    result of any other alert level the summary raises a lookup error on
    the table of alert counters; the alert level of a record built from a
    reply is the lower-cased value of the reply, whatever it is; and when a
    result of the individual loop has such an alert level, the individual
    dispatch raises that lookup error. *)
Theorem summary_needs_known_alert_levels {RT : PyRuntime} :
  (forall l, l <> [] -> forallb valid_alert l = true ->
     in_float_range (sum_of churn_probability l) (Z.of_nat (length l)) ->
     in_float_range (sum_of purchase_intent l) (Z.of_nat (length l)) ->
     exists s, _calculate_summary l = Ok {| results := l; summary := s |}) /\
  (forall l, forallb valid_alert l = false ->
     exists r, r ∈ l /\ valid_alert r = false /\
       _calculate_summary l = Raise (KeyError (alert_level r))) /\
  (forall parsed msg cid aid ts r,
     build_response parsed msg cid aid ts = Ok r ->
     converts parsed "alert_level" py_lower (alert_level r)) /\
  (forall call messages,
     exists rs, individual_results call messages = Ok rs /\
       (forallb valid_alert rs = false ->
        exists r, r ∈ rs /\ valid_alert r = false /\
          _analyze_bulk_individual call messages = Raise (KeyError (alert_level r)))).
Proof.
  split; [| split; [| split]].
  - intros l Hne Hv Hchurn Hintent. exists (summary_of l).
    exact (calculate_summary_valid l Hne Hv Hchurn Hintent).
  - apply @calculate_summary_invalid.
  - intros parsed msg cid aid ts r Hb. apply build_response_ok in Hb. apply Hb.
  - intros call messages. eexists. split; [apply individual_results_spec |].
    intros Hv. destruct (calculate_summary_invalid _ Hv) as (r & Hin & Hr & Hs).
    exists r. split; [exact Hin |]. split; [exact Hr |].
    unfold _analyze_bulk_individual. rewrite individual_results_spec. exact Hs.
Qed.

Lemma summary_needs_known_alert_levels_witness :
  (mixed_results <> [] /\ forallb valid_alert mixed_results = true /\
   in_float_range (sum_of churn_probability mixed_results) 3 /\
   in_float_range (sum_of purchase_intent mixed_results) 3 /\
   exists s, @_calculate_summary offline mixed_results
             = Ok {| results := mixed_results; summary := s |}) /\
  exists rs,
    @individual_results (always (Reference.reply_with "critical" "10")) 0
       (map request ["m1"; "m2"]) = Ok rs /\
    forallb valid_alert rs = false /\
    exists r, r ∈ rs /\ valid_alert r = false /\
      @_analyze_bulk_individual (always (Reference.reply_with "critical" "10")) 0
         (map request ["m1"; "m2"]) = Raise (KeyError (alert_level r)).
Proof.
  split.
  - assert (Hne : mixed_results <> []) by discriminate.
    assert (Hv : forallb valid_alert mixed_results = true) by reflexivity.
    assert (Hc : in_float_range (sum_of churn_probability mixed_results) 3)
      by (vm_compute; reflexivity).
    assert (Hi : in_float_range (sum_of purchase_intent mixed_results) 3)
      by (vm_compute; reflexivity).
    split; [exact Hne |]. split; [exact Hv |]. split; [exact Hc |]. split; [exact Hi |].
    exact (proj1 (summary_needs_known_alert_levels (RT := offline))
             mixed_results Hne Hv Hc Hi).
  - destruct (proj2 (proj2 (proj2 (summary_needs_known_alert_levels
                (RT := always (Reference.reply_with "critical" "10")))))
                0%nat (map request ["m1"; "m2"])) as (rs & Hrs & H).
    exists rs. split; [exact Hrs |].
    assert (Hv : forallb valid_alert rs = false).
    { rewrite individual_results_spec in Hrs. injection Hrs as <-. vm_compute. reflexivity. }
    split; [exact Hv | exact (H Hv)].
Defined.

(** ** One result per message *)

(** C3, evaluated on the code: nine messages go through the individual
    loop; the reply to the third has the alert level critical; the dispatch
    raises the lookup error instead of returning nine results, and the
    endpoint answers 500. *)
Theorem individual_dispatch_raises_on_unknown_alert :
  @analyze_bulk_messages (scripted nine_replies) 0 nine_messages
    = Raise (KeyError "critical") /\
  (exists rs, @individual_results (scripted nine_replies) 0 nine_messages = Ok rs /\
     length rs = 9%nat /\ map alert_level rs
       = ["low"; "low"; "critical"; "low"; "low"; "low"; "low"; "low"; "low"]) /\
  status (@analyze_bulk_sentiment (scripted nine_replies) 0 "2024-01-01T00:00:00"
            nine_messages) = 500.
Proof.
  split; [vm_compute; reflexivity |].
  split; [| vm_compute; reflexivity].
  eexists. split; [vm_compute; reflexivity |]. split; reflexivity.
Qed.

(** C4, evaluated on the code: five messages go through the combined
    attempt; the reply to it holds no array, so the five messages are
    analysed one by one; the reply to the third has the alert level
    critical; the dispatch raises the lookup error instead of returning five
    results. *)
Theorem retried_dispatch_raises_on_unknown_alert :
  @llm_invoke (scripted five_replies_after_failure) 0
     (@bulk_prefix (scripted five_replies_after_failure)
      ++ @messages_batch (scripted five_replies_after_failure) 1 five_messages
      ++ @bulk_suffix (scripted five_replies_after_failure))
    = Ok "I cannot produce the array." /\
  Reference.json_loads (extract "[" "]" "I cannot produce the array.")
    = Raise JSONDecodeError /\
  @_analyze_bulk_optimized (scripted five_replies_after_failure) 0 five_messages
    = @_analyze_bulk_individual (scripted five_replies_after_failure) 1 five_messages /\
  @analyze_bulk_messages (scripted five_replies_after_failure) 0 five_messages
    = Raise (KeyError "critical").
Proof.
  repeat split; vm_compute; reflexivity.
Qed.

(** ** The combined attempt *)

Section Combined.
Context {RT : PyRuntime}.

(** The record built from an element does not depend on what the element
    holds under [message_index]. *)
Lemma build_response_other_keys e e' msg cid aid ts :
  (forall k, k <> "message_index" -> getitem e' k = getitem e k) ->
  build_response e' msg cid aid ts = build_response e msg cid aid ts.
Proof.
  intros H. unfold build_response. rewrite !H by discriminate. reflexivity.
Qed.

Lemma batch_results_spec arr messages : forall i0 rs,
  batch_results (JArr arr) i0 messages = Ok rs ->
  length rs = length messages /\
  forall i m, messages !! i = Some m ->
    exists r, rs !! i = Some r /\
      (forall e, arr !! (i0 + i)%nat = Some e ->
         build_response e (req_message m) (req_customer_id m) (req_agent_id m)
           (req_timestamp m) = Ok r) /\
      ((length arr <= i0 + i)%nat -> r = fallback_for m "Batch processing incomplete").
Proof.
  induction messages as [| m0 rest IH]; intros i0 rs H.
  - injection H as <-. split; [reflexivity |]. intros i m Hm. discriminate Hm.
  - cbn [batch_results] in H. binds. injection H as <-.
    cbn in Hv. injection Hv as <-.
    destruct (IH _ _ Hv1) as (Hlen & Hrest).
    split; [cbn; f_equal; exact Hlen |].
    intros [| i] m Hm.
    + cbn in Hm. injection Hm as <-. exists v0. rewrite Nat.add_0_r.
      split; [reflexivity |]. split.
      * intros e He. pose proof (lookup_lt_Some _ _ _ He) as Hlt.
        apply Nat.ltb_lt in Hlt. rewrite Hlt in Hv0.
        cbn in Hv0. rewrite He in Hv0. exact Hv0.
      * intros Hge. apply Nat.ltb_ge in Hge. rewrite Hge in Hv0.
        injection Hv0 as <-. reflexivity.
    + cbn in Hm. destruct (Hrest i m Hm) as (r & Hr & He & Hf).
      exists r. split; [exact Hr |].
      replace (i0 + S i)%nat with (S i0 + i)%nat by lia. split; assumption.
Qed.

(** The loop of the combined attempt returns as soon as every element that
    it uses builds a record. *)
Lemma batch_results_total arr messages : forall i0,
  (forall i m e, messages !! i = Some m -> arr !! (i0 + i)%nat = Some e ->
     exists r, build_response e (req_message m) (req_customer_id m) (req_agent_id m)
                 (req_timestamp m) = Ok r) ->
  exists rs, batch_results (JArr arr) i0 messages = Ok rs.
Proof.
  induction messages as [| m0 rest IH]; intros i0 Hall; [eexists; reflexivity |].
  destruct (IH (S i0)) as (rs & Hrs).
  { intros i m e Hm He. apply (Hall (S i) m e Hm).
    replace (i0 + S i)%nat with (S i0 + i)%nat by lia. exact He. }
  cbn [batch_results py_len mbind res_bind]. rewrite Hrs.
  destruct (i0 <? length arr)%nat eqn:Hlt.
  - apply Nat.ltb_lt in Hlt. destruct (lookup_lt_is_Some_2 _ _ Hlt) as (e & He).
    destruct (Hall 0%nat m0 e eq_refl) as (r & Hr); [rewrite Nat.add_0_r; exact He |].
    cbn. rewrite He. cbn. rewrite Hr. cbn. eauto.
  - cbn. eauto.
Qed.

End Combined.

(** C5, as it is stated, fails: the reply to the combined prompt for two
    messages is an array of one element, shorter than the batch, and the
    element lacks every key.  The second message, beyond the end of the
    array, gets no fallback record: the element fails to build, the
    combined attempt is given up, and both messages are analysed one by
    one; the result for the second message is the analysis of the reply to
    its own request. *)
Lemma short_array_redone_individually :
  Reference.json_loads (extract "[" "]" empty_element_reply) = Ok (JArr [JObj []]) /\
  (length [JObj []] < length two_messages)%nat /\
  exists b r,
    @analyze_bulk_messages
       (scripted [empty_element_reply; Reference.good_reply; Reference.good_reply])
       0 two_messages = Ok b /\
    results b !! 1%nat = Some r /\
    sentiment r = POSITIVE /\ reasoning r = "happy customer" /\
    forall error, r <> fallback_for (request "m2") error.
Proof.
  split; [vm_compute; reflexivity |]. split; [cbn; lia |].
  eexists. eexists. split; [vm_compute; reflexivity |].
  split; [reflexivity |]. split; [reflexivity |]. split; [reflexivity |].
  intros error H. apply (f_equal sentiment) in H. discriminate H.
Qed.

(** C5, amended: on a reply to the combined prompt that is decoded as an
    array, when the combined attempt completes (the loop over the messages
    returns its results and their summary is computed), the dispatch returns
    these results, one per message; the result at position [i] carries
    message [i] and is the record built from element [i] of the array, the
    same record for every element that differs from it under
    [message_index] only; and past the end of the array the result is the
    fallback record of the message, with the neutral sentiment, a
    confidence of zero, the alert level medium and the error text
    [Batch processing incomplete].  When the combined attempt does not
    complete, the dispatch is the individual one on the whole batch. *)
Theorem combined_results_by_position {RT : PyRuntime} (call : nat)
    (messages : list MessageRequest) (content : string) (arr : list json) :
  llm_invoke call (bulk_prefix ++ messages_batch 1 messages ++ bulk_suffix) = Ok content ->
  json_loads (extract "[" "]" content) = Ok (JArr arr) ->
  (forall rs b, batch_results (JArr arr) 0 messages = Ok rs ->
     _calculate_summary rs = Ok b ->
     analyze_bulk_optimized_body call messages = Ok b) /\
  (forall b, analyze_bulk_optimized_body call messages = Ok b ->
     _analyze_bulk_optimized call messages = Ok b /\
     length (results b) = length messages /\
     forall i m, messages !! i = Some m ->
       exists r, results b !! i = Some r /\ message r = req_message m /\
         (forall e e', arr !! i = Some e ->
            (forall k, k <> "message_index" -> getitem e' k = getitem e k) ->
            build_response e' (req_message m) (req_customer_id m) (req_agent_id m)
              (req_timestamp m) = Ok r) /\
         ((length arr <= i)%nat ->
          r = _create_fallback_response (req_message m) (req_customer_id m)
                (req_agent_id m) (req_timestamp m) "Batch processing incomplete" /\
          sentiment r = NEUTRAL /\ confidence_score r = Fin 0 /\
          alert_level r = "medium" /\
          reasoning r = "Analysis error: Batch processing incomplete")) /\
  (forall e, analyze_bulk_optimized_body call messages = Raise e ->
     _analyze_bulk_optimized call messages = _analyze_bulk_individual (S call) messages).
Proof.
  intros Hllm Hjson. split; [| split].
  - intros rs b Hrs Hb. unfold analyze_bulk_optimized_body.
    rewrite Hllm. cbn [mbind res_bind]. rewrite Hjson. cbn [mbind res_bind].
    rewrite Hrs. exact Hb.
  - intros b Hbody.
    split; [unfold _analyze_bulk_optimized; rewrite Hbody; reflexivity |].
    unfold analyze_bulk_optimized_body in Hbody.
    rewrite Hllm in Hbody. cbn [mbind res_bind] in Hbody.
    rewrite Hjson in Hbody. cbn [mbind res_bind] in Hbody.
    apply bind_ok in Hbody as (rs & Hrs & Hsum).
    apply calculate_summary_results in Hsum. rewrite Hsum.
    destruct (batch_results_spec arr messages 0 rs Hrs) as (Hlen & Hpos).
    split; [exact Hlen |].
    intros i m Hm. destruct (Hpos i m Hm) as (r & Hr & He & Hf).
    exists r. split; [exact Hr |]. cbn in He, Hf.
    split; [| split].
    + destruct (arr !! i) as [e |] eqn:Hi.
      * specialize (He e eq_refl). apply build_response_ok in He. apply He.
      * apply lookup_ge_None in Hi. rewrite (Hf Hi). reflexivity.
    + intros e e' Hi Hsame. rewrite (build_response_other_keys e e' _ _ _ _ Hsame).
      apply He. exact Hi.
    + intros Hge. rewrite (Hf Hge). repeat split.
  - intros e He. exact (combined_failure_retries call messages e He).
Qed.

Lemma combined_results_by_position_witness :
  @llm_invoke (scripted [Reference.short_array_reply]) 0
     (@bulk_prefix (scripted [Reference.short_array_reply])
      ++ @messages_batch (scripted [Reference.short_array_reply]) 1 two_messages
      ++ @bulk_suffix (scripted [Reference.short_array_reply]))
    = Ok Reference.short_array_reply /\
  Reference.json_loads (extract "[" "]" Reference.short_array_reply)
    = Ok (JArr short_array) /\
  length short_array = 1%nat /\
  exists b,
    @_analyze_bulk_optimized (scripted [Reference.short_array_reply]) 0 two_messages
      = Ok b /\
    length (results b) = 2%nat /\
    (exists r, results b !! 0%nat = Some r /\ message r = "m1" /\ sentiment r = POSITIVE) /\
    results b !! 1%nat
      = Some (_create_fallback_response "m2" None None None "Batch processing incomplete").
Proof.
  assert (Hjson : Reference.json_loads (extract "[" "]" Reference.short_array_reply)
                  = Ok (JArr short_array)) by (vm_compute; reflexivity).
  split; [reflexivity |]. split; [exact Hjson |]. split; [reflexivity |].
  destruct (@analyze_bulk_optimized_body (scripted [Reference.short_array_reply]) 0
              two_messages) as [b | e] eqn:Hb;
    [| vm_compute in Hb; discriminate Hb].
  destruct (proj1 (proj2 (combined_results_by_position
              (RT := scripted [Reference.short_array_reply])
              0 two_messages Reference.short_array_reply short_array eq_refl Hjson)) b Hb)
    as (Hopt & Hlen & Hpos).
  exists b. split; [exact Hopt |]. split; [exact Hlen |]. split.
  - destruct (Hpos 0%nat (request "m1") eq_refl) as (r & Hr & Hm & _ & _).
    exists r. split; [exact Hr |]. split; [exact Hm |].
    vm_compute in Hb. injection Hb as <-. cbn in Hr. injection Hr as <-. reflexivity.
  - destruct (Hpos 1%nat (request "m2") eq_refl) as (r & Hr & _ & _ & Hf).
    rewrite Hr. f_equal. apply Hf. vm_compute. lia.
Defined.

(** ** The endpoints and their validation errors *)

(** Whatever the request, the single-message endpoint answers 200 or 500:
    the handler of its [try] turns every exception of the body, the 400 of
    the validation included, into a 500. *)
Lemma analyze_sentiment_status {RT : PyRuntime} (call : nat) (now : string)
    (req : MessageRequest) :
  status (analyze_sentiment call now req) = 200 \/
  status (analyze_sentiment call now req) = 500.
Proof.
  unfold analyze_sentiment.
  match goal with |- context [try_except ?b _] => destruct b as [r |] end; cbn; auto.
  destruct (renders r); auto.
Qed.

Lemma analyze_bulk_sentiment_status {RT : PyRuntime} (call : nat) (now : string)
    (messages : list MessageRequest) :
  status (analyze_bulk_sentiment call now messages) = 200 \/
  status (analyze_bulk_sentiment call now messages) = 500.
Proof.
  unfold analyze_bulk_sentiment.
  match goal with |- context [try_except ?b _] => destruct b as [r |] end; cbn; auto.
  destruct (renders r); auto.
Qed.

Lemma strip_not_blank msg : len (strip msg) <> 0%nat -> is_empty msg = false.
Proof. destruct msg; [intros H; exfalso; apply H; reflexivity | reflexivity]. Qed.

(** A message of at most 2000 characters that is not blank is analysed; the
    answer is 200 when the confidence of the analysis is a finite number
    (the framework cannot write another one). *)
Lemma analyze_sentiment_accepts {RT : PyRuntime} (call : nat) (now : string)
    (req : MessageRequest) :
  (len (req_message req) <= 2000)%nat ->
  len (strip (req_message req)) <> 0%nat ->
  exists r, analyze_sentiment call now req = Ok r /\
    status (analyze_sentiment call now req)
    = if finite (confidence_score r) then 200 else 500.
Proof.
  intros Hlen Hstrip. unfold analyze_sentiment.
  rewrite (strip_not_blank _ Hstrip).
  assert (H1 : (len (strip (req_message req)) =? 0)%nat = false)
    by (apply Nat.eqb_neq; exact Hstrip).
  assert (H2 : (2000 <? len (req_message req))%nat = false)
    by (apply Nat.ltb_ge; exact Hlen).
  rewrite H1, H2. cbn [orb mbind res_bind].
  match goal with |- context [analyze_message ?c ?m ?a ?b ?t] =>
    destruct (analyze_message_total c m a b t) as (r & ->) end.
  exists r. split; reflexivity.
Qed.

(** A message of exactly 2000 characters is answered 200, and so is a batch
    of exactly 15 messages, the analyses being well formed. *)
Lemma message_of_2000_accepted :
  status (@analyze_sentiment (always Reference.good_reply) 0 "2024-01-01T00:00:00"
            (request (replicate_char 2000 "x"))) = 200.
Proof. vm_compute. reflexivity. Qed.

Lemma fifteen_messages_accepted :
  status (@analyze_bulk_sentiment (always Reference.good_reply) 0 "2024-01-01T00:00:00"
            (replicate 15 (request "hello"))) = 200.
Proof. vm_compute. reflexivity. Qed.

(** C1, evaluated on the code: an empty message, a message of 2001
    characters, an empty list of messages and a list of 16 messages are all
    answered with status 500, the detail being the text of the 400 error
    that the validation raised inside the [try]. *)
Theorem validation_errors_answered_500 {RT : PyRuntime} (call : nat) (now : string) :
  analyze_sentiment call now (request "")
    = Raise (HTTPException 500
        ("Sentiment analysis failed: " ++
         exn_str (HTTPException 400 "Message cannot be empty"))) /\
  status (analyze_sentiment call now (request "   ")) = 500 /\
  status (analyze_sentiment call now (request (replicate_char 2001 "x"))) = 500 /\
  status (analyze_bulk_sentiment call now []) = 500 /\
  status (analyze_bulk_sentiment call now (replicate 16 (request "hello"))) = 500.
Proof.
  repeat split; vm_compute; reflexivity.
Qed.

(** * Further properties of the analyzer and its endpoints *)

(** ** The single-message path *)

Section SinglePath.
Context {RT : PyRuntime}.

(** Whatever [analyze_message] returns carries the message and the
    correlation fields it was called with. *)
Lemma analyze_message_fields call msg cid aid ts r :
  analyze_message call msg cid aid ts = Ok r ->
  message r = msg /\ customer_id r = cid /\ agent_id r = aid /\ timestamp r = ts.
Proof.
  unfold analyze_message.
  destruct (analyze_message_body call msg cid aid ts) as [r' | e] eqn:Hb; cbn.
  - intros [= <-]. unfold analyze_message_body in Hb. binds.
    apply build_response_ok in Hb. tauto.
  - intros [= <-]. cbn. auto.
Qed.

Lemma analyze_message_returns call msg cid aid ts :
  exists r, analyze_message call msg cid aid ts = Ok r /\
    message r = msg /\ customer_id r = cid /\ agent_id r = aid /\ timestamp r = ts.
Proof.
  destruct (analyze_message_total call msg cid aid ts) as (r & Hr).
  exists r. split; [exact Hr | exact (analyze_message_fields _ _ _ _ _ _ Hr)].
Qed.

Lemma analyze_message_client_failure call msg cid aid ts e :
  llm_invoke call (single_prefix ++ msg ++ single_suffix) = Raise e ->
  analyze_message call msg cid aid ts
  = Ok (_create_fallback_response msg cid aid ts ("Analysis error: " ++ exn_str e)).
Proof.
  intros H. unfold analyze_message, analyze_message_body. rewrite H. reflexivity.
Qed.

End SinglePath.

(** The single-message analysis never raises: for every completion service,
    decoder and reply it returns a record, and the record carries the
    message, the customer, the agent and the timestamp of the call. *)
Theorem analyze_message_always_answers {RT : PyRuntime} (call : nat) (msg : string)
    (cid aid ts : option string) :
  exists r, analyze_message call msg cid aid ts = Ok r /\
    message r = msg /\ customer_id r = cid /\ agent_id r = aid /\ timestamp r = ts.
Proof. apply analyze_message_returns. Qed.

(** When the request to the completion service raises, the analysis is the
    fallback record, and its reasoning carries the prefix twice: once from
    the handler of [analyze_message], once from the constructor. *)
Theorem client_failure_gives_fallback {RT : PyRuntime} (call : nat) (msg : string)
    (cid aid ts : option string) (e : exn) :
  llm_invoke call (single_prefix ++ msg ++ single_suffix) = Raise e ->
  exists r, analyze_message call msg cid aid ts = Ok r /\
    r = _create_fallback_response msg cid aid ts ("Analysis error: " ++ exn_str e) /\
    reasoning r = "Analysis error: Analysis error: " ++ exn_str e /\
    sentiment r = NEUTRAL /\ alert_level r = "medium".
Proof.
  intros H. eexists. split.
  - unfold analyze_message, analyze_message_body. rewrite H. reflexivity.
  - repeat split.
Qed.

Lemma client_failure_gives_fallback_witness :
  @llm_invoke offline 0
     (@single_prefix offline ++ "hi" ++ @single_suffix offline)
    = Raise (ClientError "service unavailable") /\
  exists r, @analyze_message offline 0 "hi" None None None = Ok r /\
    reasoning r = "Analysis error: Analysis error: service unavailable".
Proof.
  split; [reflexivity |].
  destruct (client_failure_gives_fallback (RT := offline) 0 "hi" None None None
              (ClientError "service unavailable") eq_refl)
    as (r & Hr & _ & Hreason & _).
  exists r. split; [exact Hr | exact Hreason].
Defined.

(** A confidence that the reply gives as an integer beyond the floats is
    not converted: [float] raises an overflow error, and the analysis is the
    fallback record. *)
Theorem confidence_beyond_floats_gives_fallback {RT : PyRuntime} (call : nat)
    (msg : string) (cid aid ts : option string) (content : string) (parsed : json)
    (n : Z) :
  llm_invoke call (single_prefix ++ msg ++ single_suffix) = Ok content ->
  json_loads (extract "{" "}" content) = Ok parsed ->
  getitem parsed "confidence_score" = Ok (JInt n) ->
  finite (to_double (inject_Z n)) = false ->
  py_float (JInt n) = Raise (OverflowError "int too large to convert to float") /\
  exists e, analyze_message call msg cid aid ts
            = Ok (_create_fallback_response msg cid aid ts
                    ("Analysis error: " ++ exn_str e)).
Proof.
  intros Hllm Hjson Hconf Hbig.
  assert (Hraise : py_float (JInt n) = Raise (OverflowError "int too large to convert to float")).
  { cbn [py_float]. unfold float_of_int.
    destruct (to_double (inject_Z n)); [discriminate Hbig | reflexivity ..]. }
  split; [exact Hraise |].
  assert (Hfail : numeric_conversion_fails parsed).
  { left. exists (JInt n), (OverflowError "int too large to convert to float"). split; assumption. }
  destruct (numeric_failure_raises parsed msg cid aid ts Hfail) as (e & He).
  exists e. rewrite (analyze_message_decoded _ _ _ _ _ _ _ Hllm Hjson), He. reflexivity.
Qed.

Lemma confidence_beyond_floats_gives_fallback_witness :
  let RT := always huge_confidence_reply in
  llm_invoke 0 (single_prefix ++ "hi" ++ single_suffix) = Ok huge_confidence_reply /\
  getitem (decoded "{" "}" huge_confidence_reply) "confidence_score" = Ok (JInt (10 ^ 400)) /\
  finite (to_double (inject_Z (10 ^ 400))) = false /\
  (py_float (JInt (10 ^ 400)) = Raise (OverflowError "int too large to convert to float") /\
   exists e, analyze_message 0 "hi" None None None
             = Ok (_create_fallback_response "hi" None None None
                     ("Analysis error: " ++ exn_str e))) /\
  analyze_message 0 "hi" None None None
  = Ok (_create_fallback_response "hi" None None None
          "Analysis error: int too large to convert to float").
Proof.
  intros RT.
  assert (Hjson : json_loads (extract "{" "}" huge_confidence_reply)
                  = Ok (decoded "{" "}" huge_confidence_reply)) by (vm_compute; reflexivity).
  assert (Hconf : getitem (decoded "{" "}" huge_confidence_reply) "confidence_score"
                  = Ok (JInt (10 ^ 400))) by (vm_compute; reflexivity).
  assert (Hbig : finite (to_double (inject_Z (10 ^ 400))) = false) by (vm_compute; reflexivity).
  split; [reflexivity |]. split; [exact Hconf |]. split; [exact Hbig |].
  split; [| vm_compute; reflexivity].
  exact (confidence_beyond_floats_gives_fallback 0 "hi" None None None
           huge_confidence_reply (decoded "{" "}" huge_confidence_reply) (10 ^ 400)
           eq_refl Hjson Hconf Hbig).
Defined.

(** ** The single-message endpoint *)

(** The endpoint answers 500 when the message is blank or longer than 2000
    characters (the 400 of the validation, turned into a 500 by the handler
    around it); otherwise the message is analysed, and the answer is 200
    when the confidence of the analysis is a finite number and 500 when it
    is NaN or an infinity, which the framework does not write.  With the
    completion service down the analysis is the fallback record, and the
    answer is 200. *)
Theorem analyze_sentiment_status_decided {RT : PyRuntime} (call : nat) (now : string)
    (req : MessageRequest) :
  let rejected :=
    ((len (strip (req_message req)) =? 0) || (2000 <? len (req_message req)))%nat in
  status (analyze_sentiment call now req) =
    (if rejected then 500
     else match analyze_message call (req_message req) (req_customer_id req)
                  (req_agent_id req)
                  match req_timestamp req with
                  | Some (String c r) => Some (String c r)
                  | _ => Some now
                  end with
          | Ok r => if finite (confidence_score r) then 200 else 500
          | Raise _ => 500
          end) /\
  (forall e,
     llm_invoke call (single_prefix ++ req_message req ++ single_suffix) = Raise e ->
     status (analyze_sentiment call now req) = if rejected then 500 else 200).
Proof.
  intros rejected. subst rejected. unfold analyze_sentiment.
  destruct (is_empty (req_message req)) eqn:H0.
  - destruct (req_message req); [| discriminate H0]. split; [reflexivity |].
    intros e _. reflexivity.
  - cbn [orb].
    destruct (len (strip (req_message req)) =? 0)%nat;
      [split; [reflexivity | intros e _; reflexivity] |].
    destruct (2000 <? len (req_message req))%nat;
      [split; [reflexivity | intros e _; reflexivity] |].
    cbn [orb mbind res_bind]. split.
    + match goal with |- context [analyze_message ?c ?m ?a ?b ?t] =>
        destruct (analyze_message_total c m a b t) as (r & ->) end.
      reflexivity.
    + intros e He. rewrite (analyze_message_client_failure _ _ _ _ _ e He). reflexivity.
Qed.

Lemma analyze_sentiment_status_decided_witness :
  @llm_invoke offline 0 (@single_prefix offline ++ "hello" ++ @single_suffix offline)
    = Raise (ClientError "service unavailable") /\
  status (@analyze_sentiment offline 0 "2024-01-01T00:00:00" (request "hello")) = 200 /\
  status (@analyze_sentiment offline 0 "2024-01-01T00:00:00" (request no_break_spaces))
    = 500 /\
  status (@analyze_sentiment offline 0 "2024-01-01T00:00:00" (request rupee_message))
    = 200 /\
  status (@analyze_sentiment (always nan_reply) 0 "2024-01-01T00:00:00" (request "hello"))
    = 500.
Proof.
  split; [reflexivity |]. split.
  - exact (proj2 (analyze_sentiment_status_decided (RT := offline) 0 "2024-01-01T00:00:00"
                    (request "hello")) (ClientError "service unavailable") eq_refl).
  - repeat split; vm_compute; reflexivity.
Defined.

(** An accepted request is answered with a record that carries its message
    and identifiers; its timestamp is the one of the request when that one is
    not empty, and the current time otherwise. *)
Theorem analyze_sentiment_response {RT : PyRuntime} (call : nat) (now : string)
    (req : MessageRequest) :
  (len (req_message req) <= 2000)%nat ->
  len (strip (req_message req)) <> 0%nat ->
  exists r, analyze_sentiment call now req = Ok r /\
    message r = req_message req /\
    customer_id r = req_customer_id req /\ agent_id r = req_agent_id req /\
    timestamp r = match req_timestamp req with
                  | Some (String c t) => Some (String c t)
                  | _ => Some now
                  end.
Proof.
  intros Hlen Hstrip. unfold analyze_sentiment.
  rewrite (strip_not_blank _ Hstrip).
  assert (H1 : (len (strip (req_message req)) =? 0)%nat = false)
    by (apply Nat.eqb_neq; exact Hstrip).
  assert (H2 : (2000 <? len (req_message req))%nat = false)
    by (apply Nat.ltb_ge; exact Hlen).
  rewrite H1, H2. cbn [orb mbind res_bind].
  match goal with |- context [analyze_message ?c ?m ?a ?b ?t] =>
    destruct (analyze_message_returns c m a b t) as (r & Hr & Hf) end.
  rewrite Hr. exists r. split; [reflexivity | exact Hf].
Qed.

Lemma analyze_sentiment_response_witness :
  (len (req_message (request rupee_message)) <= 2000)%nat /\
  len (strip (req_message (request rupee_message))) <> 0%nat /\
  String.length rupee_message = 2100%nat /\
  exists r, @analyze_sentiment offline 0 "2024-01-01T00:00:00" (request rupee_message) = Ok r /\
    message r = rupee_message /\ timestamp r = Some "2024-01-01T00:00:00".
Proof.
  assert (Hlen : (len (req_message (request rupee_message)) <= 2000)%nat)
    by (apply Nat.leb_le; vm_compute; reflexivity).
  assert (Hstrip : len (strip (req_message (request rupee_message))) <> 0%nat)
    by (vm_compute; discriminate).
  split; [exact Hlen |]. split; [exact Hstrip |]. split; [vm_compute; reflexivity |].
  destruct (analyze_sentiment_response (RT := offline) 0 "2024-01-01T00:00:00"
              (request rupee_message) Hlen Hstrip) as (r & Hr & Hm & _ & _ & Ht).
  exists r. split; [exact Hr |]. split; [exact Hm | exact Ht].
Defined.

(** ** The health check *)

(** The health check reports the status healthy whatever the completion
    service does, because [analyze_message] swallows every failure; when the
    request raises, the reported test sentiment is neutral, the one of the
    fallback record. *)
Theorem health_check_always_healthy {RT : PyRuntime} (call : nat) (now : string) :
  exists d, health_check call now = Ok d /\
    getitem d "status" = Ok (JStr "healthy") /\
    getitem d "groq_connection" = Ok (JStr "working") /\
    (forall e,
       llm_invoke call (single_prefix ++ "Hello, this is a test message for health check"
                        ++ single_suffix) = Raise e ->
       getitem d "test_sentiment" = Ok (JStr "neutral")).
Proof.
  unfold health_check.
  destruct (analyze_message call "Hello, this is a test message for health check"
              None None None) as [r | e'] eqn:Hr.
  - eexists. split; [reflexivity |]. split; [reflexivity |]. split; [reflexivity |].
    intros e He.
    rewrite (analyze_message_client_failure call _ None None None e He) in Hr. injection Hr as <-. reflexivity.
  - destruct (analyze_message_total call "Hello, this is a test message for health check"
                None None None) as (r & Hr'). congruence.
Qed.

Lemma health_check_always_healthy_witness :
  exists d, @health_check offline 0 "2024-01-01T00:00:00" = Ok d /\
    getitem d "status" = Ok (JStr "healthy") /\
    getitem d "test_sentiment" = Ok (JStr "neutral").
Proof.
  destruct (health_check_always_healthy (RT := offline) 0 "2024-01-01T00:00:00")
    as (d & Hd & Hs & _ & Ht).
  exists d. split; [exact Hd |]. split; [exact Hs |].
  exact (Ht (ClientError "service unavailable") eq_refl).
Defined.

(** ** The chat endpoint *)

Section Cleaning.

Lemma append_cons c s t : String c s ++ t = String c (s ++ t).
Proof. reflexivity. Qed.

Lemma append_empty t : "" ++ t = t.
Proof. reflexivity. Qed.

Lemma length_append s t :
  String.length (s ++ t) = (String.length s + String.length t)%nat.
Proof.
  induction s as [| c s IH]; [reflexivity |].
  rewrite append_cons. cbn [String.length Nat.add]. f_equal. exact IH.
Qed.

Lemma len_append s t : len (s ++ t) = (len s + len t)%nat.
Proof.
  induction s as [| c s IH]; [reflexivity |].
  rewrite append_cons. cbn [len]. rewrite IH. destruct (is_continuation c); reflexivity.
Qed.

(** A slice of [n] characters has at most [n] of them, and exactly [n] when
    the text has as many. *)
Lemma len_take s : forall n, (len (take n s) <= n)%nat.
Proof.
  induction s as [| c s IH]; intros n; [cbn; lia |].
  cbn [take]. destruct (is_continuation c) eqn:Hc.
  - cbn [len]. rewrite Hc. apply IH.
  - destruct n as [| n]; [cbn; lia |]. cbn [len]. rewrite Hc. specialize (IH n). lia.
Qed.

Lemma len_take_exact s : forall n, (n <= len s)%nat -> len (take n s) = n.
Proof.
  induction s as [| c s IH]; intros n H; [cbn in *; lia |].
  cbn [take]. cbn [len] in H. destruct (is_continuation c) eqn:Hc.
  - cbn [len]. rewrite Hc. apply IH. exact H.
  - destruct n as [| n]; [reflexivity |]. cbn [len]. rewrite Hc, IH by lia. reflexivity.
Qed.

Lemma has_char_take c s : forall n, has_char c s = false -> has_char c (take n s) = false.
Proof.
  induction s as [| a s IH]; intros n H; [reflexivity |].
  cbn [has_char] in H. apply orb_false_elim in H as [Ha Hs]. cbn [take].
  destruct (is_continuation a).
  - cbn [has_char]. rewrite Ha, (IH n Hs). reflexivity.
  - destruct n as [| n]; [reflexivity |]. cbn [has_char]. rewrite Ha, (IH n Hs). reflexivity.
Qed.

Lemma has_char_append c s t :
  has_char c (s ++ t) = has_char c s || has_char c t.
Proof.
  induction s as [| a s IH]; [reflexivity |].
  rewrite append_cons. cbn [has_char]. rewrite IH. apply orb_assoc.
Qed.

(** Replacing one character by another keeps the length, removes the
    character, and brings in no third one. *)
Lemma replace_char_fuel c d s : forall fuel, (String.length s < fuel)%nat ->
  let t := replace_fuel fuel (String c EmptyString) (String d EmptyString) s in
  String.length t = String.length s /\
  (c <> d -> has_char c t = false) /\
  (forall e, e <> d -> has_char e s = false -> has_char e t = false).
Proof.
  induction s as [| a s IH]; intros fuel Hf.
  - destruct fuel; cbn; auto.
  - destruct fuel as [| fuel]; [cbn in Hf; lia |].
    cbn in Hf. destruct (IH fuel ltac:(lia)) as (Hlen & Hgone & Hother).
    cbn [replace_fuel starts_with String.length drop].
    destruct (Ascii.eqb_spec c a) as [<- | Hne].
    + rewrite append_cons, append_empty. cbn [String.length has_char].
      split; [f_equal; exact Hlen |]. split.
      * intros Hcd. rewrite (Hgone Hcd).
        destruct (Ascii.eqb_spec c d); [contradiction | reflexivity].
      * intros e Hed He. cbn in He. apply orb_false_elim in He as [_ He].
        rewrite (Hother e Hed He).
        destruct (Ascii.eqb_spec e d); [contradiction | reflexivity].
    + cbn [String.length has_char]. split; [f_equal; exact Hlen |]. split.
      * intros Hcd. rewrite (Hgone Hcd).
        destruct (Ascii.eqb_spec c a); [contradiction | reflexivity].
      * intros e Hed He. cbn in He. apply orb_false_elim in He as [Ha He].
        rewrite Ha, (Hother e Hed He). reflexivity.
Qed.

Lemma replace_char c d s :
  let t := replace (String c EmptyString) (String d EmptyString) s in
  String.length t = String.length s /\
  (c <> d -> has_char c t = false) /\
  (forall e, e <> d -> has_char e s = false -> has_char e t = false).
Proof. apply replace_char_fuel. lia. Qed.

Lemma is_empty_length s : is_empty s = (String.length s =? 0)%nat.
Proof. destruct s; reflexivity. Qed.

(** The cleaned message is empty exactly when the message is blank. *)
Lemma cleaned_message_empty msg :
  is_empty (cleaned_message msg) = is_empty (strip msg).
Proof.
  unfold cleaned_message.
  destruct (replace_char (ascii_of_nat 13) " " (replace newline " " (strip msg)))
    as (L2 & _ & _).
  destruct (replace_char (ascii_of_nat 10) " " (strip msg)) as (L1 & _ & _).
  fold newline in L1.
  destruct (2000 <? _)%nat eqn:Hlong.
  - apply Nat.ltb_lt in Hlong. rewrite !is_empty_length, length_append, <- L1, <- L2.
    destruct (replace _ _ (replace _ _ _)); [cbn in Hlong; lia |].
    cbn [String.length]. rewrite Nat.add_comm. reflexivity.
  - rewrite !is_empty_length, L2, L1. reflexivity.
Qed.

Lemma json_finite_strings l : forallb json_finite (map JStr l) = true.
Proof. induction l as [| x l IH]; [reflexivity | exact IH]. Qed.

Lemma json_finite_opt o : json_finite (opt_json o) = true.
Proof. destruct o; reflexivity. Qed.

End Cleaning.

(** The message that the chat endpoint hands to the analyzer has at most
    2003 characters and holds neither a line feed nor a carriage return. *)
Theorem cleaned_message_shape (msg : string) :
  (len (cleaned_message msg) <= 2003)%nat /\
  has_char (ascii_of_nat 10) (cleaned_message msg) = false /\
  has_char (ascii_of_nat 13) (cleaned_message msg) = false.
Proof.
  unfold cleaned_message.
  destruct (replace_char (ascii_of_nat 10) " " (strip msg)) as (_ & G1 & _).
  fold newline in G1.
  destruct (replace_char (ascii_of_nat 13) " " (replace newline " " (strip msg)))
    as (_ & G2 & O2).
  specialize (G1 ltac:(discriminate)). specialize (G2 ltac:(discriminate)).
  specialize (O2 (ascii_of_nat 10) ltac:(discriminate) G1).
  destruct (2000 <? _)%nat eqn:Hlong.
  - split.
    + rewrite len_append. pose proof (len_take
        (replace (String (ascii_of_nat 13) EmptyString) " " (replace newline " " (strip msg)))
        2000).
      change (len "...") with 3%nat. lia.
    + rewrite !has_char_append, (has_char_take _ _ _ O2), (has_char_take _ _ _ G2).
      split; reflexivity.
  - apply Nat.ltb_ge in Hlong. split; [lia |]. split; assumption.
Qed.

(** The chat endpoint answers 500 when the message is blank (the 400 of its
    validation is turned into a 500 by its own handler); otherwise the
    cleaned message is analysed, however long the message is, and the
    answer is 200 when the confidence of the analysis is a finite number
    and 500 when it is NaN or an infinity, which the framework does not
    write.  With the completion service down the answer is 200. *)
Theorem aisensy_chat_analysis_status {RT : PyRuntime} (call : nat) (now stamp : string)
    (req : MessageRequest) :
  status (aisensy_chat_analysis call now stamp req) =
    (if is_empty (strip (req_message req)) then 500
     else match analyze_message call (cleaned_message (req_message req))
                  (req_customer_id req) (req_agent_id req) (req_timestamp req) with
          | Ok r => if finite (confidence_score r) then 200 else 500
          | Raise _ => 500
          end) /\
  (forall e,
     llm_invoke call (single_prefix ++ cleaned_message (req_message req) ++ single_suffix)
       = Raise e ->
     status (aisensy_chat_analysis call now stamp req)
     = if is_empty (strip (req_message req)) then 500 else 200).
Proof.
  assert (Hbody :
    status (aisensy_chat_analysis call now stamp req) =
      if is_empty (strip (req_message req)) then 500
      else match analyze_message call (cleaned_message (req_message req))
                   (req_customer_id req) (req_agent_id req) (req_timestamp req) with
           | Ok r => if finite (confidence_score r) then 200 else 500
           | Raise _ => 500
           end).
  { unfold aisensy_chat_analysis. rewrite cleaned_message_empty.
    destruct (is_empty (strip (req_message req))); [reflexivity |].
    cbn [mbind res_bind].
    match goal with |- context [analyze_message ?c ?m ?a ?b ?t] =>
      destruct (analyze_message_total c m a b t) as (r & ->) end.
    cbn [mbind res_bind try_except]. unfold status, renders, json_body.
    cbn [json_finite forallb snd]. rewrite json_finite_strings, !json_finite_opt.
    destruct (finite (confidence_score r)); reflexivity. }
  split; [exact Hbody |].
  intros e He. rewrite Hbody.
  destruct (is_empty (strip (req_message req))); [reflexivity |].
  rewrite (analyze_message_client_failure _ _ _ _ _ e He). reflexivity.
Qed.

Lemma aisensy_chat_analysis_status_witness :
  @llm_invoke offline 0
     (@single_prefix offline ++ cleaned_message "hello" ++ @single_suffix offline)
    = Raise (ClientError "service unavailable") /\
  status (@aisensy_chat_analysis offline 0 "2024-01-01T00:00:00" "1704067200.0"
            (request "hello")) = 200 /\
  status (@aisensy_chat_analysis offline 0 "2024-01-01T00:00:00" "1704067200.0"
            (request no_break_spaces)) = 500.
Proof.
  split; [reflexivity |]. split.
  - exact (proj2 (aisensy_chat_analysis_status (RT := offline) 0 "2024-01-01T00:00:00"
                    "1704067200.0" (request "hello"))
             (ClientError "service unavailable") eq_refl).
  - vm_compute. reflexivity.
Defined.

(** When the request to the completion service raises, the chat endpoint
    still answers with a body: the sentiment is neutral, the alert level is
    medium, and the alert for a human agent is required. *)
Theorem aisensy_chat_analysis_on_failure {RT : PyRuntime} (call : nat) (now stamp : string)
    (req : MessageRequest) (e : exn) :
  strip (req_message req) <> "" ->
  llm_invoke call (single_prefix ++ cleaned_message (req_message req) ++ single_suffix)
    = Raise e ->
  exists d, aisensy_chat_analysis call now stamp req = Ok d /\
    getitem d "sentiment" = Ok (JStr "neutral") /\
    getitem d "alert_level" = Ok (JStr "medium") /\
    getitem d "alert_required" = Ok (JBool true) /\
    getpath d ["whatsapp_optimization"; "recommended_category"] = Ok (JStr "service").
Proof.
  intros Hstrip Hllm. unfold aisensy_chat_analysis. rewrite cleaned_message_empty.
  assert (H1 : is_empty (strip (req_message req)) = false).
  { destruct (strip (req_message req)); [congruence | reflexivity]. }
  rewrite H1. cbn [mbind res_bind].
  rewrite (analyze_message_client_failure call _ _ _ _ e Hllm).
  eexists. split; [reflexivity |]. repeat split.
Qed.

Lemma aisensy_chat_analysis_on_failure_witness :
  strip (req_message (request "hello")) <> "" /\
  exists d, @aisensy_chat_analysis offline 0 "2024-01-01T00:00:00" "1704067200.0"
              (request "hello") = Ok d /\
    getitem d "alert_required" = Ok (JBool true).
Proof.
  assert (Hstrip : strip (req_message (request "hello")) <> "") by discriminate.
  split; [exact Hstrip |].
  destruct (aisensy_chat_analysis_on_failure (RT := offline) 0 "2024-01-01T00:00:00"
              "1704067200.0" (request "hello") (ClientError "service unavailable")
              Hstrip eq_refl) as (d & Hd & _ & _ & Ha & _).
  exists d. split; [exact Hd | exact Ha].
Defined.

(** ** The figures of the summary *)

Section Figures.
Context {RT : PyRuntime}.

(** A result whose cost text does not convert adds nothing to the savings. *)
Lemma savings_filter l : forall start,
  savings start l = savings start (filter (fun r => cost_converts r = true) l).
Proof.
  induction l as [| r l IH]; intros start; [reflexivity |].
  rewrite filter_cons. destruct (cost_converts r) eqn:Hc.
  - rewrite decide_True by reflexivity. cbn [savings]. apply IH.
  - rewrite decide_False by discriminate. cbn [savings].
    unfold cost_converts in Hc.
    destruct (float_of_str _); [discriminate Hc | apply IH].
Qed.

Lemma savings_none l : forall start,
  Forall (fun r => cost_converts r = false) l -> savings start l = start.
Proof.
  induction l as [| r l IH]; intros start H; [reflexivity |].
  apply Forall_cons in H as [Hr Hl]. unfold cost_converts in Hr. cbn [savings].
  destruct (float_of_str _); [discriminate Hr | apply IH; exact Hl].
Qed.

Lemma sum_of_bounds f lo hi l :
  Forall (fun r => lo <= f r <= hi) l ->
  lo * Z.of_nat (length l) <= sum_of f l <= hi * Z.of_nat (length l).
Proof.
  induction 1 as [| r l Hr _ IH]; cbn [sum_of length]; lia.
Qed.

End Figures.

(** The business figures of the summary are the rounded means and shares of
    the sums over the list, computed in floats: the mean churn probability
    and the mean purchase intent to one decimal, the number of results of
    the tiers high_value and vip and its percentage to one decimal, and the
    number of results of alert level high.  The list is not empty, its alert
    levels are low, medium or high, and its two means are in the range of
    the floats. *)
Theorem summary_business_figures {RT : PyRuntime} (l : list SentimentResponse) :
  l <> [] -> forallb valid_alert l = true ->
  in_float_range (sum_of churn_probability l) (Z.of_nat (length l)) ->
  in_float_range (sum_of purchase_intent l) (Z.of_nat (length l)) ->
  let n := Z.of_nat (length l) in
  exists s, _calculate_summary l = Ok {| results := l; summary := s |} /\
    getpath s ["business_intelligence"; "average_churn_risk"] =
      Ok (JFloat (py_round (to_double (inject_Z (sum_of churn_probability l) / inject_Z n)) 1)) /\
    getpath s ["business_intelligence"; "average_purchase_intent"] =
      Ok (JFloat (py_round (to_double (inject_Z (sum_of purchase_intent l) / inject_Z n)) 1)) /\
    getpath s ["business_intelligence"; "high_value_customers"] =
      Ok (JInt (count_where is_high_value l)) /\
    getpath s ["business_intelligence"; "high_value_percentage"] =
      Ok (JFloat (py_round
            (pf_mul (to_double (inject_Z (count_where is_high_value l) / inject_Z n))
               (Fin 100)) 1)) /\
    getpath s ["high_priority_count"] = Ok (JInt (count_where (has_alert "high") l)).
Proof.
  intros Hne Hv Hchurn Hintent n. exists (summary_of l).
  split; [exact (calculate_summary_valid l Hne Hv Hchurn Hintent) |].
  repeat split.
Qed.

Lemma summary_business_figures_witness :
  mixed_results <> [] /\ forallb valid_alert mixed_results = true /\
  in_float_range (sum_of churn_probability mixed_results) 3 /\
  in_float_range (sum_of purchase_intent mixed_results) 3 /\
  exists s, @_calculate_summary offline mixed_results
            = Ok {| results := mixed_results; summary := s |} /\
    sum_of churn_probability mixed_results = 145 /\
    getpath s ["business_intelligence"; "average_churn_risk"]
      = Ok (JFloat (to_double (483 # 10))) /\
    getpath s ["business_intelligence"; "high_value_customers"] = Ok (JInt 0).
Proof.
  assert (Hne : mixed_results <> []) by discriminate.
  assert (Hv : forallb valid_alert mixed_results = true) by reflexivity.
  assert (Hc : in_float_range (sum_of churn_probability mixed_results) 3)
    by (vm_compute; reflexivity).
  assert (Hi : in_float_range (sum_of purchase_intent mixed_results) 3)
    by (vm_compute; reflexivity).
  split; [exact Hne |]. split; [exact Hv |]. split; [exact Hc |]. split; [exact Hi |].
  destruct (summary_business_figures (RT := offline) mixed_results Hne Hv Hc Hi)
    as (s & Hs & Hchurn & _ & Hh & _).
  exists s. split; [exact Hs |]. split; [reflexivity |].
  split; [rewrite Hchurn; vm_compute; reflexivity | exact Hh].
Defined.

(** The percentages of the summary lie between 0 and 100 whatever the
    results are, and so do the mean churn probability and the mean purchase
    intent when the values of the results do.  The list is not empty, its
    alert levels are low, medium or high, and its two means are in the range
    of the floats. *)
Theorem summary_figures_in_range {RT : PyRuntime} (l : list SentimentResponse) :
  l <> [] -> forallb valid_alert l = true ->
  in_float_range (sum_of churn_probability l) (Z.of_nat (length l)) ->
  in_float_range (sum_of purchase_intent l) (Z.of_nat (length l)) ->
  exists s p g u h,
    _calculate_summary l = Ok {| results := l; summary := s |} /\
    getpath s ["sentiment_distribution"] =
      Ok (JObj [("positive_percentage", JFloat (Fin p));
                ("negative_percentage", JFloat (Fin g));
                ("neutral_percentage", JFloat (Fin u))]) /\
    getpath s ["business_intelligence"; "high_value_percentage"] = Ok (JFloat (Fin h)) /\
    (0 <= p /\ p <= 100 /\ 0 <= g /\ g <= 100 /\ 0 <= u /\ u <= 100 /\ 0 <= h /\ h <= 100)%Q /\
    (Forall (fun r => 0 <= churn_probability r <= 100) l ->
     exists c, getpath s ["business_intelligence"; "average_churn_risk"]
               = Ok (JFloat (Fin c)) /\ (0 <= c /\ c <= 100)%Q) /\
    (Forall (fun r => 0 <= purchase_intent r <= 100) l ->
     exists i, getpath s ["business_intelligence"; "average_purchase_intent"]
               = Ok (JFloat (Fin i)) /\ (0 <= i /\ i <= 100)%Q).
Proof.
  intros Hne Hv Hchurn Hintent.
  pose proof (calculate_summary_valid l Hne Hv Hchurn Hintent) as Hs.
  pose proof (length_pos l Hne) as Hn.
  destruct (share_between _ _ 2 Hn (count_where_bounds (has_sentiment POSITIVE) l))
    as (_ & p & Hp & P1 & P2).
  destruct (share_between _ _ 2 Hn (count_where_bounds (has_sentiment NEGATIVE) l))
    as (_ & g & Hg & G1 & G2).
  destruct (share_between _ _ 2 Hn (count_where_bounds (has_sentiment NEUTRAL) l))
    as (_ & u & Hu & U1 & U2).
  destruct (share_between _ _ 1 Hn (count_where_bounds is_high_value l))
    as (_ & h & Hh & H1 & H2).
  exists (summary_of l), p, g, u, h. split; [exact Hs |].
  cbn [summary_of getpath getitem assoc String.eqb Ascii.eqb Bool.eqb mbind res_bind].
  rewrite Hp, Hg, Hu, Hh. split; [reflexivity |]. split; [reflexivity |].
  split; [tauto |]. split.
  - intros Hall. pose proof (sum_of_bounds churn_probability 0 100 l Hall) as [Hlo Hhi].
    destruct (mean_between _ _ 1 0 100 Hn ltac:(lia) ltac:(lia) Hlo Hhi)
      as (_ & c & Hc & C1 & C2).
    exists c. rewrite Hc. split; [reflexivity | split; assumption].
  - intros Hall. pose proof (sum_of_bounds purchase_intent 0 100 l Hall) as [Hlo Hhi].
    destruct (mean_between _ _ 1 0 100 Hn ltac:(lia) ltac:(lia) Hlo Hhi)
      as (_ & i & Hi & I1 & I2).
    exists i. rewrite Hi. split; [reflexivity | split; assumption].
Qed.

Lemma summary_figures_in_range_witness :
  mixed_results <> [] /\ forallb valid_alert mixed_results = true /\
  in_float_range (sum_of churn_probability mixed_results) 3 /\
  in_float_range (sum_of purchase_intent mixed_results) 3 /\
  Forall (fun r => 0 <= churn_probability r <= 100) mixed_results /\
  exists s c, @_calculate_summary offline mixed_results
            = Ok {| results := mixed_results; summary := s |} /\
    getpath s ["business_intelligence"; "average_churn_risk"] = Ok (JFloat (Fin c)) /\
    (0 <= c /\ c <= 100)%Q.
Proof.
  assert (Hne : mixed_results <> []) by discriminate.
  assert (Hv : forallb valid_alert mixed_results = true) by reflexivity.
  assert (Hc : in_float_range (sum_of churn_probability mixed_results) 3)
    by (vm_compute; reflexivity).
  assert (Hi : in_float_range (sum_of purchase_intent mixed_results) 3)
    by (vm_compute; reflexivity).
  assert (Hall : Forall (fun r => 0 <= churn_probability r <= 100) mixed_results).
  { repeat (apply Forall_cons; split; [cbn; lia |]). apply Forall_nil. exact I. }
  split; [exact Hne |]. split; [exact Hv |]. split; [exact Hc |]. split; [exact Hi |].
  split; [exact Hall |].
  destruct (summary_figures_in_range (RT := offline) mixed_results Hne Hv Hc Hi)
    as (s & p & g & u & h & Hs & _ & _ & _ & Hchurn & _).
  destruct (Hchurn Hall) as (c & Hg & Hr).
  exists s, c. split; [exact Hs |]. split; [exact Hg | exact Hr].
Defined.

(** The total of the cost savings is the formatted sum, in floats and in
    the order of the list, over the results whose cost text converts to a
    number; a result whose text does not convert adds nothing, and when no
    text converts the total is zero rupees.  The list is not empty, its
    alert levels are low, medium or high, and its two means are in the range
    of the floats. *)
Theorem total_cost_savings_skips_unparsable {RT : PyRuntime} (l : list SentimentResponse) :
  l <> [] -> forallb valid_alert l = true ->
  in_float_range (sum_of churn_probability l) (Z.of_nat (length l)) ->
  in_float_range (sum_of purchase_intent l) (Z.of_nat (length l)) ->
  exists s, _calculate_summary l = Ok {| results := l; summary := s |} /\
    getpath s ["business_intelligence"; "total_cost_savings"] =
      Ok (JStr ("₹" ++ format_2f
                  (savings (Fin 0) (filter (fun r => cost_converts r = true) l)))) /\
    (Forall (fun r => cost_converts r = false) l ->
     getpath s ["business_intelligence"; "total_cost_savings"] = Ok (JStr "₹0.00")).
Proof.
  intros Hne Hv Hchurn Hintent. exists (summary_of l).
  split; [exact (calculate_summary_valid l Hne Hv Hchurn Hintent) |].
  cbn [summary_of getpath getitem assoc String.eqb Ascii.eqb Bool.eqb mbind res_bind].
  split.
  - rewrite <- savings_filter. reflexivity.
  - intros Hnone. rewrite (savings_none l _ Hnone). reflexivity.
Qed.

Lemma total_cost_savings_skips_unparsable_witness :
  mixed_results <> [] /\ forallb valid_alert mixed_results = true /\
  in_float_range (sum_of churn_probability mixed_results) 3 /\
  in_float_range (sum_of purchase_intent mixed_results) 3 /\
  map (fun r => cost_saved (cost_prediction r)) mixed_results
    = ["₹0.88"; "₹0.88"; "₹0.125"] /\
  exists s, @_calculate_summary offline mixed_results
            = Ok {| results := mixed_results; summary := s |} /\
    getpath s ["business_intelligence"; "total_cost_savings"] = Ok (JStr "₹1.89").
Proof.
  assert (Hne : mixed_results <> []) by discriminate.
  assert (Hv : forallb valid_alert mixed_results = true) by reflexivity.
  assert (Hc : in_float_range (sum_of churn_probability mixed_results) 3)
    by (vm_compute; reflexivity).
  assert (Hi : in_float_range (sum_of purchase_intent mixed_results) 3)
    by (vm_compute; reflexivity).
  split; [exact Hne |]. split; [exact Hv |]. split; [exact Hc |]. split; [exact Hi |].
  split; [reflexivity |].
  destruct (total_cost_savings_skips_unparsable (RT := offline) mixed_results Hne Hv Hc Hi)
    as (s & Hs & Hcost & _).
  exists s. split; [exact Hs |]. rewrite Hcost. vm_compute. reflexivity.
Defined.

(** ** Batches of fallback records *)

Section Fallbacks.
Context {RT : PyRuntime}.

Lemma fallback_is_fallback msg cid aid ts error :
  is_fallback (_create_fallback_response msg cid aid ts error).
Proof. exists error. reflexivity. Qed.

Lemma is_fallback_fields r :
  is_fallback r ->
  sentiment r = NEUTRAL /\ alert_level r = "medium" /\ churn_probability r = 50 /\
  purchase_intent r = 25 /\ customer_value_tier r = "medium_value" /\
  retention_action r = "follow_up" /\
  primary_category (template_recommendation r) = "service" /\
  cost_saved (cost_prediction r) = "₹0.00".
Proof. intros (error & ->). cbn. repeat split. Qed.

Lemma fallbacks_valid l : Forall is_fallback l -> forallb valid_alert l = true.
Proof.
  induction 1 as [| r l Hr _ IH]; [reflexivity |].
  cbn [forallb]. rewrite IH. unfold valid_alert.
  destruct (is_fallback_fields r Hr) as (_ & -> & _). reflexivity.
Qed.

Lemma fallbacks_counts l :
  Forall is_fallback l ->
  count_where (has_sentiment POSITIVE) l = 0 /\
  count_where (has_sentiment NEGATIVE) l = 0 /\
  count_where (has_sentiment NEUTRAL) l = Z.of_nat (length l) /\
  count_where (has_alert "low") l = 0 /\
  count_where (has_alert "medium") l = Z.of_nat (length l) /\
  count_where (has_alert "high") l = 0 /\
  count_where is_high_value l = 0 /\
  sum_of churn_probability l = 50 * Z.of_nat (length l) /\
  sum_of purchase_intent l = 25 * Z.of_nat (length l).
Proof.
  induction 1 as [| r l Hr _ IH]; [cbn; repeat split |].
  destruct IH as (I1 & I2 & I3 & I4 & I5 & I6 & I7 & I8 & I9).
  destruct (is_fallback_fields r Hr) as (Hs & Ha & Hc & Hp & Ht & _).
  cbn [count_where sum_of length].
  rewrite I1, I2, I3, I4, I5, I6, I7, I8, I9.
  unfold has_sentiment, has_alert, is_high_value.
  rewrite Hs, Ha, Hc, Hp, Ht. cbn.
  repeat split; lia.
Qed.

Lemma fallbacks_savings l :
  float_of_str "0.00" = Ok (Fin 0) ->
  Forall is_fallback l -> savings (Fin 0) l = Fin 0.
Proof.
  intros Hfloat. induction 1 as [| r l Hr _ IH]; [reflexivity |].
  destruct (is_fallback_fields r Hr) as (_ & _ & _ & _ & _ & _ & _ & Hc).
  cbn [savings]. rewrite Hc, rupee_stripped, Hfloat. exact IH.
Qed.

Lemma count_if_all p l :
  Forall (fun r => p r = true) l -> count_if p l = JInt (Z.of_nat (length l)).
Proof.
  intros H. unfold count_if. do 3 f_equal.
  induction H as [| r l Hr _ IH]; [reflexivity |].
  rewrite filter_cons, decide_True by exact Hr. f_equal. exact IH.
Qed.

Lemma share_Qeq c n c' n' ndigits :
  (inject_Z c / inject_Z n == inject_Z c' / inject_Z n')%Q ->
  share c n ndigits = share c' n' ndigits.
Proof. intros E. unfold share. rewrite (to_double_Qeq _ _ E). reflexivity. Qed.

Lemma mean_Qeq a n a' n' ndigits :
  (inject_Z a / inject_Z n == inject_Z a' / inject_Z n')%Q ->
  mean a n ndigits = mean a' n' ndigits.
Proof. intros E. unfold mean. rewrite (to_double_Qeq _ _ E). reflexivity. Qed.

Lemma Qdiv_multiple (k n : Z) :
  0 < n -> (inject_Z (k * n) / inject_Z n == inject_Z k / inject_Z 1)%Q.
Proof.
  intros Hn. rewrite inject_Z_mult. field.
  intros H. unfold Qeq in H. cbn in H. lia.
Qed.

Lemma fallback_confidence l :
  Forall is_fallback l -> fold_left pf_add (map confidence_score l) (Fin 0) = Fin 0.
Proof.
  induction 1 as [| r l Hr _ IH]; [reflexivity |].
  destruct Hr as (error & ->). exact IH.
Qed.

(** The summary of a non-empty list of fallback records is computed. *)
Lemma calculate_summary_fallbacks l :
  l <> [] -> Forall is_fallback l ->
  _calculate_summary l = Ok {| results := l; summary := summary_of l |}.
Proof.
  intros Hne Hall.
  pose proof (length_pos l Hne) as Hn.
  destruct (fallbacks_counts l Hall) as (_ & _ & _ & _ & _ & _ & _ & C8 & C9).
  apply (calculate_summary_valid l Hne (fallbacks_valid l Hall)).
  - unfold in_float_range. rewrite C8, (Qdiv_multiple 50 _ Hn). vm_compute. reflexivity.
  - unfold in_float_range. rewrite C9, (Qdiv_multiple 25 _ Hn). vm_compute. reflexivity.
Qed.

(** The summary of a non-empty list of fallback records. *)
Lemma summary_of_fallback_list l :
  l <> [] -> Forall is_fallback l ->
  exists s, _calculate_summary l = Ok {| results := l; summary := s |} /\
    getpath s ["total_messages"] = Ok (JInt (Z.of_nat (length l))) /\
    getpath s ["sentiment_distribution"] =
      Ok (JObj [("positive_percentage", JFloat (Fin 0));
                ("negative_percentage", JFloat (Fin 0));
                ("neutral_percentage", JFloat (Fin 100))]) /\
    getpath s ["alert_distribution"] =
      Ok (JObj [("low", JInt 0); ("medium", JInt (Z.of_nat (length l)));
                ("high", JInt 0)]) /\
    getpath s ["high_priority_count"] = Ok (JInt 0) /\
    getpath s ["business_intelligence"; "average_churn_risk"] = Ok (JFloat (Fin 50)) /\
    getpath s ["business_intelligence"; "average_purchase_intent"] = Ok (JFloat (Fin 25)) /\
    getpath s ["business_intelligence"; "high_value_percentage"] = Ok (JFloat (Fin 0)) /\
    getpath s ["business_intelligence"; "customers_needing_retention"] =
      Ok (JInt (Z.of_nat (length l))) /\
    getpath s ["business_intelligence"; "service_required"] =
      Ok (JInt (Z.of_nat (length l))) /\
    (float_of_str "0.00" = Ok (Fin 0) ->
     getpath s ["business_intelligence"; "total_cost_savings"] = Ok (JStr "₹0.00")).
Proof.
  intros Hne Hall.
  pose proof (fallbacks_valid l Hall) as Hv.
  pose proof (length_pos l Hne) as Hn.
  destruct (fallbacks_counts l Hall) as (C1 & C2 & C3 & C4 & C5 & C6 & C7 & C8 & C9).
  pose proof (Qdiv_multiple 0 _ Hn) as Q0. rewrite Z.mul_0_l in Q0.
  pose proof (Qdiv_multiple 1 _ Hn) as Q1. rewrite Z.mul_1_l in Q1.
  pose proof (Qdiv_multiple 50 _ Hn) as Q50.
  pose proof (Qdiv_multiple 25 _ Hn) as Q25.
  exists (summary_of l).
  split; [exact (calculate_summary_fallbacks l Hne Hall) |].
  cbn [summary_of getpath getitem assoc String.eqb Ascii.eqb Bool.eqb mbind res_bind].
  rewrite C1, C2, C3, C4, C5, C6, C7, C8, C9.
  rewrite !(share_Qeq _ _ _ _ _ Q0), (share_Qeq _ _ _ _ _ Q1),
    (mean_Qeq _ _ _ _ _ Q50), (mean_Qeq _ _ _ _ _ Q25).
  change (share 0 1 2) with (Fin 0). change (share 1 1 2) with (Fin 100).
  change (share 0 1 1) with (Fin 0).
  change (mean 50 1 1) with (Fin 50). change (mean 25 1 1) with (Fin 25).
  repeat (split; [reflexivity |]). split; [| split].
  - f_equal. apply count_if_all.
    eapply Forall_impl; [exact Hall |]. intros r Hr.
    destruct (is_fallback_fields r Hr) as (_ & _ & _ & _ & _ & -> & _). reflexivity.
  - f_equal. apply count_if_all.
    eapply Forall_impl; [exact Hall |]. intros r Hr.
    destruct (is_fallback_fields r Hr) as (_ & _ & _ & _ & _ & _ & -> & _). reflexivity.
  - intros Hfloat. rewrite (fallbacks_savings l Hfloat Hall). reflexivity.
Qed.

(** The summary of a list of fallback records holds no float that the
    framework does not write. *)
Lemma summary_of_fallbacks_finite l :
  l <> [] -> Forall is_fallback l -> float_of_str "0.00" = Ok (Fin 0) ->
  json_finite (summary_of l) = true.
Proof.
  intros Hne Hall Hfloat.
  pose proof (length_pos l Hne) as Hn.
  destruct (fallbacks_counts l Hall) as (C1 & C2 & C3 & C4 & C5 & C6 & C7 & C8 & C9).
  pose proof (Qdiv_multiple 0 _ Hn) as Q0. rewrite Z.mul_0_l in Q0.
  pose proof (Qdiv_multiple 1 _ Hn) as Q1. rewrite Z.mul_1_l in Q1.
  pose proof (Qdiv_multiple 50 _ Hn) as Q50.
  pose proof (Qdiv_multiple 25 _ Hn) as Q25.
  unfold summary_of, sum_confidence. rewrite (fallback_confidence l Hall).
  rewrite C1, C2, C3, C4, C5, C6, C7, C8, C9.
  rewrite !(share_Qeq _ _ _ _ _ Q0), (share_Qeq _ _ _ _ _ Q1),
    (mean_Qeq _ _ _ _ _ Q50), (mean_Qeq _ _ _ _ _ Q25).
  change (share 0 1 2) with (Fin 0). change (share 1 1 2) with (Fin 100).
  change (share 0 1 1) with (Fin 0).
  change (mean 50 1 1) with (Fin 50). change (mean 25 1 1) with (Fin 25).
  assert (Hmean : exists x,
    py_round (pf_div (Fin 0) (to_double (inject_Z (Z.of_nat (length l))))) 2 = Fin x).
  { destruct (to_double (inject_Z (Z.of_nat (length l)))) as [d | | |] eqn:Hd;
      cbn [pf_div].
    - rewrite (to_double_Qeq (0 / d) 0) by (unfold Qdiv; apply Qmult_0_l).
      eexists. vm_compute. reflexivity.
    - eexists. vm_compute. reflexivity.
    - eexists. vm_compute. reflexivity.
    - exfalso. exact (to_double_not_nan _ Hd). }
  destruct Hmean as (x & ->). reflexivity.
Qed.

End Fallbacks.

(** The summary of a non-empty batch of fallback records, of whatever size:
    no positive and no negative share, a neutral share of 100, every result
    under the alert level medium, a mean churn probability of 50.0 and a mean
    purchase intent of 25.0, no high-value customer, every customer
    needing retention and the service category; the total of the savings is
    zero rupees when [float("0.00")] is zero. *)
Theorem summary_of_fallback_batch {RT : PyRuntime} (l : list SentimentResponse) :
  l <> [] -> Forall is_fallback l ->
  exists s, _calculate_summary l = Ok {| results := l; summary := s |} /\
    getpath s ["total_messages"] = Ok (JInt (Z.of_nat (length l))) /\
    getpath s ["sentiment_distribution"] =
      Ok (JObj [("positive_percentage", JFloat (Fin 0));
                ("negative_percentage", JFloat (Fin 0));
                ("neutral_percentage", JFloat (Fin 100))]) /\
    getpath s ["alert_distribution"] =
      Ok (JObj [("low", JInt 0); ("medium", JInt (Z.of_nat (length l)));
                ("high", JInt 0)]) /\
    getpath s ["high_priority_count"] = Ok (JInt 0) /\
    getpath s ["business_intelligence"; "average_churn_risk"] = Ok (JFloat (Fin 50)) /\
    getpath s ["business_intelligence"; "average_purchase_intent"] = Ok (JFloat (Fin 25)) /\
    getpath s ["business_intelligence"; "high_value_percentage"] = Ok (JFloat (Fin 0)) /\
    getpath s ["business_intelligence"; "customers_needing_retention"] =
      Ok (JInt (Z.of_nat (length l))) /\
    getpath s ["business_intelligence"; "service_required"] =
      Ok (JInt (Z.of_nat (length l))) /\
    (float_of_str "0.00" = Ok (Fin 0) ->
     getpath s ["business_intelligence"; "total_cost_savings"] = Ok (JStr "₹0.00")).
Proof. apply summary_of_fallback_list. Qed.

Lemma summary_of_fallback_batch_witness :
  [_create_fallback_response "m" None None None "e"] <> [] /\
  Forall is_fallback [_create_fallback_response "m" None None None "e"] /\
  exists s, @_calculate_summary offline [_create_fallback_response "m" None None None "e"]
            = Ok {| results := [_create_fallback_response "m" None None None "e"];
                    summary := s |} /\
    getpath s ["business_intelligence"; "total_cost_savings"] = Ok (JStr "₹0.00").
Proof.
  assert (Hne : [_create_fallback_response "m" None None None "e"] <> []) by discriminate.
  assert (Hall : Forall is_fallback [_create_fallback_response "m" None None None "e"]).
  { apply Forall_cons. split; [apply fallback_is_fallback | apply Forall_nil; exact I]. }
  split; [exact Hne |]. split; [exact Hall |].
  destruct (summary_of_fallback_batch (RT := offline) _ Hne Hall)
    as (s & Hs & _ & _ & _ & _ & _ & _ & _ & _ & _ & Hc).
  exists s. split; [exact Hs | exact (Hc eq_refl)].
Defined.

(** ** The loops of the dispatch *)

Section Loops.
Context {RT : PyRuntime}.

Lemma result_of_ok call m :
  analyze_message call (req_message m) (req_customer_id m) (req_agent_id m)
    (req_timestamp m) = Ok (result_of call m).
Proof.
  unfold result_of.
  destruct (analyze_message_total call (req_message m) (req_customer_id m)
              (req_agent_id m) (req_timestamp m)) as (r & ->). reflexivity.
Qed.

Lemma result_of_carries call m : carries m (result_of call m).
Proof. exact (analyze_message_fields _ _ _ _ _ _ (result_of_ok call m)). Qed.

Lemma individual_results_carry messages : forall call rs,
  individual_results call messages = Ok rs -> Forall2 carries messages rs.
Proof.
  intros call rs H. rewrite individual_results_spec in H. injection H as <-.
  revert call. induction messages as [| m rest IH]; intros call; [constructor |].
  cbn [imap]. constructor; [apply result_of_carries |].
  rewrite (imap_ext _ (fun i x => result_of (S call + i) x)).
  - apply IH.
  - intros i x _. cbn. f_equal. lia.
Qed.

Lemma fallback_for_carries m error : carries m (fallback_for m error).
Proof. repeat split. Qed.

Lemma batch_results_carry parsed messages : forall i0 rs,
  batch_results parsed i0 messages = Ok rs -> Forall2 carries messages rs.
Proof.
  induction messages as [| m rest IH]; intros i0 rs H.
  - injection H as <-. constructor.
  - cbn [batch_results] in H. binds. injection H as <-.
    constructor; [| eapply IH; eassumption].
    destruct (i0 <? v)%nat.
    + binds. apply build_response_ok in Hv0. unfold carries. tauto.
    + injection Hv0 as <-. apply fallback_for_carries.
Qed.

(** Past the end of what was decoded, every message gets the fallback
    record. *)
Lemma batch_results_past_end parsed n messages : forall i0,
  py_len parsed = Ok n -> (n <= i0)%nat ->
  batch_results parsed i0 messages
  = Ok (map (fun m => fallback_for m "Batch processing incomplete") messages).
Proof.
  intros i0 Hlen. revert i0. induction messages as [| m rest IH]; intros i0 Hge;
    [reflexivity |].
  cbn [batch_results map]. rewrite Hlen. cbn [mbind res_bind].
  apply Nat.ltb_ge in Hge. rewrite Hge. cbn [mbind res_bind].
  rewrite IH by (apply Nat.ltb_ge in Hge; lia). reflexivity.
Qed.

(** An element that does not build stops the loop of the combined
    attempt. *)
Lemma batch_results_element_raises arr messages i m e err :
  messages !! i = Some m -> arr !! i = Some e ->
  build_response e (req_message m) (req_customer_id m) (req_agent_id m)
    (req_timestamp m) = Raise err ->
  exists err', batch_results (JArr arr) 0 messages = Raise err'.
Proof.
  intros Hm He Hb.
  destruct (batch_results (JArr arr) 0 messages) as [rs | err'] eqn:Hrs; [| eauto].
  destruct (batch_results_spec arr messages 0 rs Hrs) as (_ & Hpos).
  destruct (Hpos i m Hm) as (r & _ & Hbuild & _).
  rewrite (Hbuild e He) in Hb. discriminate Hb.
Qed.

Lemma batch_results_extra arr extra messages : forall i0,
  (i0 + length messages <= length arr)%nat ->
  batch_results (JArr (arr ++ extra)) i0 messages = batch_results (JArr arr) i0 messages.
Proof.
  induction messages as [| m rest IH]; intros i0 Hlen; [reflexivity |].
  cbn [length] in Hlen. cbn [batch_results py_len mbind res_bind].
  rewrite IH by lia.
  assert (H1 : (i0 <? length (arr ++ extra))%nat = true).
  { apply Nat.ltb_lt. rewrite length_app. lia. }
  assert (H2 : (i0 <? length arr)%nat = true) by (apply Nat.ltb_lt; lia).
  rewrite H1, H2. cbn [getitem_int].
  rewrite lookup_app_l by lia. reflexivity.
Qed.

Lemma individual_fallbacks call messages :
  (forall n prompt, exists e, llm_invoke n prompt = Raise e) ->
  Forall is_fallback (imap (fun i m => result_of (call + i) m) messages).
Proof.
  intros Hdown. revert call. induction messages as [| m rest IH]; intros call;
    [constructor |].
  cbn [imap]. constructor.
  - destruct (Hdown (call + 0)%nat
                (single_prefix ++ req_message m ++ single_suffix)) as (e & He).
    rewrite (result_of_failed_request _ _ _ He). apply fallback_is_fallback.
  - rewrite (imap_ext _ (fun i x => result_of (S call + i) x)).
    + apply IH.
    + intros i x _. cbn. f_equal. lia.
Qed.

(** With the completion service down, the individual dispatch returns one
    fallback record per message. *)
Lemma individual_dispatch_down call messages :
  (forall n prompt, exists e, llm_invoke n prompt = Raise e) ->
  messages <> [] ->
  exists b, _analyze_bulk_individual call messages = Ok b /\
    Forall2 carries messages (results b) /\
    Forall is_fallback (results b) /\
    getpath (summary b) ["sentiment_distribution"; "neutral_percentage"]
      = Ok (JFloat (Fin 100)) /\
    summary b = summary_of (results b).
Proof.
  intros Hdown Hne.
  pose proof (individual_fallbacks call messages Hdown) as Hall.
  assert (Hne' : imap (fun i m => result_of (call + i) m) messages <> []).
  { intros H. apply (f_equal length) in H. rewrite length_imap in H.
    destruct messages; [congruence | discriminate H]. }
  destruct (summary_of_fallback_list _ Hne' Hall) as (s & Hs & _ & Hd & _).
  pose proof (calculate_summary_fallbacks _ Hne' Hall) as Hs'.
  rewrite Hs in Hs'. injection Hs' as ->.
  eexists. split.
  - unfold _analyze_bulk_individual. rewrite individual_results_spec. exact Hs.
  - cbn [results summary]. split; [| split; [exact Hall | split; [| reflexivity]]].
    + apply (individual_results_carry messages call). apply individual_results_spec.
    + cbn [getpath mbind res_bind]. cbn [getpath] in Hd.
      apply bind_ok in Hd as (x & Hx & Hd). rewrite Hx. injection Hd as ->. reflexivity.
Qed.

End Loops.

(** ** The dispatch, mode by mode *)

(** The individual loop never raises: it returns one result per message, in
    the order of the messages; the result at position [i] is what
    [analyze_message] returned on the [i]-th request of the loop (the
    handler of the loop is never used), and it carries the message and the
    correlation fields of message [i]. *)
Theorem individual_results_in_order {RT : PyRuntime} (call : nat)
    (messages : list MessageRequest) :
  exists rs, individual_results call messages = Ok rs /\
    length rs = length messages /\
    Forall2 carries messages rs /\
    forall i m, messages !! i = Some m ->
      exists r, rs !! i = Some r /\
        analyze_message (call + i) (req_message m) (req_customer_id m)
          (req_agent_id m) (req_timestamp m) = Ok r.
Proof.
  eexists. split; [apply individual_results_spec |].
  split; [apply length_imap |].
  split; [apply (individual_results_carry messages call), individual_results_spec |].
  intros i m Hm. exists (result_of (call + i) m).
  split; [rewrite list_lookup_imap, Hm; reflexivity | apply result_of_ok].
Qed.

Lemma individual_results_in_order_witness :
  exists rs, @individual_results offline 0 two_messages = Ok rs /\
    length rs = 2%nat /\
    exists r, rs !! 1%nat = Some r /\
      @analyze_message offline 1 "m2" None None None = Ok r.
Proof.
  destruct (individual_results_in_order (RT := offline) 0 two_messages)
    as (rs & Hrs & Hlen & _ & Hpos).
  exists rs. split; [exact Hrs |]. split; [exact Hlen |].
  exact (Hpos 1%nat (request "m2") eq_refl).
Defined.

(** In the individual loop the result for a message depends on the reply to
    its own request only: two completion services that agree on request
    [call + i] give the same result at position [i], whatever they reply or
    raise on the other requests. *)
Theorem individual_results_isolated (RT : PyRuntime)
    (llm1 llm2 : nat -> string -> res string) (call : nat)
    (messages : list MessageRequest) (i : nat) (rs1 rs2 : list SentimentResponse) :
  (forall prompt, llm1 (call + i)%nat prompt = llm2 (call + i)%nat prompt) ->
  @individual_results (with_llm RT llm1) call messages = Ok rs1 ->
  @individual_results (with_llm RT llm2) call messages = Ok rs2 ->
  rs1 !! i = rs2 !! i.
Proof.
  intros Hsame H1 H2.
  rewrite individual_results_spec in H1. rewrite individual_results_spec in H2.
  injection H1 as <-. injection H2 as <-.
  rewrite !list_lookup_imap. destruct (messages !! i) as [m |]; [| reflexivity].
  cbn. f_equal. apply result_of_own_request. exact Hsame.
Qed.

Lemma individual_results_isolated_witness :
  exists rs1 rs2,
    @individual_results
       (with_llm offline (fun n _ => if (n =? 0)%nat then Raise (ClientError "down")
                                     else Ok Reference.good_reply)) 0 two_messages = Ok rs1 /\
    @individual_results (with_llm offline (fun _ _ => Ok Reference.good_reply)) 0
       two_messages = Ok rs2 /\
    rs1 !! 1%nat = rs2 !! 1%nat /\ rs1 !! 0%nat <> rs2 !! 0%nat.
Proof.
  eexists. eexists. split; [apply individual_results_spec |].
  split; [apply individual_results_spec |]. split.
  - eapply (individual_results_isolated offline _ _ 0 two_messages 1);
      [| apply individual_results_spec | apply individual_results_spec].
    reflexivity.
  - vm_compute. discriminate.
Defined.

Lemma analyze_bulk_messages_down {RT : PyRuntime} (call : nat)
    (messages : list MessageRequest) :
  (forall n prompt, exists e, llm_invoke n prompt = Raise e) ->
  messages <> [] ->
  exists b, analyze_bulk_messages call messages = Ok b /\
    length (results b) = Nat.min 15 (length messages) /\
    Forall2 carries (firstn 15 messages) (results b) /\
    Forall is_fallback (results b) /\
    getpath (summary b) ["sentiment_distribution"; "neutral_percentage"]
      = Ok (JFloat (Fin 100)) /\
    summary b = summary_of (results b).
Proof.
  intros Hdown Hne. unfold analyze_bulk_messages.
  set (batch := if (15 <? length messages)%nat then firstn 15 messages else messages).
  assert (Hbatch : batch = firstn 15 messages).
  { subst batch. destruct (15 <? length messages)%nat eqn:H; [reflexivity |].
    apply Nat.ltb_ge in H. symmetry. apply firstn_all2. exact H. }
  assert (Hne' : batch <> []).
  { rewrite Hbatch. destruct messages; [congruence | discriminate]. }
  assert (Hdispatch : exists c,
    (if (length batch <=? 8)%nat then _analyze_bulk_optimized call batch
     else _analyze_bulk_individual call batch) = _analyze_bulk_individual c batch).
  { destruct (length batch <=? 8)%nat; [| eauto].
    exists (S call). unfold _analyze_bulk_optimized, analyze_bulk_optimized_body.
    destruct (Hdown call (bulk_prefix ++ messages_batch 1 batch ++ bulk_suffix))
      as (e & ->). reflexivity. }
  destruct Hdispatch as (c & ->).
  destruct (individual_dispatch_down c batch Hdown Hne') as (b & Hb & Hcar & Hall & Hs).
  exists b. split; [exact Hb |].
  rewrite <- Hbatch. split; [| auto].
  rewrite <- (Forall2_length _ _ _ Hcar), Hbatch. apply length_firstn.
Qed.

(** With the completion service down (every request raises), the dispatch
    of a non-empty batch still returns: one fallback record for each of the
    first 15 messages, in the order of the messages, under a summary that
    is all neutral. *)
Theorem bulk_dispatch_when_service_down {RT : PyRuntime} (call : nat)
    (messages : list MessageRequest) :
  (forall n prompt, exists e, llm_invoke n prompt = Raise e) ->
  messages <> [] ->
  exists b, analyze_bulk_messages call messages = Ok b /\
    length (results b) = Nat.min 15 (length messages) /\
    Forall2 carries (firstn 15 messages) (results b) /\
    Forall is_fallback (results b) /\
    getpath (summary b) ["sentiment_distribution"; "neutral_percentage"]
      = Ok (JFloat (Fin 100)).
Proof.
  intros Hdown Hne.
  destruct (analyze_bulk_messages_down call messages Hdown Hne)
    as (b & Hb & Hlen & Hcar & Hall & Hsum & _).
  exists b. auto.
Qed.

Lemma bulk_dispatch_when_service_down_witness :
  (forall n prompt, exists e, @llm_invoke offline n prompt = Raise e) /\
  nine_messages <> [] /\
  exists b, @analyze_bulk_messages offline 0 nine_messages = Ok b /\
    length (results b) = 9%nat /\ Forall is_fallback (results b).
Proof.
  assert (Hdown : forall n prompt, exists e, @llm_invoke offline n prompt = Raise e)
    by (intros n prompt; eexists; reflexivity).
  assert (Hne : nine_messages <> []) by discriminate.
  split; [exact Hdown |]. split; [exact Hne |].
  destruct (bulk_dispatch_when_service_down (RT := offline) 0 nine_messages Hdown Hne)
    as (b & Hb & Hlen & _ & Hall & _).
  exists b. split; [exact Hb |]. split; [exact Hlen | exact Hall].
Defined.

(** Whenever the dispatch returns, it returns one result for each of the
    first 15 messages, in their order, each carrying the message and the
    correlation fields of its request: a batch longer than 15 is cut, and
    neither mode drops, adds or reorders a result. *)
Theorem bulk_results_follow_input {RT : PyRuntime} (call : nat)
    (messages : list MessageRequest) (b : BulkResult) :
  analyze_bulk_messages call messages = Ok b ->
  Forall2 carries (firstn 15 messages) (results b) /\
  length (results b) = Nat.min 15 (length messages).
Proof.
  unfold analyze_bulk_messages.
  set (batch := if (15 <? length messages)%nat then firstn 15 messages else messages).
  assert (Hbatch : batch = firstn 15 messages).
  { subst batch. destruct (15 <? length messages)%nat eqn:H; [reflexivity |].
    apply Nat.ltb_ge in H. symmetry. apply firstn_all2. exact H. }
  intros H.
  assert (Hcar : Forall2 carries batch (results b)).
  { assert (Hind : forall c, _analyze_bulk_individual c batch = Ok b ->
                     Forall2 carries batch (results b)).
    { intros c Hc. unfold _analyze_bulk_individual in Hc.
      apply bind_ok in Hc as (rs & Hrs & Hsum).
      rewrite (calculate_summary_results _ _ Hsum).
      exact (individual_results_carry _ _ _ Hrs). }
    destruct (length batch <=? 8)%nat; [| exact (Hind _ H)].
    unfold _analyze_bulk_optimized in H.
    destruct (analyze_bulk_optimized_body call batch) as [b' | e] eqn:Hbody.
    - injection H as <-. unfold analyze_bulk_optimized_body in Hbody. binds.
      rewrite (calculate_summary_results _ _ Hbody).
      exact (batch_results_carry _ _ _ _ Hv1).
    - exact (Hind _ H). }
  rewrite <- Hbatch. split; [exact Hcar |].
  rewrite <- (Forall2_length _ _ _ Hcar), Hbatch. apply length_firstn.
Qed.

Lemma bulk_results_follow_input_witness :
  exists b, @analyze_bulk_messages (always Reference.good_reply) 0 two_messages = Ok b /\
    Forall2 carries two_messages (results b) /\ length (results b) = 2%nat.
Proof.
  destruct (@analyze_bulk_messages (always Reference.good_reply) 0 two_messages)
    as [b | e] eqn:Hb; [| vm_compute in Hb; discriminate Hb].
  exists b. split; [reflexivity |].
  exact (bulk_results_follow_input (RT := always Reference.good_reply) 0 two_messages b Hb).
Defined.

(** When the reply to the combined prompt decodes to something of length
    zero (an empty array, an empty dictionary, an empty string), every
    message of the batch gets the fallback record and the dispatch returns
    them: nothing is retried, and no message is analysed. *)
Theorem empty_reply_gives_all_fallbacks {RT : PyRuntime} (call : nat)
    (messages : list MessageRequest) (content : string) (parsed : json) :
  llm_invoke call (bulk_prefix ++ messages_batch 1 messages ++ bulk_suffix) = Ok content ->
  json_loads (extract "[" "]" content) = Ok parsed ->
  py_len parsed = Ok 0%nat ->
  messages <> [] ->
  exists s, _analyze_bulk_optimized call messages
    = Ok {| results := map (fun m => fallback_for m "Batch processing incomplete") messages;
            summary := s |}.
Proof.
  intros Hllm Hjson Hlen Hne.
  set (rs := map (fun m => fallback_for m "Batch processing incomplete") messages).
  assert (Hall : Forall is_fallback rs).
  { subst rs. apply Forall_fmap, Forall_forall. intros m _. apply fallback_is_fallback. }
  assert (Hne' : rs <> []) by (subst rs; destruct messages; [congruence | discriminate]).
  destruct (summary_of_fallback_list rs Hne' Hall) as (s & Hs & _).
  exists s. unfold _analyze_bulk_optimized, analyze_bulk_optimized_body.
  rewrite Hllm. cbn [mbind res_bind]. rewrite Hjson. cbn [mbind res_bind].
  rewrite (batch_results_past_end parsed 0 messages 0 Hlen) by lia.
  cbn [mbind res_bind]. fold rs. rewrite Hs. reflexivity.
Qed.

Lemma empty_reply_gives_all_fallbacks_witness :
  exists s, @_analyze_bulk_optimized (scripted ["Nothing to report: []"]) 0 two_messages
    = Ok {| results := map (fun m => fallback_for m "Batch processing incomplete")
                         two_messages;
            summary := s |}.
Proof.
  apply (empty_reply_gives_all_fallbacks (RT := scripted ["Nothing to report: []"])
           0 two_messages "Nothing to report: []" (JArr [])).
  - reflexivity.
  - vm_compute. reflexivity.
  - reflexivity.
  - discriminate.
Defined.

(** When an element of the decoded array that belongs to a message does not
    build a record, no fallback record is put in its place: the combined
    attempt is given up and the whole batch is analysed message by
    message. *)
Theorem failing_element_retries_batch {RT : PyRuntime} (call : nat)
    (messages : list MessageRequest) (content : string) (arr : list json)
    (i : nat) (m : MessageRequest) (e : json) (err : exn) :
  llm_invoke call (bulk_prefix ++ messages_batch 1 messages ++ bulk_suffix) = Ok content ->
  json_loads (extract "[" "]" content) = Ok (JArr arr) ->
  messages !! i = Some m -> arr !! i = Some e ->
  build_response e (req_message m) (req_customer_id m) (req_agent_id m)
    (req_timestamp m) = Raise err ->
  _analyze_bulk_optimized call messages = _analyze_bulk_individual (S call) messages.
Proof.
  intros Hllm Hjson Hm He Hb.
  destruct (batch_results_element_raises arr messages i m e err Hm He Hb) as (err' & Hr).
  apply (combined_failure_retries _ _ err').
  unfold analyze_bulk_optimized_body.
  rewrite Hllm. cbn [mbind res_bind]. rewrite Hjson. cbn [mbind res_bind].
  rewrite Hr. reflexivity.
Qed.

Lemma failing_element_retries_batch_witness :
  @_analyze_bulk_optimized (scripted [empty_element_reply]) 0 two_messages
  = @_analyze_bulk_individual (scripted [empty_element_reply]) 1 two_messages.
Proof.
  apply (failing_element_retries_batch (RT := scripted [empty_element_reply])
           0 two_messages empty_element_reply [JObj []] 0 (request "m1") (JObj [])
           (KeyError "sentiment")).
  - reflexivity.
  - vm_compute. reflexivity.
  - reflexivity.
  - reflexivity.
  - reflexivity.
Defined.

(** A lookup error of the summary inside the combined attempt does not
    escape it: when the records built from the array include an alert level
    outside the table, the whole batch is analysed again message by
    message. *)
Theorem combined_summary_error_retries {RT : PyRuntime} (call : nat)
    (messages : list MessageRequest) (content : string) (parsed : json)
    (rs : list SentimentResponse) :
  llm_invoke call (bulk_prefix ++ messages_batch 1 messages ++ bulk_suffix) = Ok content ->
  json_loads (extract "[" "]" content) = Ok parsed ->
  batch_results parsed 0 messages = Ok rs ->
  forallb valid_alert rs = false ->
  _analyze_bulk_optimized call messages = _analyze_bulk_individual (S call) messages.
Proof.
  intros Hllm Hjson Hrs Hv.
  destruct (calculate_summary_invalid rs Hv) as (r & _ & _ & Hs).
  apply (combined_failure_retries _ _ (KeyError (alert_level r))).
  unfold analyze_bulk_optimized_body.
  rewrite Hllm. cbn [mbind res_bind]. rewrite Hjson. cbn [mbind res_bind].
  rewrite Hrs. cbn [mbind res_bind]. exact Hs.
Qed.

Lemma combined_summary_error_retries_witness :
  @_analyze_bulk_optimized (scripted [critical_array_reply]) 0 [request "m1"]
  = @_analyze_bulk_individual (scripted [critical_array_reply]) 1 [request "m1"].
Proof.
  destruct (@batch_results (scripted [critical_array_reply])
              (decoded "[" "]" critical_array_reply) 0 [request "m1"])
    as [rs | e] eqn:Hrs; [| vm_compute in Hrs; discriminate Hrs].
  apply (combined_summary_error_retries (RT := scripted [critical_array_reply])
           0 [request "m1"] critical_array_reply
           (decoded "[" "]" critical_array_reply) rs).
  - reflexivity.
  - vm_compute. reflexivity.
  - exact Hrs.
  - vm_compute in Hrs. injection Hrs as <-. reflexivity.
Defined.

(** The elements of the array beyond the number of messages are ignored. *)
Theorem extra_array_elements_ignored {RT : PyRuntime} (arr extra : list json)
    (messages : list MessageRequest) :
  (length messages <= length arr)%nat ->
  batch_results (JArr (arr ++ extra)) 0 messages = batch_results (JArr arr) 0 messages.
Proof. intros H. apply batch_results_extra. exact H. Qed.

Lemma extra_array_elements_ignored_witness :
  @batch_results offline (JArr ([JObj []] ++ [JNull; JInt 3])) 0 [request "m1"]
  = @batch_results offline (JArr [JObj []]) 0 [request "m1"].
Proof.
  apply (extra_array_elements_ignored (RT := offline) [JObj []] [JNull; JInt 3]
           [request "m1"]).
  apply Nat.leb_le. reflexivity.
Defined.

(** ** The text handed to the decoder *)

Section Extraction.

Lemma plain_not_space o c : plain o -> is_space c = true -> Ascii.eqb o c = false.
Proof.
  intros [Ho _] Hc. destruct (Ascii.eqb_spec o c) as [-> |]; [congruence | reflexivity].
Qed.

Lemma plain_not_wide o c : plain o -> is_ascii c = false -> Ascii.eqb o c = false.
Proof.
  intros [_ Ho] Hc. destruct (Ascii.eqb_spec o c) as [-> |]; [congruence | reflexivity].
Qed.

Lemma byte_in_wide lo hi c : (128 <= lo)%nat -> byte_in lo hi c = true -> is_ascii c = false.
Proof.
  unfold is_ascii, byte_in. intros Hlo H. apply andb_prop in H as [H1 _].
  apply Nat.leb_le in H1. apply andb_false_iff. right. apply Nat.leb_gt. lia.
Qed.

Lemma is_space2_wide c d :
  is_space2 c d = true -> is_ascii c = false /\ is_ascii d = false.
Proof.
  unfold is_space2. intros H. apply andb_prop in H as [Hc Hd].
  split; [apply (byte_in_wide 194 194); [lia | exact Hc] |].
  apply orb_prop in Hd as [Hd | Hd];
    [apply (byte_in_wide 133 133) | apply (byte_in_wide 160 160)]; (lia || exact Hd).
Qed.

Lemma is_space3_wide c d e :
  is_space3 c d e = true ->
  is_ascii c = false /\ is_ascii d = false /\ is_ascii e = false.
Proof.
  unfold is_space3. intros H.
  repeat match type of H with
         | (_ || _) = true => apply orb_prop in H as [H | H]
         end;
    repeat match goal with
           | G : (_ && _) = true |- _ => apply andb_prop in G as [? ?]
           | G : (_ || _) = true |- _ => apply orb_prop in G as [G | G]
           end;
    repeat split;
    match goal with
    | G : byte_in ?lo ?hi ?x = true |- is_ascii ?x = false =>
        apply (byte_in_wide lo hi); [lia | exact G]
    end.
Qed.

(** What [lstrip] removes holds no plain character. *)
Lemma lstrip_split_upto n : forall s, (String.length s <= n)%nat ->
  exists p, s = p ++ lstrip s /\ forall o, plain o -> has_char o p = false.
Proof.
  induction n as [| n IH]; intros s Hlen.
  - destruct s; [| cbn in Hlen; lia]. exists "". split; reflexivity.
  - destruct s as [| c r]; [exists ""; split; reflexivity |].
    cbn [String.length] in Hlen. cbn [lstrip].
    destruct (is_space c) eqn:Hc.
    { destruct (IH r ltac:(lia)) as (p & Hp & Hh).
      exists (String c p). split; [rewrite append_cons; f_equal; exact Hp |].
      intros o Ho. cbn [has_char]. rewrite (plain_not_space o c Ho Hc), (Hh o Ho).
      reflexivity. }
    destruct r as [| d r1]; [exists ""; split; reflexivity |].
    cbn [String.length] in Hlen.
    destruct (is_space2 c d) eqn:H2.
    { destruct (IH r1 ltac:(lia)) as (p & Hp & Hh).
      destruct (is_space2_wide c d H2) as [Wc Wd].
      exists (String c (String d p)).
      split; [rewrite !append_cons; do 2 f_equal; exact Hp |].
      intros o Ho. cbn [has_char].
      rewrite (plain_not_wide o c Ho Wc), (plain_not_wide o d Ho Wd), (Hh o Ho).
      reflexivity. }
    destruct r1 as [| e r2]; [exists ""; split; reflexivity |].
    cbn [String.length] in Hlen.
    destruct (is_space3 c d e) eqn:H3; [| exists ""; split; reflexivity].
    destruct (IH r2 ltac:(lia)) as (p & Hp & Hh).
    destruct (is_space3_wide c d e H3) as (Wc & Wd & We).
    exists (String c (String d (String e p))).
    split; [rewrite !append_cons; do 3 f_equal; exact Hp |].
    intros o Ho. cbn [has_char].
    rewrite (plain_not_wide o c Ho Wc), (plain_not_wide o d Ho Wd),
      (plain_not_wide o e Ho We), (Hh o Ho).
    reflexivity.
Qed.

Lemma lstrip_split s :
  exists p, s = p ++ lstrip s /\ forall o, plain o -> has_char o p = false.
Proof. apply (lstrip_split_upto (String.length s)). lia. Qed.

Lemma append_empty_r s : s ++ "" = s.
Proof. induction s as [| c s IH]; [reflexivity |]. rewrite append_cons, IH. reflexivity. Qed.

(** What [rstrip] removes holds no plain character. *)
Lemma rstrip_split s :
  exists q, s = rstrip s ++ q /\ forall o, plain o -> has_char o q = false.
Proof.
  induction s as [| c r IH]; [exists ""; split; reflexivity |].
  cbn [rstrip]. unfold all_space.
  destruct (lstrip (String c r)) as [| x t] eqn:Hl.
  - destruct (lstrip_split (String c r)) as (p & Hp & Hh).
    rewrite Hl, append_empty_r in Hp. exists (String c r).
    split; [reflexivity |]. rewrite Hp. exact Hh.
  - destruct IH as (q & Hq & Hh). exists q.
    split; [rewrite append_cons; f_equal; exact Hq | exact Hh].
Qed.

Lemma from_first_skip o before t :
  has_char o before = false ->
  from_first o (before ++ String o t) = Some (String o t).
Proof.
  induction before as [| a r IH]; intros H.
  - rewrite append_empty. cbn [from_first]. rewrite Ascii.eqb_refl. reflexivity.
  - cbn [has_char] in H. apply orb_false_elim in H as [Ha Hr].
    rewrite append_cons. cbn [from_first]. rewrite Ascii.eqb_sym, Ha. apply IH, Hr.
Qed.

Lemma from_first_prefix o p t :
  has_char o p = false -> from_first o (p ++ t) = from_first o t.
Proof.
  induction p as [| a r IH]; intros H; [reflexivity |].
  cbn [has_char] in H. apply orb_false_elim in H as [Ha Hr].
  rewrite append_cons. cbn [from_first]. rewrite Ascii.eqb_sym, Ha. apply IH, Hr.
Qed.

Lemma from_first_none o s : has_char o s = false -> from_first o s = None.
Proof.
  induction s as [| a r IH]; [reflexivity |]. cbn [has_char from_first].
  intros H. apply orb_false_elim in H as [Ha Hr].
  rewrite Ascii.eqb_sym, Ha. exact (IH Hr).
Qed.

Lemma from_first_suffix o t q :
  has_char o q = false ->
  from_first o (t ++ q) = option_map (fun u => u ++ q) (from_first o t).
Proof.
  intros Hq. induction t as [| a r IH].
  - rewrite append_empty. exact (from_first_none o q Hq).
  - rewrite append_cons. cbn [from_first].
    destruct (Ascii.eqb a o); [reflexivity | exact IH].
Qed.

Lemma from_first_starts o s u : from_first o s = Some u -> exists r, u = String o r.
Proof.
  induction s as [| a r IH]; [discriminate |]. cbn [from_first].
  destruct (Ascii.eqb_spec a o) as [-> |]; [intros [= <-]; eauto | exact IH].
Qed.

Lemma through_last_none c s : has_char c s = false -> through_last c s = None.
Proof.
  induction s as [| a r IH]; [reflexivity |]. cbn [has_char through_last].
  intros H. apply orb_false_elim in H as [Ha Hr].
  rewrite (IH Hr), Ascii.eqb_sym, Ha. reflexivity.
Qed.

Lemma through_last_append c body after :
  has_char c after = false ->
  through_last c (body ++ String c after) = Some (body ++ String c EmptyString).
Proof.
  intros H. induction body as [| a r IH].
  - rewrite !append_empty. cbn [through_last].
    rewrite (through_last_none c after H), Ascii.eqb_refl. reflexivity.
  - rewrite !append_cons. cbn [through_last]. rewrite IH. reflexivity.
Qed.

Lemma through_last_suffix c t q :
  has_char c q = false -> through_last c (t ++ q) = through_last c t.
Proof.
  intros Hq. induction t as [| a r IH].
  - rewrite append_empty. exact (through_last_none c q Hq).
  - rewrite append_cons. cbn [through_last]. rewrite IH. reflexivity.
Qed.

(** Stripping the reply does not change the span that the search finds. *)
Lemma re_search_span_strip o c s :
  plain o -> plain c -> re_search_span o c (strip s) = re_search_span o c s.
Proof.
  intros Ho Hc. unfold strip.
  destruct (lstrip_split s) as (p & Hp & Hhp).
  destruct (rstrip_split (lstrip s)) as (q & Hq & Hhq).
  set (m := rstrip (lstrip s)) in *.
  rewrite Hp, Hq. unfold re_search_span.
  rewrite (from_first_prefix o p _ (Hhp o Ho)), (from_first_suffix o m q (Hhq o Ho)).
  destruct (from_first o m) as [u |] eqn:Hu; cbn [option_map]; [| reflexivity].
  destruct (from_first_starts o m u Hu) as (r & ->).
  rewrite append_cons, (through_last_suffix c r q (Hhq c Hc)). reflexivity.
Qed.

End Extraction.

(** Prose around the JSON is dropped before decoding: when the text before
    the opening character holds no opening character and the text after the
    closing one holds no closing character, what is handed to the decoder is
    exactly the span between the two, they included.  This holds for every
    two characters of ASCII that are not white space: for the braces of the
    single-message reply and for the brackets of the combined one. *)
Theorem extract_drops_surrounding_prose (open close : ascii)
    (before body after : string) :
  is_space open = false -> is_space close = false ->
  is_ascii open = true -> is_ascii close = true ->
  has_char open before = false -> has_char close after = false ->
  extract open close (before ++ String open (body ++ String close after))
  = String open (body ++ String close EmptyString).
Proof.
  intros Ho Hc Ao Ac Hb Ha. unfold extract.
  rewrite (re_search_span_strip open close _ (conj Ho Ao) (conj Hc Ac)).
  unfold re_search_span.
  rewrite (from_first_skip open before _ Hb), (through_last_append close body after Ha).
  reflexivity.
Qed.

Lemma extract_drops_surrounding_prose_witness :
  extract "{" "}"
    (no_break_spaces ++ "Sure! Here it is: "
     ++ String "{" ("1" ++ String "}" (" Hope it helps." ++ no_break_spaces)))
  = String "{" ("1" ++ String "}" EmptyString) /\
  extract "[" "]" ("The array: " ++ String "[" ("1, 2" ++ String "]" "."))
  = String "[" ("1, 2" ++ String "]" EmptyString).
Proof.
  split.
  - apply (extract_drops_surrounding_prose "{" "}" (no_break_spaces ++ "Sure! Here it is: ")
             "1" (" Hope it helps." ++ no_break_spaces)); reflexivity.
  - apply (extract_drops_surrounding_prose "[" "]" "The array: " "1, 2" "."); reflexivity.
Defined.

(** The sentiment of a reply is accepted exactly when it is a string that,
    lower-cased, is the value of a member of the enumeration; the member is
    then the sentiment of the record. *)
Theorem sentiment_of_accepts (v : json) (t : SentimentType) :
  sentiment_of v = Ok t <-> exists s, v = JStr s /\ lower s = value t.
Proof.
  unfold sentiment_of, py_lower, SentimentType_of. split.
  - destruct v as [| | | | s | |]; cbn; try discriminate.
    intros H. exists s. split; [reflexivity |].
    destruct (String.eqb_spec (lower s) "positive") as [E |];
      [injection H as <-; exact E |].
    destruct (String.eqb_spec (lower s) "negative") as [E |];
      [injection H as <-; exact E |].
    destruct (String.eqb_spec (lower s) "neutral") as [E |];
      [injection H as <-; exact E | discriminate H].
  - intros (s & -> & E). cbn. rewrite E. destruct t; reflexivity.
Qed.

(** ** The bulk endpoint *)





(** A batch of no message, or of more than 15, is answered with status 500
    whatever the completion service does: the 400 of the validation is
    raised inside the [try] and its handler turns it into a 500, the text of
    the 400 being the end of the detail. *)
Theorem analyze_bulk_sentiment_rejects {RT : PyRuntime} (call : nat) (now : string)
    (messages : list MessageRequest) :
  (length messages = 0 \/ 15 < length messages)%nat ->
  exists detail,
    analyze_bulk_sentiment call now messages
    = Raise (HTTPException 500
               ("Bulk sentiment analysis failed: " ++ exn_str (HTTPException 400 detail))).
Proof.
  intros H. unfold analyze_bulk_sentiment.
  destruct (length messages =? 0)%nat eqn:H0; [eexists; reflexivity |].
  apply Nat.eqb_neq in H0.
  assert (H15 : (15 <? length messages)%nat = true) by (apply Nat.ltb_lt; lia).
  rewrite H15. eexists. reflexivity.
Qed.

Lemma analyze_bulk_sentiment_rejects_witness :
  (length (replicate 16 (request "hello")) = 0
   \/ 15 < length (replicate 16 (request "hello")))%nat /\
  status (@analyze_bulk_sentiment offline 0 "2024-01-01T00:00:00"
            (replicate 16 (request "hello"))) = 500.
Proof.
  assert (H : (length (replicate 16 (request "hello")) = 0
               \/ 15 < length (replicate 16 (request "hello")))%nat)
    by (right; apply Nat.ltb_lt; reflexivity).
  split; [exact H |].
  destruct (analyze_bulk_sentiment_rejects (RT := offline) 0 "2024-01-01T00:00:00"
              (replicate 16 (request "hello")) H) as (detail & ->). reflexivity.
Defined.

Lemma sentiment_of_accepts_witness :
  sentiment_of (JStr "NEGATIVE") = Ok NEGATIVE.
Proof.
  apply (proj2 (sentiment_of_accepts (JStr "NEGATIVE") NEGATIVE)).
  exists "NEGATIVE". split; reflexivity.
Defined.
